(** * remix-validated-form: the [ValidatedForm] synchronization engine

    A shallow embedding of
    [packages/remix-validated-form/src/ValidatedForm.tsx] and proofs about
    its submit and reset handlers, its context callbacks, the matching of
    server responses to forms and the focus dispatch.

    Conventions of the embedding.
    - A JavaScript object is a list of own properties in insertion order.
      It lives in a store and is denoted by a reference (its address), so
      [Object.is] on objects is equality of references.  The component
      never mutates an object: every update allocates a new one.
    - [undefined] and [null] are [None].  Truthiness follows JavaScript: an
      absent value and the empty string are falsy, a non-empty string and
      every object are truthy.
    - A field name is an arbitrary string.  The members every plain
      object inherits from [Object.prototype] are visible to [in], and the
      selector the focus step builds from field names is handed to the
      form element as the string it is. *)

From Stdlib Require Import String List Bool Arith Lia.
From stdpp Require Import base option list.
Import ListNotations.
Open Scope string_scope.
Open Scope list_scope.

(** ** JavaScript values and plain objects *)

Module Js.

(** [!!s] for a string. *)
Definition truthy_string (s : string) : bool := negb (s =? "").

(** [!!v] for [v : string | undefined | null]. *)
Definition truthy (v : option string) : bool :=
  match v with
  | Some s => truthy_string s
  | None => false
  end.

(** [a === b] for [a, b : string | undefined]. *)
Definition strict_eq (a b : option string) : bool :=
  match a, b with
  | Some x, Some y => x =? y
  | None, None => true
  | _, _ => false
  end.

(** [a ?? b] *)
Definition nullish {A : Type} (a b : option A) : option A :=
  match a with
  | Some _ => a
  | None => b
  end.

(** Own properties of a plain object, in insertion order. *)
Definition Obj (V : Type) : Type := list (string * V).

(** The property names [Object.prototype] defines.  Every plain object,
    whether written as a literal, copied by a spread or parsed from JSON,
    inherits them. *)
Definition Object_prototype : list string :=
  ["constructor"; "__defineGetter__"; "__defineSetter__"; "hasOwnProperty";
   "__lookupGetter__"; "__lookupSetter__"; "isPrototypeOf";
   "propertyIsEnumerable"; "toString"; "valueOf"; "__proto__";
   "toLocaleString"].

Definition inherited (key : string) : bool :=
  existsb (String.eqb key) Object_prototype.

Section Objects.
Context {V : Type}.

(** [obj[key]] as a string: the own property.  A member found on the
    prototype is a function or an object, which is no string and is
    [===] to none. *)
Fixpoint get (o : Obj V) (key : string) : option V :=
  match o with
  | [] => None
  | (k, v) :: rest => if k =? key then Some v else get rest key
  end.

(** [Object.hasOwn(obj, key)]: [key] is among [Object.keys(obj)]. *)
Definition has (o : Obj V) (key : string) : bool :=
  match get o key with
  | Some _ => true
  | None => false
  end.

(** [key in obj]: an own property, or one found on the prototype. *)
Definition in_ (o : Obj V) (key : string) : bool :=
  has o key || inherited key.

(** [Object.keys(obj)] *)
Definition keys (o : Obj V) : list string := map fst o.

(** The properties of [{ ...obj, [key]: v }]: an existing key keeps its
    place, a new one goes last. *)
Fixpoint set (o : Obj V) (key : string) (v : V) : Obj V :=
  match o with
  | [] => [(key, v)]
  | (k, w) :: rest =>
      if k =? key then (k, v) :: rest else (k, w) :: set rest key v
  end.

(** The properties left after [delete obj[key]]. *)
Definition remove (o : Obj V) (key : string) : Obj V :=
  List.filter (fun kv => negb (fst kv =? key)) o.

End Objects.

End Js.

(** ** The object store *)

Definition Ref : Type := nat.

(** [Object.is(a, b)] on two objects. *)
Definition Object_is (a b : Ref) : bool := Nat.eqb a b.

Definition Store (V : Type) : Type := list (Js.Obj V).

(** Evaluation of an object literal: the object gets the next address. *)
Definition alloc {V : Type} (h : Store V) (o : Js.Obj V) : Store V * Ref :=
  (h ++ [o], length h).

Definition deref {V : Type} (h : Store V) (r : Ref) : Js.Obj V :=
  default [] (@lookup nat (Js.Obj V) (list (Js.Obj V)) _ r h).

(** ** [validation/types]

    The type declarations are not among the sources; they are read off
    their uses in [ValidatedForm.tsx] and in the test application. *)

(** A [FormData]: the entries of a form, in order, keys possibly repeated. *)
Definition FormData : Type := list (string * string).

(** [formData.get(name)]: the first value under [name], or [null]. *)
Definition FormData_get (fd : FormData) (name : string) : option string :=
  Js.get fd name.

Definition FieldErrors : Type := Js.Obj string.
Definition TouchedFields : Type := Js.Obj bool.

(** A caller- or server-supplied value the engine passes on without
    looking inside ([defaultValues], [repopulateFields]); only its identity
    is observed. *)
Definition Opaque : Type := nat.

(** The result of [validator.validate]: either [{ data }] or
    [{ error: { fieldErrors }, submittedData }]. *)
Inductive ValidationResult (D : Type) : Type :=
| Valid (data : D)
| Invalid (fieldErrors : FieldErrors) (submittedData : FormData).
Arguments Valid {D} data.
Arguments Invalid {D} fieldErrors submittedData.

(** [validateField] yields [{ error?: string }]; the record is reduced to
    its one field. *)
Record Validator (D : Type) : Type := {
  validate : FormData -> ValidationResult D;
  validateField : FormData -> string -> option string
}.
Arguments validate {D} _ _.
Arguments validateField {D} _ _ _.

(** What [useActionData()] or [fetcher.data] holds once it is an object:
    the three members the component reads.  [ad_fieldErrors] is [None] when
    the member is missing (a response that is not a validation error). *)
Record ActionData : Type := {
  ad_fieldErrors : option Ref;
  ad_subaction : option string;
  ad_repopulateFields : option Opaque
}.

Inductive FetcherState : Type := FetcherIdle | FetcherSubmitting | FetcherLoading.

(** The members of a fetcher the component reads ([fetcher.Form] only
    selects the rendered element). *)
Record Fetcher : Type := {
  fetcher_state : FetcherState;
  fetcher_data : option ActionData
}.

(** [useTransition().submission] *)
Record Submission : Type := {
  sub_formData : FormData;
  sub_action : string
}.

(** ** The hooks of [ValidatedForm.tsx]

    A hook that reads ambient router state takes that state as its first
    arguments. *)

Definition useErrorResponseForThisForm
    (actionData : option ActionData)
    (fetcher : option Fetcher) (subaction : option string)
  : option ActionData :=
  match fetcher with
  | Some f =>
      match fetcher_data f with
      | Some data =>
          match ad_fieldErrors data with
          | Some _ => Some data
          | None => None
          end
      | None => None
      end
  | None =>
      match actionData with
      | None => None
      | Some ad =>
          match ad_fieldErrors ad with
          | None => None
          | Some _ =>
              if (negb (Js.truthy subaction) && negb (Js.truthy (ad_subaction ad)))
                 || Js.strict_eq (ad_subaction ad) subaction
              then Some ad
              else None
          end
      end
  end.

Definition useIsSubmitting
    (actionForCurrentPage : string) (pendingFormSubmit : option Submission)
    (action subaction : option string) (fetcher : option Fetcher) : bool :=
  match fetcher with
  | Some f =>
      match fetcher_state f with
      | FetcherSubmitting => true
      | _ => false
      end
  | None =>
      match pendingFormSubmit with
      | None => false
      | Some pending =>
          let pendingAction := sub_action pending in
          let pendingSubAction := FormData_get (sub_formData pending) "subaction" in
          let expectedAction := default actionForCurrentPage action in
          if Js.truthy subaction
          then (expectedAction =? pendingAction)
               && Js.strict_eq subaction pendingSubAction
          else (expectedAction =? pendingAction)
               && negb (Js.truthy pendingSubAction)
      end
  end.

Definition useDefaultValues
    (repopulateFieldsFromBackend defaultValues : option Opaque)
  : option Opaque :=
  Js.nullish repopulateFieldsFromBackend defaultValues.

(** ** [internal/util], [internal/MultiValueMap],
       [internal/submissionCallbacks]

    These three modules are imported by [ValidatedForm.tsx] and are not
    among the sources. *)

(** Modelled from the spec: [omit] of [internal/util] is missing.  The spec
    gives it no contract of its own; it names the result only through its
    use (an entry of the Field Error Store is removed).  It is modelled as
    the customary copy-then-delete, [{ ...obj }] followed by [delete] of
    each key, which returns a new object whether or not a key was present.
    That is the behaviour the guard [if (!(fieldName in prev)) return prev]
    of [validateField] is written against. *)
Definition omit {V : Type} (h : Store V) (obj : Ref) (keys : list string)
  : Store V * Ref :=
  alloc h (fold_left Js.remove keys (deref h obj)).

(** A callback [() => void] registered by a field component; it is known
    by its identity only. *)
Definition Handler : Type := nat.

Module MultiValueMap.

(** Modelled from the spec: the class [MultiValueMap] is missing.  The spec
    describes a multi-valued registry, a mapping from a key to an ordered
    list of callback handles, with registration, membership, retrieval of
    all handles of a key, and removal by value of the first match only.
    The registrations are kept in the order they were made. *)
Definition t : Type := list (string * Handler).

Definition empty : t := [].

Definition add (m : t) (key : string) (value : Handler) : t :=
  m ++ [(key, value)].

Fixpoint remove (m : t) (key : string) (value : Handler) : t :=
  match m with
  | [] => []
  | (k, v) :: rest =>
      if (k =? key) && Nat.eqb v value then rest
      else (k, v) :: remove rest key value
  end.

Definition getAll (m : t) (key : string) : list Handler :=
  map snd (List.filter (fun kv => fst kv =? key) m).

Definition has (m : t) (key : string) : bool :=
  existsb (fun kv => fst kv =? key) m.

End MultiValueMap.

(** Modelled from the spec: [useSubmitComplete] of
    [internal/submissionCallbacks] is missing.  The spec describes an
    edge-triggered watcher over the two-state signal [Idle]/[Submitting]
    that runs after every render and invokes the completion callback on the
    falling edge only.  The function returns the next state and whether the
    callback is invoked by this render. *)
Inductive Lifecycle : Type := Idle | Submitting.

Definition useSubmitComplete (state : Lifecycle) (isSubmitting : bool)
  : Lifecycle * bool :=
  match isSubmitting, state with
  | true, _ => (Submitting, false)
  | false, Submitting => (Idle, true)
  | false, Idle => (Idle, false)
  end.

(** ** The form element *)

(** An element below the form: the tag and the two IDL attributes the
    component reads.  [el_id] tells elements apart.  [el_name] reflects
    the [name] attribute; an element without the attribute is not told
    apart from one whose name is empty. *)
Record Element : Type := {
  el_id : nat;
  el_tag : string;
  el_name : string;
  el_type : string
}.

(** The outcome of a call that may throw. *)
Inductive Completion (A : Type) : Type :=
| Returns (value : A)
| Throws (error : string).
Arguments Returns {A} value.
Arguments Throws {A} error.

(** The form as the component sees it: its descendants in document order,
    the entries a [FormData] built from it would hold, and what the
    selector engine of the document answers when the form is queried with
    a selector that is not empty. *)
Record FormElement : Type := {
  form_elements : list Element;
  form_entries : FormData;
  form_matches : string -> Completion (list Element)
}.

Definition getDataFromForm (el : FormElement) : FormData := form_entries el.

(** [formElement.querySelectorAll(selectors)].  The empty string is no
    selector and is rejected with a syntax error; every other string is
    for the engine to parse. *)
Definition querySelectorAll (formElement : FormElement) (selectors : string)
  : Completion (list Element) :=
  if selectors =? "" then Throws "SyntaxError"
  else form_matches formElement selectors.

(** The double quote. *)
Definition dquote : string := String (Ascii.ascii_of_nat 34) EmptyString.

(** The template literal [`input[name="${fieldName}"]`]: the name is
    spliced in as it is. *)
Definition inputNamed (fieldName : string) : string :=
  String.append "input[name="
    (String.append dquote (String.append fieldName (String.append dquote "]"))).

(** An [input] element with the attribute [name] equal to [name]. *)
Definition named_input (e : Element) (name : string) : bool :=
  (el_tag e =? "input") && (el_name e =? name).

Module Dom.

(** A selector engine for forms built by hand.  It reads a comma-separated
    list of [input[name="..."]] whose names hold no double quote, no
    backslash and no line break, and answers with the inputs bearing one
    of the names, in document order.  Any other string it rejects; the
    engine of a browser reads far more. *)

(** [s] without its prefix [prefix]. *)
Fixpoint strip (prefix s : string) : option string :=
  match prefix, s with
  | EmptyString, _ => Some s
  | String a p, String b r => if Ascii.eqb a b then strip p r else None
  | String _ _, EmptyString => None
  end.

(** A character that ends or alters a quoted string of a selector. *)
Definition special (c : Ascii.ascii) : bool :=
  existsb (Nat.eqb (Ascii.nat_of_ascii c)) [0; 10; 12; 13; 34; 92].

(** A name with none of these characters: it is spliced into a quoted
    string and read back as it is. *)
Fixpoint plain (s : string) : bool :=
  match s with
  | EmptyString => true
  | String c rest => negb (special c) && plain rest
  end.

(** The name up to the closing quote, and what follows the quote. *)
Fixpoint quoted (s : string) : option (string * string) :=
  match s with
  | EmptyString => None
  | String c rest =>
      if Nat.eqb (Ascii.nat_of_ascii c) 34 then Some (EmptyString, rest)
      else if special c then None
      else match quoted rest with
           | Some (name, after) => Some (String c name, after)
           | None => None
           end
  end.

Fixpoint names (fuel : nat) (selectors : string) : option (list string) :=
  match fuel with
  | 0 => None
  | S fuel =>
      match strip (String.append "input[name=" dquote) selectors with
      | None => None
      | Some body =>
          match quoted body with
          | None => None
          | Some (name, after) =>
              match strip "]" after with
              | None => None
              | Some EmptyString => Some [name]
              | Some more =>
                  match strip "," more with
                  | None => None
                  | Some others =>
                      match names fuel others with
                      | Some ns => Some (name :: ns)
                      | None => None
                      end
                  end
              end
          end
      end
  end.

Definition select (elements : list Element) (selectors : string)
  : Completion (list Element) :=
  match names (String.length selectors) selectors with
  | Some ns => Returns (List.filter (fun e => existsb (named_input e) ns) elements)
  | None => Throws "SyntaxError"
  end.

(** A form with the given descendants and entries, queried through
    [select]. *)
Definition form (elements : list Element) (entries : FormData) : FormElement :=
  {| form_elements := elements;
     form_entries := entries;
     form_matches := select elements |}.

End Dom.

(** What the component does to the outside, in order. *)
Inductive Call (D : Type) : Type :=
| CallOnSubmit (data : D)
| CallOnReset
| CallHandler (handler : Handler)
| CallFocus (element : nat)
| CallFormReset
| Uncaught (message : string).
Arguments CallOnSubmit {D} data.
Arguments CallOnReset {D}.
Arguments CallHandler {D} handler.
Arguments CallFocus {D} element.
Arguments CallFormReset {D}.
Arguments Uncaught {D} message.

Section Focus.
Context {D : Type}.

(** The [for ... of] loop of [focusFirstInvalidInput], with its [break]
    and [continue]. *)
Fixpoint focusLoop (customFocusHandlers : MultiValueMap.t)
    (invalidInputs : list Element) : list (Call D) :=
  match invalidInputs with
  | [] => []
  | input :: rest =>
      if MultiValueMap.has customFocusHandlers (el_name input)
      then map CallHandler (MultiValueMap.getAll customFocusHandlers (el_name input))
      else if el_type input =? "hidden"
      then focusLoop customFocusHandlers rest
      else [CallFocus (el_id input)]
  end.

(** [focusFirstInvalidInput]; [formElement] is [None] when the reference
    passed in is [null], and the call of its method is then a type error. *)
Definition focusFirstInvalidInput (fieldErrors : FieldErrors)
    (customFocusHandlers : MultiValueMap.t) (formElement : option FormElement)
  : Completion (list (Call D)) :=
  let invalidInputSelector :=
    String.concat "," (map inputNamed (Js.keys fieldErrors)) in
  match formElement with
  | None => Throws "TypeError"
  | Some form =>
      match querySelectorAll form invalidInputSelector with
      | Throws error => Throws error
      | Returns invalidInputs =>
          Returns (focusLoop customFocusHandlers invalidInputs)
      end
  end.

End Focus.

(** ** Props, events and the state of a mounted form *)

(** A submit or reset event: its target and the flag [preventDefault]
    sets. *)
Record FormEvent : Type := {
  currentTarget : FormElement;
  defaultPrevented : bool
}.

Definition preventDefault (event : FormEvent) : FormEvent :=
  {| currentTarget := currentTarget event; defaultPrevented := true |}.

(** The props [ValidatedForm] destructures, except [children], [formRef]
    and [fetcher].  A caller's callback is an arbitrary function; of what
    it does, the embedding keeps whether it calls [event.preventDefault()].
    The fetcher prop is the handle of [useFetcher] in the caller, whose
    members change between renders: it is kept with the router state. *)
Record FormProps (D : Type) : Type := {
  validator : Validator D;
  onSubmit : option (D -> FormEvent -> bool);
  action : option string;
  defaultValues : option Opaque;
  onReset : option (FormEvent -> bool);
  subaction : option string;
  resetAfterSubmit : bool;
  disableFocusOnError : bool
}.
Arguments validator {D} _.
Arguments onSubmit {D} _.
Arguments action {D} _.
Arguments defaultValues {D} _.
Arguments onReset {D} _.
Arguments subaction {D} _.
Arguments resetAfterSubmit {D} _.
Arguments disableFocusOnError {D} _.

(** What the hooks of [@remix-run/react] return at a given render. *)
Record Router : Type := {
  r_actionData : option ActionData;
  r_fetcher : option Fetcher;
  r_pendingFormSubmit : option Submission;
  r_actionForCurrentPage : string
}.

(** The data members of [FormContextValue]; its four callbacks are the
    transitions of module [FormContext] below. *)
Record FormContextValue : Type := {
  cv_fieldErrors : Ref;
  cv_action : option string;
  cv_defaultValues : option Opaque;
  cv_isSubmitting : bool;
  cv_isValid : bool;
  cv_touchedFields : Ref;
  cv_hasBeenSubmitted : bool
}.

(** The dependency array of the [useMemo] that builds the context value.
    [setFieldErrors] and [customFocusHandlers] keep their identity for the
    life of the component, and so does [validator] while the props are
    the same; they never force a recomputation and are left out. *)
Record Deps : Type := {
  dep_fieldErrors : Ref;
  dep_action : option string;
  dep_defaultsToUse : option Opaque;
  dep_isSubmitting : bool;
  dep_touchedFields : Ref;
  dep_hasBeenSubmitted : bool
}.

Definition same_opaque (a b : option Opaque) : bool :=
  match a, b with
  | Some x, Some y => Nat.eqb x y
  | None, None => true
  | _, _ => false
  end.

(** Every member compared with [Object.is]. *)
Definition same_deps (a b : Deps) : bool :=
  Object_is (dep_fieldErrors a) (dep_fieldErrors b)
  && Js.strict_eq (dep_action a) (dep_action b)
  && same_opaque (dep_defaultsToUse a) (dep_defaultsToUse b)
  && Bool.eqb (dep_isSubmitting a) (dep_isSubmitting b)
  && Object_is (dep_touchedFields a) (dep_touchedFields b)
  && Bool.eqb (dep_hasBeenSubmitted a) (dep_hasBeenSubmitted b).

(** [useMemo(factory, deps)] against the value cached by the last render. *)
Definition useMemo (cache : option (Deps * FormContextValue))
    (factory : unit -> FormContextValue) (deps : Deps)
  : Deps * FormContextValue :=
  match cache with
  | Some (old, value) =>
      if same_deps old deps then (old, value) else (deps, factory tt)
  | None => (deps, factory tt)
  end.

(** The stores, the router state and the state kept by the hooks of one
    mounted [ValidatedForm], with two observations: [w_updates] counts the
    state updates React accepted (those whose new value is not
    [Object.is]-equal to the old one, each of which notifies a change and
    schedules a render), [w_calls] lists the calls made to the outside. *)
Record World (D : Type) : Type := {
  w_errors : Store string;
  w_touched : Store bool;
  w_router : Router;
  w_fieldErrors : Ref;
  w_backendDep : option (option Ref);
  w_touchedFields : Ref;
  w_hasBeenSubmitted : bool;
  w_formRef : option FormElement;
  w_lifecycle : Lifecycle;
  w_customFocusHandlers : MultiValueMap.t;
  w_memo : option (Deps * FormContextValue);
  w_updates : nat;
  w_calls : list (Call D)
}.
Arguments w_errors {D} _.
Arguments w_touched {D} _.
Arguments w_router {D} _.
Arguments w_fieldErrors {D} _.
Arguments w_backendDep {D} _.
Arguments w_touchedFields {D} _.
Arguments w_hasBeenSubmitted {D} _.
Arguments w_formRef {D} _.
Arguments w_lifecycle {D} _.
Arguments w_customFocusHandlers {D} _.
Arguments w_memo {D} _.
Arguments w_updates {D} _.
Arguments w_calls {D} _.

(** The Field Error Store and the Touched Field Store as mappings. *)
Definition fieldErrorsOf {D : Type} (w : World D) : FieldErrors :=
  deref (w_errors w) (w_fieldErrors w).

Definition touchedFieldsOf {D : Type} (w : World D) : TouchedFields :=
  deref (w_touched w) (w_touchedFields w).

Section Engine.
Context {D : Type}.

(** *** State setters

    [useState] setters, applied to the pending state at once.  The argument
    is the updater; it runs against the object store because it may
    evaluate an object literal. *)

Definition setFieldErrors
    (updater : Store string -> Ref -> Store string * Ref) (w : World D)
  : World D :=
  let '(errors, next) := updater (w_errors w) (w_fieldErrors w) in
  {| w_errors := errors;
     w_touched := w_touched w;
     w_router := w_router w;
     w_fieldErrors := next;
     w_backendDep := w_backendDep w;
     w_touchedFields := w_touchedFields w;
     w_hasBeenSubmitted := w_hasBeenSubmitted w;
     w_formRef := w_formRef w;
     w_lifecycle := w_lifecycle w;
     w_customFocusHandlers := w_customFocusHandlers w;
     w_memo := w_memo w;
     w_updates := if Object_is next (w_fieldErrors w)
                  then w_updates w else S (w_updates w);
     w_calls := w_calls w |}.

Definition setTouchedFields
    (updater : Store bool -> Ref -> Store bool * Ref) (w : World D)
  : World D :=
  let '(touched, next) := updater (w_touched w) (w_touchedFields w) in
  {| w_errors := w_errors w;
     w_touched := touched;
     w_router := w_router w;
     w_fieldErrors := w_fieldErrors w;
     w_backendDep := w_backendDep w;
     w_touchedFields := next;
     w_hasBeenSubmitted := w_hasBeenSubmitted w;
     w_formRef := w_formRef w;
     w_lifecycle := w_lifecycle w;
     w_customFocusHandlers := w_customFocusHandlers w;
     w_memo := w_memo w;
     w_updates := if Object_is next (w_touchedFields w)
                  then w_updates w else S (w_updates w);
     w_calls := w_calls w |}.

Definition setHasBeenSubmitted (value : bool) (w : World D) : World D :=
  {| w_errors := w_errors w;
     w_touched := w_touched w;
     w_router := w_router w;
     w_fieldErrors := w_fieldErrors w;
     w_backendDep := w_backendDep w;
     w_touchedFields := w_touchedFields w;
     w_hasBeenSubmitted := value;
     w_formRef := w_formRef w;
     w_lifecycle := w_lifecycle w;
     w_customFocusHandlers := w_customFocusHandlers w;
     w_memo := w_memo w;
     w_updates := if Bool.eqb value (w_hasBeenSubmitted w)
                  then w_updates w else S (w_updates w);
     w_calls := w_calls w |}.

(** Calls to the outside are appended to the log. *)
Definition call (cs : list (Call D)) (w : World D) : World D :=
  {| w_errors := w_errors w;
     w_touched := w_touched w;
     w_router := w_router w;
     w_fieldErrors := w_fieldErrors w;
     w_backendDep := w_backendDep w;
     w_touchedFields := w_touchedFields w;
     w_hasBeenSubmitted := w_hasBeenSubmitted w;
     w_formRef := w_formRef w;
     w_lifecycle := w_lifecycle w;
     w_customFocusHandlers := w_customFocusHandlers w;
     w_memo := w_memo w;
     w_updates := w_updates w;
     w_calls := w_calls w ++ cs |}.

(** Writes to what [useRef] and [useMemo] keep; none of them is a state
    update. *)
Definition with_hooks (backendDep : option (option Ref))
    (formRef : option FormElement) (lifecycle : Lifecycle)
    (handlers : MultiValueMap.t) (memo : option (Deps * FormContextValue))
    (w : World D) : World D :=
  {| w_errors := w_errors w;
     w_touched := w_touched w;
     w_router := w_router w;
     w_fieldErrors := w_fieldErrors w;
     w_backendDep := backendDep;
     w_touchedFields := w_touchedFields w;
     w_hasBeenSubmitted := w_hasBeenSubmitted w;
     w_formRef := formRef;
     w_lifecycle := lifecycle;
     w_customFocusHandlers := handlers;
     w_memo := memo;
     w_updates := w_updates w;
     w_calls := w_calls w |}.

Definition with_backendDep (dep : option (option Ref)) (w : World D) : World D :=
  with_hooks dep (w_formRef w) (w_lifecycle w) (w_customFocusHandlers w)
             (w_memo w) w.

Definition with_formRef (formRef : option FormElement) (w : World D) : World D :=
  with_hooks (w_backendDep w) formRef (w_lifecycle w)
             (w_customFocusHandlers w) (w_memo w) w.

Definition with_lifecycle (lifecycle : Lifecycle) (w : World D) : World D :=
  with_hooks (w_backendDep w) (w_formRef w) lifecycle
             (w_customFocusHandlers w) (w_memo w) w.

Definition with_customFocusHandlers (handlers : MultiValueMap.t) (w : World D)
  : World D :=
  with_hooks (w_backendDep w) (w_formRef w) (w_lifecycle w) handlers
             (w_memo w) w.

Definition with_memo (memo : option (Deps * FormContextValue)) (w : World D)
  : World D :=
  with_hooks (w_backendDep w) (w_formRef w) (w_lifecycle w)
             (w_customFocusHandlers w) memo w.

End Engine.

(** ** The context callbacks *)

Module FormContext.
Section Callbacks.
Context {D : Type}.

Definition setFieldTouched (fieldName : string) (touched : bool) (w : World D)
  : World D :=
  setTouchedFields
    (fun h prev => alloc h (Js.set (deref h prev) fieldName touched)) w.

Definition clearError (fieldName : string) (w : World D) : World D :=
  setFieldErrors (fun h prev => omit h prev [fieldName]) w.

(** [validator] is the prop captured by the memoised closure. *)
Definition validateField (validator : Validator D) (fieldName : string)
    (w : World D) : World D :=
  match w_formRef w with
  | None => call [Uncaught "Invariant failed: Cannot find reference to form"] w
  | Some form =>
      let error := validateField validator (getDataFromForm form) fieldName in
      if Js.truthy error
      then
        setFieldErrors
          (fun h prev =>
             if Js.strict_eq (Js.get (deref h prev) fieldName) error
             then (h, prev)
             else alloc h (Js.set (deref h prev) fieldName (default "" error)))
          w
      else
        setFieldErrors
          (fun h prev =>
             if negb (Js.in_ (deref h prev) fieldName)
             then (h, prev)
             else omit h prev [fieldName])
          w
  end.

Definition registerReceiveFocus (fieldName : string) (handler : Handler)
    (w : World D) : World D :=
  with_customFocusHandlers
    (MultiValueMap.add (w_customFocusHandlers w) fieldName handler) w.

(** The function [registerReceiveFocus] returns. *)
Definition unregisterReceiveFocus (fieldName : string) (handler : Handler)
    (w : World D) : World D :=
  with_customFocusHandlers
    (MultiValueMap.remove (w_customFocusHandlers w) fieldName handler) w.

End Callbacks.
End FormContext.

(** ** The handlers passed to [Form] and the render function *)

Section Component.
Context {D : Type}.
Variable props : FormProps D.

(** The [onSubmit] handler.  A validator builds its result at each call,
    so the object [result.error.fieldErrors] is allocated here.  An
    exception of [focusFirstInvalidInput] leaves the handler after the
    state updates are queued; React still applies them. *)
Definition Form_onSubmit (event : FormEvent) (w : World D)
  : FormEvent * World D :=
  let w := setHasBeenSubmitted true w in
  match validate (validator props) (getDataFromForm (currentTarget event)) with
  | Invalid fieldErrors _ =>
      let event := preventDefault event in
      let w := setFieldErrors (fun h _ => alloc h fieldErrors) w in
      if negb (disableFocusOnError props)
      then
        match focusFirstInvalidInput fieldErrors (w_customFocusHandlers w)
                                     (w_formRef w) with
        | Returns calls => (event, call calls w)
        | Throws error => (event, call [Uncaught error] w)
        end
      else (event, w)
  | Valid data =>
      match onSubmit props with
      | Some callback =>
          (if callback data event then preventDefault event else event,
           call [CallOnSubmit data] w)
      | None => (event, w)
      end
  end.

(** The [onReset] handler. *)
Definition Form_onReset (event : FormEvent) (w : World D)
  : FormEvent * World D :=
  let '(event, w) :=
    match onReset props with
    | Some handler =>
        (if handler event then preventDefault event else event,
         call [CallOnReset] w)
    | None => (event, w)
    end in
  if defaultPrevented event then (event, w)
  else
    let w := setFieldErrors (fun h _ => alloc h []) w in
    let w := setTouchedFields (fun h _ => alloc h []) w in
    let w := setHasBeenSubmitted false w in
    (event, w).

(** The [useState] initialiser of [useFieldErrors]:
    [fieldErrorsFromBackend ?? {}]. *)
Definition useFieldErrors_initial (errors : Store string)
    (fieldErrorsFromBackend : option Ref) : Store string * Ref :=
  match fieldErrorsFromBackend with
  | Some r => (errors, r)
  | None => alloc errors []
  end.

(** Whether the dependency of the effect is the one of its last run;
    there is no last run at the first render. *)
Definition same_backendDep (last : option (option Ref))
    (fieldErrorsFromBackend : option Ref) : bool :=
  match last with
  | None => false
  | Some None =>
      match fieldErrorsFromBackend with
      | None => true
      | Some _ => false
      end
  | Some (Some old) =>
      match fieldErrorsFromBackend with
      | None => false
      | Some r => Object_is old r
      end
  end.

(** The effect of [useFieldErrors]. *)
Definition useFieldErrors_effect (fieldErrorsFromBackend : option Ref)
    (w : World D) : World D :=
  if same_backendDep (w_backendDep w) fieldErrorsFromBackend then w
  else
    let w := with_backendDep (Some fieldErrorsFromBackend) w in
    match fieldErrorsFromBackend with
    | Some r => setFieldErrors (fun h _ => (h, r)) w
    | None => w
    end.

(** The callback given to [useSubmitComplete].  [form.reset()] dispatches
    a reset event on the form, which runs the [onReset] handler. *)
Definition onSubmitComplete (backendError : option ActionData) (w : World D)
  : World D :=
  match backendError with
  | Some _ => w
  | None =>
      if resetAfterSubmit props
      then
        match w_formRef w with
        | Some form =>
            snd (Form_onReset {| currentTarget := form; defaultPrevented := false |}
                              (call [CallFormReset] w))
        | None => w
        end
      else w
  end.

(** The factory of the memoised context value. *)
Definition contextValue (errors : Store string) (deps : Deps)
  : FormContextValue :=
  {| cv_fieldErrors := dep_fieldErrors deps;
     cv_action := dep_action deps;
     cv_defaultValues := dep_defaultsToUse deps;
     cv_isSubmitting := dep_isSubmitting deps;
     cv_isValid :=
       Nat.eqb (length (Js.keys (deref errors (dep_fieldErrors deps)))) 0;
     cv_touchedFields := dep_touchedFields deps;
     cv_hasBeenSubmitted := dep_hasBeenSubmitted deps |}.

Definition backendErrorOf (w : World D) : option ActionData :=
  useErrorResponseForThisForm (r_actionData (w_router w))
                              (r_fetcher (w_router w)) (subaction props).

Definition isSubmittingOf (w : World D) : bool :=
  useIsSubmitting (r_actionForCurrentPage (w_router w))
                  (r_pendingFormSubmit (w_router w))
                  (action props) (subaction props) (r_fetcher (w_router w)).

(** One render of [ValidatedForm] over the hook state of [w], followed by
    the commit, which attaches [form] to [formRef], and by the effects in
    the order of their hooks. *)
Definition ValidatedForm (form : FormElement) (w : World D) : World D :=
  let backendError := backendErrorOf w in
  let fieldErrorsFromBackend := backendError ≫= ad_fieldErrors in
  let isSubmitting := isSubmittingOf w in
  let defaultsToUse :=
    useDefaultValues (backendError ≫= ad_repopulateFields) (defaultValues props) in
  let deps :=
    {| dep_fieldErrors := w_fieldErrors w;
       dep_action := action props;
       dep_defaultsToUse := defaultsToUse;
       dep_isSubmitting := isSubmitting;
       dep_touchedFields := w_touchedFields w;
       dep_hasBeenSubmitted := w_hasBeenSubmitted w |} in
  let memo := useMemo (w_memo w) (fun _ => contextValue (w_errors w) deps) deps in
  let w := with_formRef (Some form) (with_memo (Some memo) w) in
  let w := useFieldErrors_effect fieldErrorsFromBackend w in
  let '(lifecycle, completed) := useSubmitComplete (w_lifecycle w) isSubmitting in
  let w := with_lifecycle lifecycle w in
  if completed then onSubmitComplete backendError w else w.

(** The hook state before the first render returns: the [useState] and
    [useRef] initialisers have run against the router state of the page. *)
Definition mount (errors : Store string) (router : Router) : World D :=
  let backendError :=
    useErrorResponseForThisForm (r_actionData router) (r_fetcher router)
                                (subaction props) in
  let '(errors, fieldErrors) :=
    useFieldErrors_initial errors (backendError ≫= ad_fieldErrors) in
  let '(touched, touchedFields) := alloc [] [] in
  {| w_errors := errors;
     w_touched := touched;
     w_router := router;
     w_fieldErrors := fieldErrors;
     w_backendDep := None;
     w_touchedFields := touchedFields;
     w_hasBeenSubmitted := false;
     w_formRef := None;
     w_lifecycle := Idle;
     w_customFocusHandlers := MultiValueMap.empty;
     w_memo := None;
     w_updates := 0;
     w_calls := [] |}.

End Component.

(** ** The page around the form *)

(** A value returned by the action, before it is an object of the page. *)
Record Payload : Type := {
  pl_fieldErrors : option FieldErrors;
  pl_subaction : option string;
  pl_repopulateFields : option Opaque
}.

(** Deserialisation of a response: its [fieldErrors] become a new object. *)
Definition receive (errors : Store string) (data : option Payload)
  : Store string * option ActionData :=
  match data with
  | None => (errors, None)
  | Some payload =>
      match pl_fieldErrors payload with
      | Some fieldErrors =>
          let '(errors, r) := alloc errors fieldErrors in
          (errors,
           Some {| ad_fieldErrors := Some r;
                   ad_subaction := pl_subaction payload;
                   ad_repopulateFields := pl_repopulateFields payload |})
      | None =>
          (errors,
           Some {| ad_fieldErrors := None;
                   ad_subaction := pl_subaction payload;
                   ad_repopulateFields := pl_repopulateFields payload |})
      end
  end.

(** What can happen to the router state between two renders. *)
Inductive RouterEvent : Type :=
| ActionReturned (data : option Payload)
| FetcherPassed (state : option FetcherState)
| FetcherLoaded (data : option Payload)
| TransitionChanged (submission : option Submission)
| LocationChanged (action : string).

Definition route (e : RouterEvent) (errors : Store string) (r : Router)
  : Store string * Router :=
  match e with
  | ActionReturned data =>
      let '(errors, actionData) := receive errors data in
      (errors,
       {| r_actionData := actionData;
          r_fetcher := r_fetcher r;
          r_pendingFormSubmit := r_pendingFormSubmit r;
          r_actionForCurrentPage := r_actionForCurrentPage r |})
  | FetcherPassed state =>
      (errors,
       {| r_actionData := r_actionData r;
          r_fetcher :=
            match state with
            | None => None
            | Some s =>
                Some {| fetcher_state := s;
                        fetcher_data := r_fetcher r ≫= fetcher_data |}
            end;
          r_pendingFormSubmit := r_pendingFormSubmit r;
          r_actionForCurrentPage := r_actionForCurrentPage r |})
  | FetcherLoaded data =>
      match r_fetcher r with
      | None => (errors, r)
      | Some f =>
          let '(errors, fetched) := receive errors data in
          (errors,
           {| r_actionData := r_actionData r;
              r_fetcher :=
                Some {| fetcher_state := fetcher_state f;
                        fetcher_data := fetched |};
              r_pendingFormSubmit := r_pendingFormSubmit r;
              r_actionForCurrentPage := r_actionForCurrentPage r |})
      end
  | TransitionChanged submission =>
      (errors,
       {| r_actionData := r_actionData r;
          r_fetcher := r_fetcher r;
          r_pendingFormSubmit := submission;
          r_actionForCurrentPage := r_actionForCurrentPage r |})
  | LocationChanged action =>
      (errors,
       {| r_actionData := r_actionData r;
          r_fetcher := r_fetcher r;
          r_pendingFormSubmit := r_pendingFormSubmit r;
          r_actionForCurrentPage := action |})
  end.

(** The page reached from an empty one by a list of router events. *)
Definition page (location : string) (es : list RouterEvent)
  : Store string * Router :=
  fold_left (fun sr e => route e (fst sr) (snd sr)) es
    ([], {| r_actionData := None;
            r_fetcher := None;
            r_pendingFormSubmit := None;
            r_actionForCurrentPage := location |}).

(** What can happen to a mounted form. *)
Inductive Event : Type :=
| Routed (e : RouterEvent)
| Rendered (form : FormElement)
| Edited (form : FormElement)
| SubmitFired
| ResetFired
| FieldTouched (fieldName : string) (touched : bool)
| ErrorCleared (fieldName : string)
| FieldValidated (fieldName : string)
| FocusRegistered (fieldName : string) (handler : Handler)
| FocusUnregistered (fieldName : string) (handler : Handler).

Section Run.
Context {D : Type}.
Variable props : FormProps D.

Definition routed (e : RouterEvent) (w : World D) : World D :=
  let '(errors, router) := route e (w_errors w) (w_router w) in
  {| w_errors := errors;
     w_touched := w_touched w;
     w_router := router;
     w_fieldErrors := w_fieldErrors w;
     w_backendDep := w_backendDep w;
     w_touchedFields := w_touchedFields w;
     w_hasBeenSubmitted := w_hasBeenSubmitted w;
     w_formRef := w_formRef w;
     w_lifecycle := w_lifecycle w;
     w_customFocusHandlers := w_customFocusHandlers w;
     w_memo := w_memo w;
     w_updates := w_updates w;
     w_calls := w_calls w |}.

(** A submit or reset event exists only once the form element does; the
    event is dispatched on that element. *)
Definition step (e : Event) (w : World D) : World D :=
  match e with
  | Routed e => routed e w
  | Rendered form => ValidatedForm props form w
  | Edited form =>
      match w_formRef w with
      | Some _ => with_formRef (Some form) w
      | None => w
      end
  | SubmitFired =>
      match w_formRef w with
      | Some form =>
          snd (Form_onSubmit props
                 {| currentTarget := form; defaultPrevented := false |} w)
      | None => w
      end
  | ResetFired =>
      match w_formRef w with
      | Some form =>
          snd (Form_onReset props
                 {| currentTarget := form; defaultPrevented := false |} w)
      | None => w
      end
  | FieldTouched fieldName touched =>
      FormContext.setFieldTouched fieldName touched w
  | ErrorCleared fieldName => FormContext.clearError fieldName w
  | FieldValidated fieldName =>
      FormContext.validateField (validator props) fieldName w
  | FocusRegistered fieldName handler =>
      FormContext.registerReceiveFocus fieldName handler w
  | FocusUnregistered fieldName handler =>
      FormContext.unregisterReceiveFocus fieldName handler w
  end.

Definition run (es : list Event) (w : World D) : World D :=
  fold_left (fun w e => step e w) es w.

(** A form mounted on the page that [pre] leads to. *)
Definition boot (location : string) (pre : list RouterEvent) : World D :=
  mount props (fst (page location pre)) (snd (page location pre)).

End Run.

(** ** The vocabulary of the properties *)

(** ** Well-formed worlds

    Every reference held by the hooks, by the router or by the memoised
    context value denotes an object of the store, and the memoised value is
    consistent with the store.  The store only grows, so a reference keeps
    its meaning. *)

Definition data_below (n : nat) (data : option ActionData) : Prop :=
  forall ad r, data = Some ad -> ad_fieldErrors ad = Some r -> r < n.

Definition router_below (n : nat) (router : Router) : Prop :=
  data_below n (r_actionData router)
  /\ data_below n (r_fetcher router ≫= fetcher_data).

Definition memo_ok (errors : Store string)
    (memo : option (Deps * FormContextValue)) : Prop :=
  forall deps cv, memo = Some (deps, cv) ->
    dep_fieldErrors deps = cv_fieldErrors cv
    /\ cv_fieldErrors cv < length errors
    /\ cv_isValid cv
       = Nat.eqb (length (Js.keys (deref errors (cv_fieldErrors cv)))) 0.

Definition wf {D : Type} (w : World D) : Prop :=
  w_fieldErrors w < length (w_errors w)
  /\ (forall r, w_backendDep w = Some (Some r) -> r < length (w_errors w))
  /\ router_below (length (w_errors w)) (w_router w)
  /\ memo_ok (w_errors w) (w_memo w).

(** An updater of the Field Error Store that only allocates and returns a
    reference into the store it leaves. *)
Definition grows (updater : Store string -> Ref -> Store string * Ref) : Prop :=
  forall h prev, prev < length h ->
    exists l, fst (updater h prev) = h ++ l
              /\ snd (updater h prev) < length (h ++ l).

Section Vocabulary.
Context {D : Type}.
Variable props : FormProps D.
Implicit Types (w : World D) (fieldErrors : FieldErrors)
  (handlers : MultiValueMap.t).

(** Whether the reset event is cancelled once the caller's handler has
    run. *)
Definition reset_cancelled (event : FormEvent) : bool :=
  defaultPrevented event
  || match onReset props with
     | Some handler => handler event
     | None => false
     end.

(** The context value handed to [FormContext.Provider] by the last
    render. *)
Definition exposed w : option FormContextValue := snd <$> w_memo w.

(** The response [payload] arrives as action data and the form renders. *)
Definition respond_and_render (payload : Payload) (form : FormElement) w
  : World D :=
  run props [Routed (ActionReturned (Some payload)); Rendered form] w.

(** The response [payload] arrives as the data of the fetcher and the form
    renders. *)
Definition fetch_and_render (payload : Payload) (form : FormElement) w
  : World D :=
  run props [Routed (FetcherLoaded (Some payload)); Rendered form] w.

(** The algorithm in the words of the specification: the field names are
    visited in the order of their errors; a name with registered handlers
    has all of them invoked and ends the visit; otherwise a hidden field is
    passed over and a visible one is focused, which ends the visit.  The
    underlying field of a name is the first input of the form that bears
    it. *)
Fixpoint focusInErrorOrder (names : list string) handlers (form : FormElement)
  : list (Call D) :=
  match names with
  | [] => []
  | name :: rest =>
      if MultiValueMap.has handlers name
      then map CallHandler (MultiValueMap.getAll handlers name)
      else
        match find (fun e => named_input e name) (form_elements form) with
        | Some input =>
            if el_type input =? "hidden"
            then focusInErrorOrder rest handlers form
            else [CallFocus (el_id input)]
        | None => focusInErrorOrder rest handlers form
        end
  end.

(** An input of the form whose name has an error. *)
Definition invalid_input fieldErrors (e : Element) : bool :=
  (el_tag e =? "input") && Js.has fieldErrors (el_name e).

(** The selector built from the names of [fieldErrors] selects, in
    [form], the inputs bearing one of these names, in document order.
    That is what a selector engine answers when no name holds a double
    quote, a backslash or a line break ([Dom.select] does for the names
    that are [Dom.plain]) and every input with an empty name has the
    attribute; a name that holds such a character ends or alters the
    quoted string it is spliced into, and the selector is then malformed
    or names other inputs. *)
Definition selects_invalid_inputs (form : FormElement) fieldErrors : Prop :=
  form_matches form (String.concat "," (map inputNamed (Js.keys fieldErrors)))
  = Returns (List.filter (invalid_input fieldErrors) (form_elements form)).

(** An invalid input at which the visit ends. *)
Definition takes_focus fieldErrors handlers (e : Element) : bool :=
  invalid_input fieldErrors e
  && (MultiValueMap.has handlers (el_name e) || negb (el_type e =? "hidden")).

(** What is done at the input where the visit ends. *)
Definition dispatch handlers (e : Element) : list (Call D) :=
  if MultiValueMap.has handlers (el_name e)
  then map CallHandler (MultiValueMap.getAll handlers (el_name e))
  else [CallFocus (el_id e)].

(** The entry [validateField] gives the field: the error when there is
    one, none otherwise.  There is an error when the [error] member of the
    result is truthy, which is the test of the code. *)
Definition newEntry (error : option string) : option string :=
  if Js.truthy error then error else None.

(** The two tests under which [validateField] hands the previous store
    back: the error is the entry of the field, or there is no error and
    the name is not [in] the store. *)
Definition keeps_store (error : option string) (fieldErrors : FieldErrors)
    (fieldName : string) : bool :=
  if Js.truthy error
  then Js.strict_eq (Js.get fieldErrors fieldName) error
  else negb (Js.in_ fieldErrors fieldName).

(** The number of calls of [form.reset()] in a log. *)
Fixpoint resets (calls : list (Call D)) : nat :=
  match calls with
  | [] => 0
  | CallFormReset :: rest => S (resets rest)
  | _ :: rest => resets rest
  end.

(** The value of [isSubmitting] at each render of a run. *)
Fixpoint signal (es : list Event) w : list bool :=
  match es with
  | [] => []
  | Rendered form :: rest =>
      isSubmittingOf props w :: signal rest (step props (Rendered form) w)
  | e :: rest => signal rest (step props e w)
  end.

End Vocabulary.

(** The matching rule in the words of the specification: when the form
    declares a subaction, the subaction of the response is equal to it;
    when the form declares none, the response carries none.  A subaction
    is declared, or carried, when it is truthy. *)
Definition meant_for (formSubaction responseSubaction : option string) : bool :=
  if Js.truthy formSubaction
  then Js.strict_eq responseSubaction formSubaction
  else negb (Js.truthy responseSubaction).

(** The number of times the completion callback is invoked over a sequence
    of renders, given the value of [isSubmitting] at each. *)
Fixpoint completions (state : Lifecycle) (renders : list bool) : nat :=
  match renders with
  | [] => 0
  | isSubmitting :: rest =>
      (if snd (useSubmitComplete state isSubmitting) then 1 else 0)
      + completions (fst (useSubmitComplete state isSubmitting)) rest
  end.

(** The number of transitions from submitting to idle in a signal whose
    value before the first sample is [previous]. *)
Fixpoint falling_edges (previous : bool) (signal : list bool) : nat :=
  match signal with
  | [] => 0
  | current :: rest =>
      (if previous && negb current then 1 else 0) + falling_edges current rest
  end.

Definition is_submitting (state : Lifecycle) : bool :=
  match state with
  | Submitting => true
  | Idle => false
  end.


(** ** A fixture: the form of [routes/validation.tsx], reduced to its two
    name fields *)

Module Fixture.

Definition required (data : FormData) (name label : string) : FieldErrors :=
  if Js.truthy (FormData_get data name) then []
  else [(name, String.append label " is a required field")].

Definition fieldErrorsFor (data : FormData) : FieldErrors :=
  required data "firstName" "First Name" ++ required data "lastName" "Last Name".

Definition nameValidator : Validator (string * string) :=
  {| validate := fun data =>
       match fieldErrorsFor data with
       | [] => Valid (default "" (FormData_get data "firstName"),
                      default "" (FormData_get data "lastName"))
       | fieldErrors => Invalid fieldErrors data
       end;
     validateField := fun data fieldName => Js.get (fieldErrorsFor data) fieldName |}.

Definition props : FormProps (string * string) :=
  {| validator := nameValidator;
     onSubmit := Some (fun _ _ => false);
     action := None;
     defaultValues := None;
     onReset := None;
     subaction := None;
     resetAfterSubmit := true;
     disableFocusOnError := false |}.

Definition input (id : nat) (name type : string) : Element :=
  {| el_id := id; el_tag := "input"; el_name := name; el_type := type |}.

Definition form (entries : FormData) : FormElement :=
  Dom.form [input 0 "firstName" "text"; input 1 "lastName" "text"] entries.

Definition doeOnly : FormElement := form [("firstName", ""); ("lastName", "Doe")].
Definition janeDoe : FormElement := form [("firstName", "Jane"); ("lastName", "Doe")].

(** The form mounted on a fresh page and rendered once. *)
Definition mounted (f : FormElement) : World (string * string) :=
  run props [Rendered f] (boot props "/validation" []).

(** Values the theorems are instantiated at. *)

Definition submitOf (f : FormElement) : FormEvent :=
  {| currentTarget := f; defaultPrevented := false |}.

Definition firstNameRequired : FieldErrors :=
  [("firstName", "First Name is a required field")].

Definition dontSayThat : Payload :=
  {| pl_fieldErrors := Some [("testinput", "Don't say that")];
     pl_subaction := None;
     pl_repopulateFields := None |}.

Definition hiddenThenVisible : FormElement :=
  Dom.form [input 0 "a" "hidden"; input 1 "b" "text"] [("a", ""); ("b", "")].

Definition withFetcher : list Event :=
  [Routed (FetcherPassed (Some FetcherIdle)); Rendered janeDoe].

Definition taggedElsewhere : Payload :=
  {| pl_fieldErrors := Some [("testinput", "Don't say that")];
     pl_subaction := Some "another-action";
     pl_repopulateFields := None |}.

Definition failedSubmit : list Event :=
  [Rendered doeOnly; SubmitFired; Rendered doeOnly].

Definition invalidContext : FormContextValue :=
  {| cv_fieldErrors := 1;
     cv_action := None;
     cv_defaultValues := None;
     cv_isSubmitting := false;
     cv_isValid := false;
     cv_touchedFields := 0;
     cv_hasBeenSubmitted := true |}.

(** A validator whose message for the field [a] is the empty string, and
    a form with that one field. *)
Definition emptyMessage : Validator unit :=
  {| validate := fun data => Invalid [("a", "")] data;
     validateField := fun data fieldName =>
       if fieldName =? "a" then Some "" else None |}.

Definition emptyMessageProps : FormProps unit :=
  {| validator := emptyMessage;
     onSubmit := None;
     action := None;
     defaultValues := None;
     onReset := None;
     subaction := None;
     resetAfterSubmit := false;
     disableFocusOnError := false |}.

Definition onlyA : FormElement := Dom.form [input 0 "a" "text"] [("a", "")].

(** The form with the one field, rendered and submitted. *)
Definition submittedOnlyA : World unit :=
  run emptyMessageProps [Rendered onlyA; SubmitFired]
      (boot emptyMessageProps "/validation" []).

End Fixture.

(** ** The rendered form and further vocabulary *)

(** The entries contributed by the element
    [{subaction && <input type="hidden" value={subaction} name="subaction" />}],
    which the form renders before [children]. *)
Definition subactionEntries (subaction : option string) : FormData :=
  match subaction with
  | Some s => if Js.truthy_string s then [("subaction", s)] else []
  | None => []
  end.

(** The events that touch neither the router state nor the render cycle:
    those a user or a field component causes. *)
Definition local_event (e : Event) : bool :=
  match e with
  | Routed _ | Rendered _ => false
  | _ => true
  end.

Section MoreVocabulary.
Context {D : Type}.
Variable props : FormProps D.
Implicit Types w : World D.

(** The entries of the rendered form, given those of [children], in
    document order. *)
Definition renderedEntries (children : FormData) : FormData :=
  subactionEntries (subaction props) ++ children.

(** The data the [onSubmit] callback was called with, in order. *)
Fixpoint submitted (calls : list (Call D)) : list D :=
  match calls with
  | [] => []
  | CallOnSubmit data :: rest => data :: submitted rest
  | _ :: rest => submitted rest
  end.

(** What a submit event hands to the [onSubmit] callback. *)
Definition handed_over (e : Event) w : list D :=
  match e, w_formRef w, onSubmit props with
  | SubmitFired, Some form, Some _ =>
      match validate (validator props) (getDataFromForm form) with
      | Valid data => [data]
      | Invalid _ _ => []
      end
  | _, _, _ => []
  end.

(** The memoised context value repeats the dependencies it was built
    from. *)
Definition memo_mirrors (memo : option (Deps * FormContextValue)) : Prop :=
  forall deps cv, memo = Some (deps, cv) ->
    cv_action cv = dep_action deps
    /\ cv_defaultValues cv = dep_defaultsToUse deps
    /\ cv_isSubmitting cv = dep_isSubmitting deps
    /\ cv_touchedFields cv = dep_touchedFields deps
    /\ cv_hasBeenSubmitted cv = dep_hasBeenSubmitted deps.

(** The effects of the last render have nothing left to do: the effect of
    [useFieldErrors] has seen the current error response and the watcher
    of [useSubmitComplete] is level with [isSubmitting]. *)
Definition settled w : Prop :=
  w_backendDep w = Some (backendErrorOf props w ≫= ad_fieldErrors)
  /\ snd (useSubmitComplete (w_lifecycle w) (isSubmittingOf props w)) = false.

(** The part of the state a field component can observe. *)
Definition observable w
  : Store string * Ref * Store bool * Ref * bool * nat * list (Call D) :=
  (w_errors w, w_fieldErrors w, w_touched w, w_touchedFields w,
   w_hasBeenSubmitted w, w_updates w, w_calls w).

End MoreVocabulary.

Section RenderVocabulary.
Context {D : Type}.
Variable props : FormProps D.

(** The dependency array as [ValidatedForm] evaluates it in a render over
    the state [w]. *)
Definition renderDeps (w : World D) : Deps :=
  {| dep_fieldErrors := w_fieldErrors w;
     dep_action := action props;
     dep_defaultsToUse :=
       useDefaultValues (backendErrorOf props w ≫= ad_repopulateFields)
                        (defaultValues props);
     dep_isSubmitting := isSubmittingOf props w;
     dep_touchedFields := w_touchedFields w;
     dep_hasBeenSubmitted := w_hasBeenSubmitted w |}.

End RenderVocabulary.

Section RenderShape.
Context {D : Type}.
Variable props : FormProps D.
Implicit Types w : World D.

(** Whether the render over [w] ends with [form.reset()]. *)
Definition resets_now w : bool :=
  snd (useSubmitComplete (w_lifecycle w) (isSubmittingOf props w))
  && resetAfterSubmit props
  && match backendErrorOf props w with
     | Some _ => false
     | None => true
     end.

(** The state after the render over [w], the commit and the two effects,
    before the completion callback runs. *)
Definition committed (form : FormElement) w : World D :=
  with_lifecycle
    (fst (useSubmitComplete (w_lifecycle w) (isSubmittingOf props w)))
    (useFieldErrors_effect (backendErrorOf props w ≫= ad_fieldErrors)
       (with_formRef (Some form)
          (with_memo
             (Some (useMemo (w_memo w)
                      (fun _ => contextValue (w_errors w) (renderDeps props w))
                      (renderDeps props w)))
             w))).

(** The Touched Field Store is an object of its store. *)
Definition touched_ok w : Prop := w_touchedFields w < length (w_touched w).

End RenderShape.

(** ** A second fixture: the two forms of the page that posts to one
    action, one of them with the subaction ["another-action"] *)

Module Scenario.

Definition otherProps : FormProps (string * string) :=
  {| validator := Fixture.nameValidator;
     onSubmit := None;
     action := None;
     defaultValues := None;
     onReset := None;
     subaction := Some "another-action";
     resetAfterSubmit := true;
     disableFocusOnError := false |}.

(** The submission of the second form, with one field of its own. *)
Definition otherSubmission : Submission :=
  {| sub_formData := [("subaction", "another-action"); ("anotherinput", "x")];
     sub_action := "/validation" |}.

(** A validator that rejects every payload without naming a field. *)
Definition rejecting : Validator unit :=
  {| validate := fun data => Invalid [] data;
     validateField := fun _ _ => None |}.

Definition rejectingProps : FormProps unit :=
  {| validator := rejecting;
     onSubmit := None;
     action := None;
     defaultValues := None;
     onReset := None;
     subaction := None;
     resetAfterSubmit := false;
     disableFocusOnError := false |}.

(** The first form while its submission is pending, then once the
    transition is over and before the next render. *)
Definition completing : World (string * string) :=
  run Fixture.props
    [Routed (TransitionChanged
               (Some {| sub_formData := [("firstName", "Jane"); ("lastName", "Doe")];
                        sub_action := "/validation" |}));
     Rendered Fixture.janeDoe;
     Routed (TransitionChanged None)]
    (Fixture.mounted Fixture.janeDoe).

(** What a user does between two renders. *)
Definition userActions : list Event :=
  [FieldTouched "firstName" true; FieldValidated "firstName"; SubmitFired].

End Scenario.

(** * Properties *)

(** ** Plain objects and the store *)

Section ObjectFacts.
Context {V : Type}.
Implicit Types (o : Js.Obj V) (h : Store V).

Lemma get_set_same o key v : Js.get (Js.set o key v) key = Some v.
Proof.
  induction o as [|[k w] rest IH]; simpl.
  - now rewrite String.eqb_refl.
  - destruct (k =? key) eqn:E; simpl; rewrite E; [reflexivity | exact IH].
Qed.

Lemma get_remove_same o key : Js.get (Js.remove o key) key = None.
Proof.
  induction o as [|[k w] rest IH]; simpl; [reflexivity|].
  destruct (k =? key) eqn:E; simpl; [exact IH | now rewrite E].
Qed.

Lemma remove_absent o key : Js.has o key = false -> Js.remove o key = o.
Proof.
  unfold Js.has. induction o as [|[k w] rest IH]; simpl; [reflexivity|].
  destruct (k =? key) eqn:E; simpl; [discriminate|].
  intros H. now rewrite (IH H).
Qed.

Lemma has_keys o key : Js.has o key = existsb (String.eqb key) (Js.keys o).
Proof.
  unfold Js.has. induction o as [|[k w] rest IH]; simpl; [reflexivity|].
  rewrite (String.eqb_sym key k). destruct (k =? key); [reflexivity | exact IH].
Qed.

Lemma deref_alloc h o : deref (fst (alloc h o)) (snd (alloc h o)) = o.
Proof.
  unfold deref, alloc; cbn [fst snd].
  rewrite lookup_app_r by lia. now rewrite Nat.sub_diag.
Qed.

Lemma deref_extend h l r : r < length h -> deref (h ++ l) r = deref h r.
Proof. intros H. unfold deref. now rewrite lookup_app_l. Qed.

Lemma Object_is_refl (r : Ref) : Object_is r r = true.
Proof. apply Nat.eqb_refl. Qed.

End ObjectFacts.

(** ** Submit *)

Section Submit.
Context {D : Type}.
Variable props : FormProps D.

(** C1.  When the validator rejects the payload of the submitted form with
    field errors [E], the submit handler prevents the default of the event
    (the network submission is suppressed), sets [hasBeenSubmitted], and
    replaces the Field Error Store wholesale: the store is a new object
    whose content is exactly [E]. *)
Theorem submit_failure_replaces_errors
    (event : FormEvent) (w : World D) (E : FieldErrors) (submitted : FormData) :
  validate (validator props) (getDataFromForm (currentTarget event))
    = Invalid E submitted ->
  defaultPrevented (fst (Form_onSubmit props event w)) = true /\
  w_hasBeenSubmitted (snd (Form_onSubmit props event w)) = true /\
  fieldErrorsOf (snd (Form_onSubmit props event w)) = E /\
  w_fieldErrors (snd (Form_onSubmit props event w)) = length (w_errors w).
Proof.
  intros Hfail. unfold Form_onSubmit. rewrite Hfail.
  assert (Hback : deref (w_errors w ++ [E]) (length (w_errors w)) = E)
    by apply (deref_alloc (w_errors w) E).
  destruct (disableFocusOnError props); cbn [negb].
  - unfold fieldErrorsOf; simpl. auto.
  - destruct (focusFirstInvalidInput _ _ _); unfold fieldErrorsOf; simpl; auto.
Qed.

(** C2.  When the validator accepts the payload with typed data [data], the
    submit handler calls the caller's [onSubmit], when there is one, with
    [data] as its first argument and makes no other call; it does not
    prevent the default of the event itself (the event changes only if the
    caller's callback cancels it), and it leaves the Field Error Store
    alone. *)
Theorem submit_success_hands_data_over
    (event : FormEvent) (w : World D) (data : D) :
  validate (validator props) (getDataFromForm (currentTarget event))
    = Valid data ->
  w_calls (snd (Form_onSubmit props event w))
    = w_calls w ++ match onSubmit props with
                   | Some _ => [CallOnSubmit data]
                   | None => []
                   end /\
  fst (Form_onSubmit props event w)
    = (if match onSubmit props with
          | Some callback => callback data event
          | None => false
          end
       then preventDefault event else event) /\
  w_fieldErrors (snd (Form_onSubmit props event w)) = w_fieldErrors w /\
  w_errors (snd (Form_onSubmit props event w)) = w_errors w.
Proof.
  intros Hok. unfold Form_onSubmit. rewrite Hok.
  destruct (onSubmit props) as [callback|]; simpl.
  - auto.
  - rewrite app_nil_r. auto.
Qed.

End Submit.

(** ** Reset *)

Section ResetHandler.
Context {D : Type}.
Variable props : FormProps D.

(** C8.  A reset event that is not cancelled once the caller's handler has
    run empties the Field Error Store and the Touched Field Store and sets
    [hasBeenSubmitted] to false; a cancelled one leaves the three, and the
    object stores, as they were and notifies no change. *)
Theorem reset_clears_unless_cancelled (event : FormEvent) (w : World D) :
  (reset_cancelled props event = false ->
     fieldErrorsOf (snd (Form_onReset props event w)) = [] /\
     touchedFieldsOf (snd (Form_onReset props event w)) = [] /\
     w_hasBeenSubmitted (snd (Form_onReset props event w)) = false) /\
  (reset_cancelled props event = true ->
     w_fieldErrors (snd (Form_onReset props event w)) = w_fieldErrors w /\
     w_errors (snd (Form_onReset props event w)) = w_errors w /\
     w_touchedFields (snd (Form_onReset props event w)) = w_touchedFields w /\
     w_touched (snd (Form_onReset props event w)) = w_touched w /\
     w_hasBeenSubmitted (snd (Form_onReset props event w)) = w_hasBeenSubmitted w /\
     w_updates (snd (Form_onReset props event w)) = w_updates w).
Proof.
  assert (He : deref (w_errors w ++ [[]]) (length (w_errors w)) = [])
    by apply (deref_alloc (w_errors w) []).
  assert (Ht : deref (w_touched w ++ [[]]) (length (w_touched w)) = [])
    by apply (deref_alloc (w_touched w) []).
  unfold reset_cancelled, Form_onReset.
  destruct (onReset props) as [handler|].
  - destruct (handler event); simpl.
    + rewrite orb_true_r. split; [discriminate | auto 10].
    + rewrite orb_false_r.
      destruct (defaultPrevented event); simpl;
        (split; intros Hc; try discriminate Hc);
        unfold fieldErrorsOf, touchedFieldsOf; simpl; auto 10.
  - rewrite orb_false_r.
    destruct (defaultPrevented event); simpl;
      (split; intros Hc; try discriminate Hc);
      unfold fieldErrorsOf, touchedFieldsOf; simpl; auto 10.
Qed.

End ResetHandler.

Lemma data_below_mono n m data : n <= m -> data_below n data -> data_below m data.
Proof. intros Hle H ad r Hd Hr. specialize (H ad r Hd Hr). lia. Qed.

Lemma router_below_mono n m router :
  n <= m -> router_below n router -> router_below m router.
Proof. intros Hle [H1 H2]. split; eapply data_below_mono; eauto. Qed.

Lemma memo_ok_extend errors l memo :
  memo_ok errors memo -> memo_ok (errors ++ l) memo.
Proof.
  intros H deps cv Hm. destruct (H deps cv Hm) as (H1 & H2 & H3).
  rewrite length_app, deref_extend by exact H2.
  repeat split; [exact H1 | lia | exact H3].
Qed.

Lemma grows_alloc (o : FieldErrors) : grows (fun h _ => alloc h o).
Proof.
  intros h prev _. exists [o]. simpl. split; [reflexivity|].
  rewrite length_app. simpl. lia.
Qed.

Lemma grows_omit (keys : list string) : grows (fun h prev => omit h prev keys).
Proof.
  intros h prev _. unfold omit. eexists. simpl. split; [reflexivity|].
  rewrite length_app. simpl. lia.
Qed.

Lemma grows_keep (r : Ref) :
  forall (h : Store string) (prev : Ref), r < length h ->
    exists l, fst (h, r) = h ++ l /\ snd (h, r) < length (h ++ l).
Proof.
  intros h prev Hr. exists []. simpl. rewrite app_nil_r. auto.
Qed.

Section Preservation.
Context {D : Type}.
Variable props : FormProps D.
Implicit Types w : World D.

Lemma wf_setFieldErrors updater w :
  (exists l, fst (updater (w_errors w) (w_fieldErrors w)) = w_errors w ++ l
             /\ snd (updater (w_errors w) (w_fieldErrors w))
                < length (w_errors w ++ l)) ->
  wf w -> wf (setFieldErrors updater w).
Proof.
  intros [l [Hh Hr]] (Hf & Hb & Hrt & Hm). unfold setFieldErrors.
  destruct (updater (w_errors w) (w_fieldErrors w)) as [errors next].
  simpl in Hh, Hr. subst errors. unfold wf; simpl.
  split; [exact Hr | split; [|split]].
  - intros r Hd. specialize (Hb r Hd). rewrite length_app. lia.
  - eapply router_below_mono; [|exact Hrt]. rewrite length_app. lia.
  - apply memo_ok_extend, Hm.
Qed.

Lemma wf_setFieldErrors_grows updater w :
  grows updater -> wf w -> wf (setFieldErrors updater w).
Proof.
  intros Hg Hw. apply wf_setFieldErrors; [|exact Hw].
  apply Hg. exact (proj1 Hw).
Qed.

Lemma wf_setTouchedFields updater w : wf w -> wf (setTouchedFields updater w).
Proof.
  unfold setTouchedFields.
  destruct (updater (w_touched w) (w_touchedFields w)). exact id.
Qed.

Lemma wf_setHasBeenSubmitted value w : wf w -> wf (setHasBeenSubmitted value w).
Proof. exact id. Qed.

Lemma wf_call cs w : wf w -> wf (call cs w).
Proof. exact id. Qed.

Lemma wf_with_formRef formRef w : wf w -> wf (with_formRef formRef w).
Proof. exact id. Qed.

Lemma wf_with_lifecycle lifecycle w : wf w -> wf (with_lifecycle lifecycle w).
Proof. exact id. Qed.

Lemma wf_with_customFocusHandlers handlers w :
  wf w -> wf (with_customFocusHandlers handlers w).
Proof. exact id. Qed.

Lemma wf_with_memo memo w :
  memo_ok (w_errors w) memo -> wf w -> wf (with_memo memo w).
Proof. intros Hm (Hf & Hb & Hrt & _). unfold wf; simpl. auto. Qed.

Lemma wf_with_backendDep dep w :
  (forall r, dep = Some (Some r) -> r < length (w_errors w)) ->
  wf w -> wf (with_backendDep dep w).
Proof. intros Hd (Hf & _ & Hrt & Hm). unfold wf; simpl. auto. Qed.

Lemma wf_Form_onReset event w : wf w -> wf (snd (Form_onReset props event w)).
Proof.
  intros Hw. unfold Form_onReset.
  destruct (onReset props) as [handler|].
  - destruct (defaultPrevented (if handler event then _ else _)); simpl.
    + now apply wf_call.
    + apply wf_setHasBeenSubmitted, wf_setTouchedFields,
        wf_setFieldErrors_grows; [apply grows_alloc | now apply wf_call].
  - destruct (defaultPrevented event); simpl; [exact Hw|].
    apply wf_setHasBeenSubmitted, wf_setTouchedFields,
      wf_setFieldErrors_grows; [apply grows_alloc | exact Hw].
Qed.

Lemma wf_Form_onSubmit event w : wf w -> wf (snd (Form_onSubmit props event w)).
Proof.
  intros Hw. unfold Form_onSubmit.
  destruct (validate _ _) as [data | fieldErrors submitted].
  - destruct (onSubmit props); simpl;
      [apply wf_call|]; now apply wf_setHasBeenSubmitted.
  - assert (wf (setFieldErrors (fun h _ => alloc h fieldErrors)
                               (setHasBeenSubmitted true w))) as Hw'.
    { apply wf_setFieldErrors_grows;
        [apply grows_alloc | now apply wf_setHasBeenSubmitted]. }
    destruct (negb (disableFocusOnError props)); [|exact Hw'].
    destruct (focusFirstInvalidInput _ _ _); simpl; now apply wf_call.
Qed.

Lemma wf_validateField fieldName w :
  wf w -> wf (FormContext.validateField (validator props) fieldName w).
Proof.
  intros Hw. unfold FormContext.validateField.
  destruct (w_formRef w) as [form|]; [|now apply wf_call].
  destruct (Js.truthy _); apply wf_setFieldErrors_grows; try exact Hw;
    intros h prev Hp.
  - destruct (Js.strict_eq _ _);
      [now apply grows_keep | exact (grows_alloc _ h prev Hp)].
  - destruct (negb _);
      [now apply grows_keep | exact (grows_omit _ h prev Hp)].
Qed.

Lemma backendError_below w ad r :
  wf w -> backendErrorOf props w = Some ad -> ad_fieldErrors ad = Some r ->
  r < length (w_errors w).
Proof.
  intros (_ & _ & [Ha Hf] & _). unfold backendErrorOf, useErrorResponseForThisForm.
  destruct (r_fetcher (w_router w)) as [f|]; simpl in Hf.
  - destruct (fetcher_data f) as [data|]; [|discriminate].
    destruct (ad_fieldErrors data) eqn:E; [|discriminate].
    intros [= <-] Hr. eapply Hf; eauto.
  - destruct (r_actionData (w_router w)) as [data|]; [|discriminate].
    destruct (ad_fieldErrors data) eqn:E; [|discriminate].
    destruct (_ || _); [|discriminate].
    intros [= <-] Hr. eapply Ha; eauto.
Qed.

End Preservation.

Lemma receive_below (errors : Store string) (data : option Payload) :
  (exists l, fst (receive errors data) = errors ++ l)
  /\ data_below (length (fst (receive errors data))) (snd (receive errors data)).
Proof.
  unfold receive. destruct data as [payload|]; simpl.
  - destruct (pl_fieldErrors payload) as [fieldErrors|]; simpl.
    + split; [now exists [fieldErrors]|].
      intros ad r [= <-]; simpl. intros [= <-].
      rewrite length_app; simpl. lia.
    + split; [exists []; now rewrite app_nil_r|].
      intros ad r [= <-]; simpl. discriminate.
  - split; [exists []; now rewrite app_nil_r|]. intros ad r; discriminate.
Qed.

Lemma route_below (e : RouterEvent) (errors : Store string) (router : Router) :
  router_below (length errors) router ->
  (exists l, fst (route e errors router) = errors ++ l)
  /\ router_below (length (fst (route e errors router)))
                  (snd (route e errors router)).
Proof.
  intros Hrb. pose proof Hrb as [Ha Hf].
  assert (Hid : exists l : Store string, errors = errors ++ l)
    by (exists []; now rewrite app_nil_r).
  destruct e as [data|state|data|submission|location]; simpl.
  - destruct (receive_below errors data) as [[l Hl] Hd].
    destruct (receive errors data) as [errors' actionData]; simpl in *.
    split; [now exists l|]. split; simpl; [exact Hd|].
    subst errors'. eapply data_below_mono; [|exact Hf].
    rewrite length_app; lia.
  - split; [exact Hid|]. split; simpl; [exact Ha|].
    destruct state; simpl; [exact Hf | intros ad r; discriminate].
  - destruct (r_fetcher router) as [f|]; simpl; [|split; [exact Hid | exact Hrb]].
    destruct (receive_below errors data) as [[l Hl] Hd].
    destruct (receive errors data) as [errors' fetched]; simpl in *.
    split; [now exists l|]. split; simpl; [|exact Hd].
    subst errors'. eapply data_below_mono; [|exact Ha].
    rewrite length_app; lia.
  - split; [exact Hid | now split].
  - split; [exact Hid | now split].
Qed.

Lemma page_below (location : string) (es : list RouterEvent) :
  router_below (length (fst (page location es))) (snd (page location es)).
Proof.
  unfold page. induction es as [|e es IH] using rev_ind; simpl.
  - split; intros ad r; discriminate.
  - rewrite fold_left_app; simpl. now apply route_below.
Qed.

Section Reachable.
Context {D : Type}.
Variable props : FormProps D.
Implicit Types w : World D.

Lemma wf_routed e w : wf w -> wf (routed e w).
Proof.
  intros (Hf & Hb & Hrt & Hm). unfold routed.
  destruct (route_below e _ _ Hrt) as [[l Hl] Hr].
  destruct (route e (w_errors w) (w_router w)) as [errors router].
  simpl in Hl, Hr. subst errors. unfold wf; simpl.
  split; [|split; [|split]].
  - rewrite length_app; lia.
  - intros r Hd. specialize (Hb r Hd). rewrite length_app; lia.
  - exact Hr.
  - now apply memo_ok_extend.
Qed.

Lemma memo_ok_useMemo w deps :
  wf w -> dep_fieldErrors deps = w_fieldErrors w ->
  memo_ok (w_errors w)
    (Some (useMemo (w_memo w) (fun _ => contextValue (w_errors w) deps) deps)).
Proof.
  intros (Hf & _ & _ & Hm) Hd. unfold useMemo.
  assert (Hnew : memo_ok (w_errors w) (Some (deps, contextValue (w_errors w) deps))).
  { intros d cv [= <- <-]. simpl. rewrite Hd. auto. }
  destruct (w_memo w) as [[old value]|]; [|exact Hnew].
  destruct (same_deps old deps); [|exact Hnew].
  intros d cv [= <- <-]. now apply Hm.
Qed.

Lemma wf_onSubmitComplete backendError w :
  wf w -> wf (onSubmitComplete props backendError w).
Proof.
  intros Hw. unfold onSubmitComplete.
  destruct backendError; [exact Hw|].
  destruct (resetAfterSubmit props); [|exact Hw].
  destruct (w_formRef w); [|exact Hw].
  now apply wf_Form_onReset, wf_call.
Qed.

Lemma wf_useFieldErrors_effect w :
  wf w ->
  wf (useFieldErrors_effect (backendErrorOf props w ≫= ad_fieldErrors) w).
Proof.
  intros Hw. unfold useFieldErrors_effect.
  destruct (same_backendDep _ _); [exact Hw|].
  assert (Hbelow : forall r, backendErrorOf props w ≫= ad_fieldErrors = Some r ->
                             r < length (w_errors w)).
  { intros r Hr. destruct (backendErrorOf props w) as [ad|] eqn:E; [|discriminate].
    simpl in Hr. eapply backendError_below; eauto. }
  assert (Hw' : wf (with_backendDep
                      (Some (backendErrorOf props w ≫= ad_fieldErrors)) w)).
  { apply wf_with_backendDep; [|exact Hw].
    intros r [= Hr]. now apply Hbelow. }
  destruct (backendErrorOf props w ≫= ad_fieldErrors) as [r|] eqn:E; [|exact Hw'].
  apply wf_setFieldErrors; [|exact Hw'].
  exists []. simpl. rewrite app_nil_r. split; [reflexivity|]. now apply Hbelow.
Qed.

Lemma wf_ValidatedForm form w : wf w -> wf (ValidatedForm props form w).
Proof.
  intros Hw. unfold ValidatedForm.
  set (deps := Build_Deps _ _ _ _ _ _).
  set (w1 := with_formRef (Some form) (with_memo _ w)).
  assert (Hw1 : wf w1).
  { apply wf_with_formRef, wf_with_memo; [|exact Hw].
    now apply memo_ok_useMemo. }
  assert (Hw2 : wf (useFieldErrors_effect
                      (backendErrorOf props w ≫= ad_fieldErrors) w1))
    by exact (wf_useFieldErrors_effect w1 Hw1).
  destruct (useSubmitComplete _ _) as [lifecycle completed].
  set (w3 := with_lifecycle lifecycle _).
  assert (Hw3 : wf w3) by now apply wf_with_lifecycle.
  destruct completed; [now apply wf_onSubmitComplete | exact Hw3].
Qed.

Lemma wf_mount errors router :
  router_below (length errors) router -> wf (mount props errors router).
Proof.
  intros Hr. unfold mount.
  set (backendError := useErrorResponseForThisForm _ _ _).
  destruct (backendError ≫= ad_fieldErrors) as [r|] eqn:E;
    unfold useFieldErrors_initial; simpl; unfold wf; simpl.
  - split; [|split; [discriminate | split; [exact Hr | intros ? ?; discriminate]]].
    destruct backendError as [ad|] eqn:Eb; [|discriminate]. simpl in E.
    subst backendError. destruct Hr as [Ha Hf].
    unfold useErrorResponseForThisForm in Eb.
    destruct (r_fetcher router) as [f|]; simpl in Hf.
    + destruct (fetcher_data f) as [data|]; [|discriminate].
      destruct (ad_fieldErrors data) eqn:E'; [|discriminate].
      injection Eb as <-. eapply Hf; eauto.
    + destruct (r_actionData router) as [data|]; [|discriminate].
      destruct (ad_fieldErrors data) eqn:E'; [|discriminate].
      destruct (_ || _); [|discriminate].
      injection Eb as <-. eapply Ha; eauto.
  - rewrite length_app; simpl.
    split; [lia | split; [discriminate | split; [|intros ? ?; discriminate]]].
    eapply router_below_mono; [|exact Hr]. lia.
Qed.

Lemma wf_step e w : wf w -> wf (step props e w).
Proof.
  intros Hw. destruct e; simpl.
  - now apply wf_routed.
  - now apply wf_ValidatedForm.
  - destruct (w_formRef w); [|exact Hw]. now apply wf_with_formRef.
  - destruct (w_formRef w); [now apply wf_Form_onSubmit | exact Hw].
  - destruct (w_formRef w); [now apply wf_Form_onReset | exact Hw].
  - now apply wf_setTouchedFields.
  - apply wf_setFieldErrors_grows; [apply grows_omit | exact Hw].
  - now apply wf_validateField.
  - now apply wf_with_customFocusHandlers.
  - now apply wf_with_customFocusHandlers.
Qed.

Lemma wf_run es w : wf w -> wf (run props es w).
Proof.
  unfold run. revert w. induction es as [|e es IH]; simpl; intros w Hw.
  - exact Hw.
  - now apply IH, wf_step.
Qed.

Lemma wf_boot location pre : wf (boot props location pre).
Proof. apply wf_mount, page_below. Qed.

End Reachable.

(** ** The derived [isValid] *)

Lemma no_keys_iff_empty {V : Type} (o : Js.Obj V) :
  Nat.eqb (length (Js.keys o)) 0 = true <-> o = [].
Proof. destruct o; simpl; split; congruence. Qed.

Section IsValid.
Context {D : Type}.
Variable props : FormProps D.
Implicit Types w : World D.

Lemma memo_setFieldErrors updater w :
  w_memo (setFieldErrors updater w) = w_memo w.
Proof. unfold setFieldErrors. now destruct (updater _ _). Qed.

Lemma memo_setTouchedFields updater w :
  w_memo (setTouchedFields updater w) = w_memo w.
Proof. unfold setTouchedFields. now destruct (updater _ _). Qed.

Lemma memo_Form_onReset event w :
  w_memo (snd (Form_onReset props event w)) = w_memo w.
Proof.
  unfold Form_onReset. destruct (onReset props) as [handler|].
  - destruct (defaultPrevented (if handler event then _ else _)); reflexivity.
  - destruct (defaultPrevented event); reflexivity.
Qed.

Lemma memo_ValidatedForm form w :
  exists deps,
    dep_fieldErrors deps = w_fieldErrors w
    /\ w_memo (ValidatedForm props form w)
       = Some (useMemo (w_memo w) (fun _ => contextValue (w_errors w) deps) deps).
Proof.
  unfold ValidatedForm. eexists; split; [|].
  2:{ destruct (useSubmitComplete _ _) as [lifecycle completed].
      assert (Heff : forall fe w', w_memo (useFieldErrors_effect fe w') = w_memo w').
      { intros fe w'. unfold useFieldErrors_effect.
        destruct (same_backendDep _ _); [reflexivity|].
        destruct fe; [now rewrite memo_setFieldErrors | reflexivity]. }
      destruct completed; [|simpl; now rewrite Heff].
      unfold onSubmitComplete. destruct (backendErrorOf props w);
        [simpl; now rewrite Heff|].
      destruct (resetAfterSubmit props); [|simpl; now rewrite Heff].
      simpl. destruct (w_formRef _); [|simpl; now rewrite Heff].
      rewrite memo_Form_onReset. simpl. now rewrite Heff. }
  reflexivity.
Qed.

(** C9.  At every moment in the life of a mounted form, that is after any
    sequence of events, the context value the engine exposes has [isValid]
    true exactly when its [fieldErrors] is the empty mapping; and the value
    exposed by a render carries the Field Error Store of that render, so
    that [isValid] is true exactly when the store is empty. *)
Theorem isValid_iff_no_errors
    (location : string) (pre : list RouterEvent) (es : list Event)
    (form : FormElement) :
  let w := run props es (boot props location pre) in
  (forall cv, exposed w = Some cv ->
     (cv_isValid cv = true <-> deref (w_errors w) (cv_fieldErrors cv) = []))
  /\ (exists cv, exposed (step props (Rendered form) w) = Some cv
                 /\ cv_fieldErrors cv = w_fieldErrors w
                 /\ (cv_isValid cv = true <-> fieldErrorsOf w = [])).
Proof.
  intros w.
  assert (Hw : wf w) by apply wf_run, wf_boot.
  split.
  - intros cv Hcv. unfold exposed in Hcv.
    destruct (w_memo w) as [[deps cv']|] eqn:Em; [|discriminate].
    injection Hcv as <-. destruct Hw as (_ & _ & _ & Hm).
    destruct (Hm deps cv' Em) as (_ & _ & ->). apply no_keys_iff_empty.
  - change (step props (Rendered form) w) with (ValidatedForm props form w).
    unfold exposed. destruct (memo_ValidatedForm form w) as (deps & Hd & ->).
    unfold useMemo.
    assert (Hnew : cv_fieldErrors (contextValue (w_errors w) deps) = w_fieldErrors w
                   /\ (cv_isValid (contextValue (w_errors w) deps) = true
                       <-> fieldErrorsOf w = [])).
    { simpl. rewrite Hd. split; [reflexivity | apply no_keys_iff_empty]. }
    destruct (w_memo w) as [[old value]|] eqn:Em; [|eexists; split; [reflexivity | exact Hnew]].
    destruct (same_deps old deps) eqn:Es; [|eexists; split; [reflexivity | exact Hnew]].
    exists value. split; [reflexivity|].
    destruct Hw as (_ & _ & _ & Hm). destruct (Hm old value Em) as (H1 & _ & H3).
    unfold same_deps in Es. repeat (apply andb_prop in Es as [Es ?]).
    apply Nat.eqb_eq in Es. rewrite Hd in Es.
    assert (Hsame : cv_fieldErrors value = w_fieldErrors w) by congruence.
    split; [exact Hsame|]. rewrite H3, Hsame. apply no_keys_iff_empty.
Qed.

End IsValid.

(** ** Matching a server response to a form *)

Lemma strict_eq_truthy a b :
  Js.truthy a = false -> Js.truthy b = true -> Js.strict_eq b a = false.
Proof.
  destruct a as [x|], b as [y|]; simpl; try discriminate; try reflexivity.
  unfold Js.truthy_string. intros Hx Hy.
  destruct (y =? x) eqn:E; [|reflexivity].
  apply String.eqb_eq in E. subst y. rewrite Hx in Hy. discriminate.
Qed.

Lemma matching_rule (ad : ActionData) (formSubaction : option string) (r : Ref) :
  ad_fieldErrors ad = Some r ->
  useErrorResponseForThisForm (Some ad) None formSubaction
    = if meant_for formSubaction (ad_subaction ad) then Some ad else None.
Proof.
  intros Hr. unfold useErrorResponseForThisForm, meant_for. rewrite Hr.
  destruct (Js.truthy formSubaction) eqn:Ef; simpl; [reflexivity|].
  destruct (Js.truthy (ad_subaction ad)) eqn:Ea; simpl; [|reflexivity].
  now rewrite strict_eq_truthy.
Qed.

Section Seeding.
Context {D : Type}.
Variable props : FormProps D.
Implicit Types w : World D.

(** The store after the reset handler: as it was when the event is
    cancelled, a new empty object otherwise. *)
Lemma store_Form_onReset event w :
  if reset_cancelled props event
  then w_fieldErrors (snd (Form_onReset props event w)) = w_fieldErrors w
       /\ w_errors (snd (Form_onReset props event w)) = w_errors w
  else w_fieldErrors (snd (Form_onReset props event w)) = length (w_errors w)
       /\ w_errors (snd (Form_onReset props event w)) = w_errors w ++ [[]].
Proof.
  unfold Form_onReset, reset_cancelled.
  destruct (onReset props) as [handler|].
  - destruct (handler event); simpl.
    + rewrite orb_true_r. auto.
    + rewrite orb_false_r. destruct (defaultPrevented event); simpl; auto.
  - rewrite orb_false_r. destruct (defaultPrevented event); simpl; auto.
Qed.

(** A render with no error response for the form leaves the store alone,
    unless it completes a submission and resets the form. *)
Lemma store_unmatched_render form w :
  backendErrorOf props w = None ->
  if resets_now props w
     && negb (reset_cancelled props
                {| currentTarget := form; defaultPrevented := false |})
  then w_fieldErrors (ValidatedForm props form w) = length (w_errors w)
       /\ w_errors (ValidatedForm props form w) = w_errors w ++ [[]]
  else w_fieldErrors (ValidatedForm props form w) = w_fieldErrors w
       /\ w_errors (ValidatedForm props form w) = w_errors w.
Proof.
  intros Hbe. unfold ValidatedForm, resets_now. rewrite Hbe.
  set (w2 := with_formRef (Some form) (with_memo _ w)).
  assert (Heff : exists w3,
             useFieldErrors_effect (None ≫= ad_fieldErrors) w2 = w3
             /\ w_errors w3 = w_errors w
             /\ w_fieldErrors w3 = w_fieldErrors w
             /\ w_formRef w3 = Some form
             /\ w_lifecycle w3 = w_lifecycle w).
  { unfold useFieldErrors_effect. simpl.
    destruct (same_backendDep _ _); eexists; split; try reflexivity; simpl; auto. }
  destruct Heff as (w3 & -> & He3 & Hf3 & Hr3 & Hl3). clearbody w2. rewrite Hl3.
  destruct (useSubmitComplete (w_lifecycle w) (isSubmittingOf props w))
    as [lifecycle [|]]; cbn [fst snd andb]; [|simpl; auto].
  unfold onSubmitComplete.
  destruct (resetAfterSubmit props); cbn [andb]; [|simpl; auto].
  cbn [w_formRef with_lifecycle with_hooks]. rewrite Hr3.
  pose proof (store_Form_onReset
                {| currentTarget := form; defaultPrevented := false |}
                (call [CallFormReset] (with_lifecycle lifecycle w3))) as Hreset.
  destruct (reset_cancelled props _); cbn [negb];
    destruct Hreset as [-> ->]; simpl; rewrite ?He3, ?Hf3; auto.
Qed.

Lemma seeded_iff_meant_for w payload fieldErrors form :
  wf w ->
  r_fetcher (w_router w) = None ->
  pl_fieldErrors payload = Some fieldErrors ->
  if meant_for (subaction props) (pl_subaction payload)
  then w_fieldErrors (respond_and_render props payload form w) = length (w_errors w)
       /\ fieldErrorsOf (respond_and_render props payload form w) = fieldErrors
  else w_fieldErrors (respond_and_render props payload form w) <> length (w_errors w)
       /\ if resets_now props (routed (ActionReturned (Some payload)) w)
             && negb (reset_cancelled props
                        {| currentTarget := form; defaultPrevented := false |})
          then fieldErrorsOf (respond_and_render props payload form w) = []
          else w_fieldErrors (respond_and_render props payload form w)
               = w_fieldErrors w
               /\ fieldErrorsOf (respond_and_render props payload form w)
                  = fieldErrorsOf w.
Proof.
  intros (Hf & Hb & _ & _) Hnofetcher Hfe.
  unfold respond_and_render, run; simpl.
  set (r := length (w_errors w)).
  set (ad := {| ad_fieldErrors := Some r;
                ad_subaction := pl_subaction payload;
                ad_repopulateFields := pl_repopulateFields payload |}).
  set (w1 := routed (ActionReturned (Some payload)) w).
  assert (H1 : w_errors w1 = w_errors w ++ [fieldErrors]
               /\ w_fieldErrors w1 = w_fieldErrors w
               /\ w_backendDep w1 = w_backendDep w
               /\ backendErrorOf props w1
                  = if meant_for (subaction props) (pl_subaction payload)
                    then Some ad else None).
  { subst w1. unfold routed, backendErrorOf; simpl. rewrite Hfe; simpl.
    rewrite Hnofetcher. repeat split. now apply (matching_rule ad _ r). }
  destruct H1 as (He1 & Hf1 & Hb1 & Hbe).
  destruct (meant_for (subaction props) (pl_subaction payload)).
  - unfold ValidatedForm. rewrite Hbe.
    set (w2 := with_formRef (Some form) (with_memo _ w1)).
    assert (H2 : w_errors w2 = w_errors w ++ [fieldErrors]
                 /\ w_backendDep w2 = w_backendDep w) by (subst w2; simpl; auto).
    clearbody w2. destruct H2 as (He2 & Hb2). simpl.
    assert (Hdep : same_backendDep (w_backendDep w2) (Some r) = false).
    { rewrite Hb2. destruct (w_backendDep w) as [[old|]|] eqn:Ed; simpl; auto.
      apply Nat.eqb_neq. specialize (Hb old eq_refl). subst r. lia. }
    unfold useFieldErrors_effect. rewrite Hdep.
    destruct (useSubmitComplete _ _) as [lifecycle [|]]; simpl;
      unfold fieldErrorsOf; simpl; rewrite He2;
      (split; [reflexivity | apply (deref_alloc (w_errors w) fieldErrors)]).
  - pose proof (store_unmatched_render form w1 Hbe) as Hstore.
    destruct (resets_now props w1 && negb (reset_cancelled props _));
      destruct Hstore as [Hr' He']; unfold fieldErrorsOf;
      rewrite Hr', He', ?He1, ?Hf1.
    + split; [rewrite length_app; simpl; subst r; lia|].
      rewrite <- He1. apply (deref_alloc (w_errors w1) []).
    + split; [subst r; lia|]. split; [reflexivity|]. now apply deref_extend.
Qed.

Lemma seeded_by_fetcher w f payload fieldErrors form :
  wf w ->
  r_fetcher (w_router w) = Some f ->
  pl_fieldErrors payload = Some fieldErrors ->
  w_fieldErrors (fetch_and_render props payload form w) = length (w_errors w)
  /\ fieldErrorsOf (fetch_and_render props payload form w) = fieldErrors.
Proof.
  intros (Hf & Hb & _ & _) Hfetcher Hfe.
  unfold fetch_and_render, run; simpl.
  set (r := length (w_errors w)).
  set (w1 := routed (FetcherLoaded (Some payload)) w).
  assert (H1 : w_errors w1 = w_errors w ++ [fieldErrors]
               /\ w_backendDep w1 = w_backendDep w
               /\ exists ad, backendErrorOf props w1 = Some ad
                             /\ ad_fieldErrors ad = Some r).
  { subst w1. unfold routed, backendErrorOf; simpl. rewrite Hfetcher; simpl.
    rewrite Hfe; simpl. repeat split. eexists. split; reflexivity. }
  destruct H1 as (He1 & Hb1 & ad & Hbe & Had).
  unfold ValidatedForm. rewrite Hbe. simpl. rewrite Had.
  set (w2 := with_formRef (Some form) (with_memo _ w1)).
  assert (H2 : w_errors w2 = w_errors w ++ [fieldErrors]
               /\ w_backendDep w2 = w_backendDep w) by (subst w2; simpl; auto).
  clearbody w2. destruct H2 as (He2 & Hb2).
  assert (Hdep : same_backendDep (w_backendDep w2) (Some r) = false).
  { rewrite Hb2. destruct (w_backendDep w) as [[old|]|] eqn:Ed; simpl; auto.
    apply Nat.eqb_neq. specialize (Hb old eq_refl). subst r. lia. }
  unfold useFieldErrors_effect. rewrite Hdep.
  destruct (useSubmitComplete _ _) as [lifecycle [|]]; simpl;
    unfold fieldErrorsOf; simpl; rewrite He2;
    (split; [reflexivity | apply (deref_alloc (w_errors w) fieldErrors)]).
Qed.

End Seeding.

(** C3.  For a form that takes its response from the action data (no
    fetcher is passed; with one, see C10): a response carrying
    [fieldErrors] is this form's error response exactly when it is meant
    for the form by the subaction rule.  After it arrives and the form
    renders, the Field Error Store is the [fieldErrors] object of the
    response when the rule holds.  When the rule does not hold the
    response leaves the store alone: the store is the object it was, with
    the content it had, unless this render completes a submission of the
    form and resets it, and then the store is a new empty object; in
    neither case is it the object of the response.  In particular a
    response tagged ["s1"] is the error response of a form configured with
    subaction ["s1"] and not of one configured with ["s2"]. *)
Theorem response_matched_by_subaction {D : Type}
    (props : FormProps D) (location : string) (pre : list RouterEvent)
    (es : list Event) (payload : Payload) (fieldErrors : FieldErrors)
    (form : FormElement) :
  let w := run props es (boot props location pre) in
  r_fetcher (w_router w) = None ->
  pl_fieldErrors payload = Some fieldErrors ->
  (forall ad r formSubaction,
      ad_fieldErrors ad = Some r ->
      useErrorResponseForThisForm (Some ad) None formSubaction
        = if meant_for formSubaction (ad_subaction ad) then Some ad else None)
  /\ (if meant_for (subaction props) (pl_subaction payload)
      then w_fieldErrors (respond_and_render props payload form w)
             = length (w_errors w)
           /\ fieldErrorsOf (respond_and_render props payload form w)
              = fieldErrors
      else w_fieldErrors (respond_and_render props payload form w)
             <> length (w_errors w)
           /\ if resets_now props (routed (ActionReturned (Some payload)) w)
                 && negb (reset_cancelled props
                            {| currentTarget := form; defaultPrevented := false |})
              then fieldErrorsOf (respond_and_render props payload form w) = []
              else w_fieldErrors (respond_and_render props payload form w)
                   = w_fieldErrors w
                   /\ fieldErrorsOf (respond_and_render props payload form w)
                      = fieldErrorsOf w)
  /\ (forall ad r,
        ad_fieldErrors ad = Some r -> ad_subaction ad = Some "s1" ->
        useErrorResponseForThisForm (Some ad) None (Some "s1") = Some ad
        /\ useErrorResponseForThisForm (Some ad) None (Some "s2") = None).
Proof.
  intros w Hnofetcher Hfe. split; [|split].
  - intros ad r formSubaction Hr. now apply (matching_rule ad formSubaction r).
  - apply seeded_iff_meant_for; [apply wf_run, wf_boot | exact Hnofetcher | exact Hfe].
  - intros ad r Hr Hs.
    rewrite !(matching_rule ad _ r Hr). unfold meant_for. now rewrite Hs.
Qed.

(** C10.  With a fetcher the subaction plays no part.  The error response
    of the form does not depend on the action data or on the subaction, and
    is the data of the fetcher whenever that data has [fieldErrors]: after
    such data arrives and the form renders, the Field Error Store is its
    [fieldErrors] object, whatever the subactions of the form and of the
    response.  [isSubmitting] does not depend on the pending submission,
    the action or the subaction, and is true exactly when the fetcher is
    submitting. *)
Theorem fetcher_bypasses_matching {D : Type}
    (props : FormProps D) (location : string) (pre : list RouterEvent)
    (es : list Event) (f : Fetcher) (payload : Payload)
    (fieldErrors : FieldErrors) (form : FormElement) :
  let w := run props es (boot props location pre) in
  r_fetcher (w_router w) = Some f ->
  pl_fieldErrors payload = Some fieldErrors ->
  (forall actionData actionData' subaction subaction',
      useErrorResponseForThisForm actionData (Some f) subaction
      = useErrorResponseForThisForm actionData' (Some f) subaction')
  /\ (forall actionData subaction data r,
        fetcher_data f = Some data -> ad_fieldErrors data = Some r ->
        useErrorResponseForThisForm actionData (Some f) subaction = Some data)
  /\ (w_fieldErrors (fetch_and_render props payload form w) = length (w_errors w)
      /\ fieldErrorsOf (fetch_and_render props payload form w) = fieldErrors)
  /\ (forall location location' pending pending' action action'
             subaction subaction',
        useIsSubmitting location pending action subaction (Some f)
        = useIsSubmitting location' pending' action' subaction' (Some f))
  /\ (isSubmittingOf props w = true <-> fetcher_state f = FetcherSubmitting).
Proof.
  intros w Hfetcher Hfe. split; [|split; [|split; [|split]]].
  - reflexivity.
  - intros actionData subaction data r Hd Hr.
    unfold useErrorResponseForThisForm. now rewrite Hd, Hr.
  - apply (seeded_by_fetcher props w f);
      [apply wf_run, wf_boot | exact Hfetcher | exact Hfe].
  - reflexivity.
  - unfold isSubmittingOf. rewrite Hfetcher. simpl.
    destruct (fetcher_state f); split; congruence.
Qed.

(** ** Focus on the first invalid input *)

Lemma find_pointwise {A : Type} (f g : A -> bool) (l : list A) :
  (forall x, f x = g x) -> find f l = find g l.
Proof.
  intros Hfg. induction l as [|x l IH]; simpl; [reflexivity|].
  now rewrite Hfg, IH.
Qed.

Section FocusOrder.
Context {D : Type}.
Implicit Types (fieldErrors : FieldErrors) (handlers : MultiValueMap.t).

(** The selector is the empty string exactly when there is no error. *)
Lemma selector_empty (names : list string) :
  (String.concat "," (map inputNamed names) =? "")
  = match names with [] => true | _ => false end.
Proof. destruct names as [|a [|b rest]]; reflexivity. Qed.

Lemma focusLoop_first fieldErrors handlers (elements : list Element) :
  focusLoop handlers (List.filter (invalid_input fieldErrors) elements)
  = match find (takes_focus fieldErrors handlers) elements with
    | Some e => dispatch handlers e
    | None => @nil (Call D)
    end.
Proof.
  induction elements as [|e rest IH]; [reflexivity|].
  cbn [List.filter find]. unfold takes_focus at 1.
  destruct (invalid_input fieldErrors e); cbn [andb]; [|exact IH].
  cbn [focusLoop].
  destruct (MultiValueMap.has handlers (el_name e)) eqn:Eh; cbn [orb].
  - unfold dispatch. now rewrite Eh.
  - destruct (el_type e =? "hidden"); cbn [negb]; [exact IH|].
    unfold dispatch. now rewrite Eh.
Qed.

Lemma focusFirstInvalidInput_first fieldErrors handlers (form : FormElement) :
  selects_invalid_inputs form fieldErrors ->
  focusFirstInvalidInput fieldErrors handlers (Some form)
  = match Js.keys fieldErrors with
    | [] => Throws "SyntaxError"
    | _ => Returns match find (takes_focus fieldErrors handlers)
                              (form_elements form) with
                   | Some e => dispatch handlers e
                   | None => @nil (Call D)
                   end
    end.
Proof.
  intros Hdom. unfold focusFirstInvalidInput, querySelectorAll.
  rewrite selector_empty.
  destruct (Js.keys fieldErrors) as [|k ks] eqn:Ek; [reflexivity|].
  rewrite <- Ek, Hdom. now rewrite focusLoop_first.
Qed.

Lemma no_own_property fieldErrors :
  (forall name, Js.has fieldErrors name = false) -> Js.keys fieldErrors = [].
Proof.
  destruct fieldErrors as [|[k v] rest]; [reflexivity|].
  intros H. specialize (H k). unfold Js.has in H. simpl in H.
  now rewrite String.eqb_refl in H.
Qed.

End FocusOrder.

(** ** The selector engine of the fixtures

    [Dom.select] reads the selector built from escape-free names back into
    these names: a form queried through it satisfies
    [selects_invalid_inputs] for every such set of errors. *)

Lemma string_append_assoc (a b c : string) :
  String.append (String.append a b) c = String.append a (String.append b c).
Proof. induction a as [|x a IH]; simpl; [reflexivity | now rewrite IH]. Qed.

Lemma string_length_append_r (a b : string) :
  String.length b <= String.length (String.append a b).
Proof. induction a as [|x a IH]; simpl; lia. Qed.

Lemma strip_append (p s : string) : Dom.strip p (String.append p s) = Some s.
Proof.
  induction p as [|c p IH]; simpl; [reflexivity|].
  now rewrite Ascii.eqb_refl.
Qed.

Lemma quoted_plain (name rest : string) :
  Dom.plain name = true ->
  Dom.quoted (String.append name (String.append dquote rest)) = Some (name, rest).
Proof.
  induction name as [|c name IH]; [reflexivity|].
  intros H. cbn [Dom.plain] in H. apply andb_prop in H as [Hc Hn].
  apply negb_true_iff in Hc.
  assert (Hq : Nat.eqb (Ascii.nat_of_ascii c) 34 = false).
  { unfold Dom.special in Hc. cbn [existsb] in Hc.
    repeat (apply orb_false_elim in Hc as [? Hc]). assumption. }
  cbn [String.append Dom.quoted]. now rewrite Hq, Hc, (IH Hn).
Qed.

Lemma inputNamed_append (name rest : string) :
  String.append (inputNamed name) rest
  = String.append (String.append "input[name=" dquote)
      (String.append name (String.append dquote (String.append "]" rest))).
Proof. unfold inputNamed. now rewrite !string_append_assoc. Qed.

Lemma names_plain (ks : list string) (fuel : nat) :
  ks <> [] -> forallb Dom.plain ks = true -> length ks <= fuel ->
  Dom.names fuel (String.concat "," (map inputNamed ks)) = Some ks.
Proof.
  revert fuel. induction ks as [|k ks IH]; intros fuel Hne Hp Hfuel;
    [now destruct Hne|].
  cbn [forallb] in Hp. apply andb_prop in Hp as [Hk Hks].
  destruct fuel as [|fuel]; [simpl in Hfuel; lia|].
  destruct ks as [|k' ks].
  - cbn [map String.concat Dom.names].
    replace (inputNamed k) with (String.append (inputNamed k) "")
      by (clear; induction (inputNamed k); simpl; congruence).
    rewrite inputNamed_append, strip_append, (quoted_plain _ _ Hk).
    reflexivity.
  - change (String.concat "," (map inputNamed (k :: k' :: ks)))
      with (String.append (inputNamed k)
              (String.append "," (String.concat "," (map inputNamed (k' :: ks))))).
    rewrite inputNamed_append. cbn [Dom.names].
    rewrite strip_append, (quoted_plain _ _ Hk).
    change (Dom.strip "]" (String.append "]" ?x)) with (Some x).
    cbn [Dom.strip String.append]. rewrite Ascii.eqb_refl.
    rewrite IH; [reflexivity | discriminate | exact Hks | simpl in *; lia].
Qed.

Lemma selector_length (ks : list string) :
  length ks <= String.length (String.concat "," (map inputNamed ks)).
Proof.
  induction ks as [|k ks IH]; [simpl; lia|].
  destruct ks as [|k' ks].
  - unfold inputNamed. simpl. lia.
  - change (String.concat "," (map inputNamed (k :: k' :: ks)))
      with (String.append (inputNamed k)
              (String.append "," (String.concat "," (map inputNamed (k' :: ks))))).
    unfold inputNamed at 1. cbn [String.append String.length].
    pose proof (string_length_append_r
                  (String.append "nput[name="
                     (String.append dquote (String.append k (String.append dquote "]"))))
                  (String.append "," (String.concat "," (map inputNamed (k' :: ks))))) as Hl.
    cbn [String.append String.length] in Hl. cbn [length] in *. lia.
Qed.

Lemma named_by_key (fieldErrors : FieldErrors) (e : Element) :
  existsb (named_input e) (Js.keys fieldErrors) = invalid_input fieldErrors e.
Proof.
  unfold invalid_input, named_input, Js.has.
  induction fieldErrors as [|[k v] rest IH]; simpl.
  - now rewrite andb_false_r.
  - rewrite IH, (String.eqb_sym (el_name e) k).
    destruct (el_tag e =? "input"), (k =? el_name e); reflexivity.
Qed.

Lemma select_plain_names (elements : list Element) (entries : FormData)
    (fieldErrors : FieldErrors) :
  Js.keys fieldErrors <> [] ->
  forallb Dom.plain (Js.keys fieldErrors) = true ->
  selects_invalid_inputs (Dom.form elements entries) fieldErrors.
Proof.
  intros Hne Hp. unfold selects_invalid_inputs, Dom.form, Dom.select.
  cbn [form_matches form_elements].
  rewrite (names_plain _ _ Hne Hp (selector_length _)).
  f_equal. apply filter_ext. intros e. apply named_by_key.
Qed.

(** C4, as the specification states it, fails: with errors for [a] then
    [b] and the input of [b] placed before the input of [a] in the form,
    both visible and without handlers, the code focuses [b] while the
    visit in the order of the errors would focus [a].  It also fails for a
    field name that holds a double quote: the name ends the quoted string
    it is spliced into, the selector is malformed and the query throws,
    while the visit of the specification would focus the field. *)
Lemma focus_in_error_order_fails :
  let fieldErrors := [("a", "A is required"); ("b", "B is required")] in
  let form := Dom.form [Fixture.input 0 "b" "text"; Fixture.input 1 "a" "text"]
                       [("b", ""); ("a", "")] in
  let quote := String.append "a" (String.append dquote "b") in
  let quoteForm := Dom.form [Fixture.input 0 quote "text"] [(quote, "")] in
  focusFirstInvalidInput (D := unit) fieldErrors MultiValueMap.empty (Some form)
    = Returns [CallFocus 0]
  /\ focusInErrorOrder (D := unit) (Js.keys fieldErrors) MultiValueMap.empty form
     = [CallFocus 1]
  /\ focusFirstInvalidInput (D := unit) fieldErrors MultiValueMap.empty (Some form)
     <> Returns (focusInErrorOrder (Js.keys fieldErrors) MultiValueMap.empty form)
  /\ focusFirstInvalidInput (D := unit) [(quote, "Required")] MultiValueMap.empty
       (Some quoteForm)
     = Throws "SyntaxError"
  /\ focusInErrorOrder (D := unit) [quote] MultiValueMap.empty quoteForm
     = [CallFocus 0].
Proof.
  split; [vm_compute; reflexivity | split; [vm_compute; reflexivity|]].
  split; [vm_compute; discriminate|].
  split; vm_compute; reflexivity.
Qed.

(** C4, amended.  Let the selector built from the names of the errors
    select, in the form, the inputs bearing one of these names (it does
    when no name holds a double quote, a backslash or a line break).
    With no error at all the selector is empty and the call throws a
    syntax error.  Otherwise the algorithm visits, in document order, the
    inputs of the form whose name has an error, whatever the order of the
    errors.  At the first such input that has handlers registered under
    its name or is not hidden, the visit ends: the handlers are all
    invoked if there are any, else the input is focused; hidden inputs
    without handlers are passed over.  When there is no such input nothing
    is called.  In particular, with errors for [a] and [b], every input
    named [a] hidden, some input named [b] visible and no handlers for
    either, the focus lands on an input named [b]. *)
Theorem focus_follows_document_order {D : Type}
    (fieldErrors : FieldErrors) (handlers : MultiValueMap.t) (form : FormElement) :
  selects_invalid_inputs form fieldErrors ->
  focusFirstInvalidInput (D := D) fieldErrors handlers (Some form)
  = match Js.keys fieldErrors with
    | [] => Throws "SyntaxError"
    | _ => Returns match find (takes_focus fieldErrors handlers)
                              (form_elements form) with
                   | Some e => dispatch handlers e
                   | None => []
                   end
    end
  /\ (forall fieldErrors',
        (forall name, Js.has fieldErrors' name = Js.has fieldErrors name) ->
        selects_invalid_inputs form fieldErrors' ->
        focusFirstInvalidInput (D := D) fieldErrors' handlers (Some form)
        = focusFirstInvalidInput fieldErrors handlers (Some form))
  /\ (Js.keys fieldErrors = ["a"; "b"] ->
      MultiValueMap.has handlers "a" = false ->
      MultiValueMap.has handlers "b" = false ->
      (forall e, In e (form_elements form) -> el_tag e = "input" ->
                 el_name e = "a" -> el_type e = "hidden") ->
      (exists e, In e (form_elements form) /\ el_tag e = "input"
                 /\ el_name e = "b" /\ el_type e <> "hidden") ->
      exists e, In e (form_elements form) /\ el_name e = "b"
                /\ focusFirstInvalidInput (D := D) fieldErrors handlers (Some form)
                   = Returns [CallFocus (el_id e)]).
Proof.
  intros Hdom. split; [now apply focusFirstInvalidInput_first | split].
  - intros fieldErrors' Hsame Hdom'.
    rewrite !focusFirstInvalidInput_first by assumption.
    destruct (Js.keys fieldErrors) as [|k ks] eqn:Ek.
    + rewrite no_own_property; [reflexivity|].
      intros name. rewrite Hsame, has_keys, Ek. reflexivity.
    + destruct (Js.keys fieldErrors') as [|k' ks'] eqn:Ek'.
      * exfalso. specialize (Hsame k).
        rewrite !has_keys, Ek, Ek' in Hsame. simpl in Hsame.
        now rewrite String.eqb_refl in Hsame.
      * f_equal. erewrite find_pointwise; [reflexivity|].
        intros e. unfold takes_focus, invalid_input. now rewrite Hsame.
  - intros Hkeys Ha Hb Hhidden (b & Hin & Htag & Hname & Htype).
    rewrite focusFirstInvalidInput_first by assumption. rewrite Hkeys.
    assert (Hhas : forall name, Js.has fieldErrors name = true ->
                                name = "a" \/ name = "b").
    { intros name. rewrite has_keys, Hkeys. simpl.
      destruct (String.eqb_spec name "a"); [auto|].
      destruct (String.eqb_spec name "b"); [auto | discriminate]. }
    destruct (find (takes_focus fieldErrors handlers) (form_elements form))
      as [e|] eqn:Efind.
    + apply find_some in Efind as [Hine He].
      unfold takes_focus, invalid_input in He.
      apply andb_prop in He as [Hinv Hvis]. apply andb_prop in Hinv as [Hte Hhe].
      apply String.eqb_eq in Hte.
      destruct (Hhas _ Hhe) as [Hea | Heb].
      * rewrite Hea, Ha, (Hhidden e Hine Hte Hea) in Hvis. discriminate.
      * exists e. repeat split; [exact Hine | exact Heb|].
        unfold dispatch. now rewrite Heb, Hb.
    + exfalso. apply (find_none _ _ Efind) in Hin.
      unfold takes_focus, invalid_input in Hin.
      rewrite Htag, Hname, Hb, has_keys, Hkeys in Hin. simpl in Hin.
      apply String.eqb_neq in Htype. now rewrite Htype in Hin.
Qed.

(** ** [clearError] and [validateField] *)

Section FieldCallbacks.
Context {D : Type}.
Implicit Types w : World D.

Lemma setFieldErrors_same updater w :
  updater (w_errors w) (w_fieldErrors w) = (w_errors w, w_fieldErrors w) ->
  setFieldErrors updater w = w.
Proof.
  intros Hu. unfold setFieldErrors. rewrite Hu, Object_is_refl. now destruct w.
Qed.

Lemma setFieldErrors_alloc updater w (o : FieldErrors) :
  updater (w_errors w) (w_fieldErrors w) = alloc (w_errors w) o ->
  fieldErrorsOf (setFieldErrors updater w) = o
  /\ w_fieldErrors (setFieldErrors updater w) = length (w_errors w)
  /\ w_formRef (setFieldErrors updater w) = w_formRef w
  /\ w_updates (setFieldErrors updater w)
     = if Object_is (length (w_errors w)) (w_fieldErrors w)
       then w_updates w else S (w_updates w).
Proof.
  intros Hu. unfold setFieldErrors, fieldErrorsOf. rewrite Hu. simpl.
  split; [apply (deref_alloc (w_errors w) o) | auto].
Qed.

(** [clearError] replaces the store by a new object, whether or not the
    field had an error; on a well-formed world that is a change of
    reference and a notified update. *)
Lemma clearError_allocates fieldName w :
  wf w ->
  w_fieldErrors (FormContext.clearError fieldName w) <> w_fieldErrors w
  /\ w_updates (FormContext.clearError fieldName w) = S (w_updates w)
  /\ fieldErrorsOf (FormContext.clearError fieldName w)
     = Js.remove (fieldErrorsOf w) fieldName
  /\ (Js.has (fieldErrorsOf w) fieldName = false ->
      fieldErrorsOf (FormContext.clearError fieldName w) = fieldErrorsOf w).
Proof.
  intros (Hf & _). unfold FormContext.clearError.
  destruct (setFieldErrors_alloc (fun h prev => omit h prev [fieldName]) w
              (Js.remove (fieldErrorsOf w) fieldName) eq_refl)
    as (Ho & Hr & _ & Hu).
  rewrite Ho, Hr, Hu.
  assert (Hne : length (w_errors w) <> w_fieldErrors w) by lia.
  unfold Object_is. rewrite (proj2 (Nat.eqb_neq _ _) Hne).
  repeat split; [exact Hne | apply remove_absent].
Qed.

Lemma strict_eq_refl (a : option string) : Js.strict_eq a a = true.
Proof. destruct a; simpl; [apply String.eqb_refl | reflexivity]. Qed.

Lemma strict_eq_true (a b : option string) : Js.strict_eq a b = true -> a = b.
Proof.
  destruct a, b; simpl; try discriminate; [|reflexivity].
  intros H. apply String.eqb_eq in H. now subst.
Qed.

Lemma keeps_store_entry (error : option string) (fieldErrors : FieldErrors)
    (fieldName : string) :
  keeps_store error fieldErrors fieldName = true ->
  newEntry error = Js.get fieldErrors fieldName.
Proof.
  unfold keeps_store, newEntry, Js.in_, Js.has.
  destruct (Js.truthy error).
  - intros H. symmetry. now apply strict_eq_true.
  - destruct (Js.get fieldErrors fieldName); [discriminate | reflexivity].
Qed.

Lemma entry_keeps_store (error : option string) (fieldErrors : FieldErrors)
    (fieldName : string) :
  Js.truthy error = true \/ Js.inherited fieldName = false ->
  newEntry error = Js.get fieldErrors fieldName ->
  keeps_store error fieldErrors fieldName = true.
Proof.
  unfold keeps_store, newEntry, Js.in_, Js.has.
  destruct (Js.truthy error); intros Hside Hsame.
  - rewrite <- Hsame. apply strict_eq_refl.
  - destruct Hside as [Ht | Hi]; [discriminate|].
    now rewrite <- Hsame, Hi.
Qed.

(** The two outcomes of [validateField] on a mounted form: the store is
    handed back and nothing changes, or a new object takes its place. *)
Lemma validateField_outcome validator fieldName form w :
  w_formRef w = Some form ->
  let error := validateField validator (getDataFromForm form) fieldName in
  (keeps_store error (fieldErrorsOf w) fieldName = true
   /\ FormContext.validateField validator fieldName w = w)
  \/ (keeps_store error (fieldErrorsOf w) fieldName = false
      /\ w_fieldErrors (FormContext.validateField validator fieldName w)
         = length (w_errors w)
      /\ w_formRef (FormContext.validateField validator fieldName w) = Some form
      /\ w_updates (FormContext.validateField validator fieldName w)
         = (if Object_is (length (w_errors w)) (w_fieldErrors w)
            then w_updates w else S (w_updates w))
      /\ fieldErrorsOf (FormContext.validateField validator fieldName w)
         = match newEntry error with
           | Some message => Js.set (fieldErrorsOf w) fieldName message
           | None => Js.remove (fieldErrorsOf w) fieldName
           end).
Proof.
  intros Hform error.
  unfold FormContext.validateField, keeps_store, newEntry. rewrite Hform.
  fold error. destruct (Js.truthy error) eqn:Et.
  - destruct (Js.strict_eq (Js.get (fieldErrorsOf w) fieldName) error) eqn:Es.
    + left. split; [reflexivity|]. apply setFieldErrors_same.
      fold (fieldErrorsOf w). now rewrite Es.
    + right. split; [reflexivity|].
      destruct (setFieldErrors_alloc
                  (fun h prev =>
                     if Js.strict_eq (Js.get (deref h prev) fieldName) error
                     then (h, prev)
                     else alloc h (Js.set (deref h prev) fieldName (default "" error)))
                  w (Js.set (fieldErrorsOf w) fieldName (default "" error)))
        as (Ho & Hr & Hf & Hu).
      { fold (fieldErrorsOf w). now rewrite Es. }
      rewrite Ho, Hr, Hf, Hu. destruct error; [auto | discriminate].
  - destruct (Js.in_ (fieldErrorsOf w) fieldName) eqn:Eh.
    + right. split; [reflexivity|].
      destruct (setFieldErrors_alloc
                  (fun h prev =>
                     if negb (Js.in_ (deref h prev) fieldName)
                     then (h, prev)
                     else omit h prev [fieldName])
                  w (Js.remove (fieldErrorsOf w) fieldName))
        as (Ho & Hr & Hf & Hu).
      { fold (fieldErrorsOf w). now rewrite Eh. }
      rewrite Ho, Hr, Hf, Hu. auto.
    + left. split; [reflexivity|]. apply setFieldErrors_same.
      fold (fieldErrorsOf w). now rewrite Eh.
Qed.

Lemma validateField_same validator fieldName form w :
  w_formRef w = Some form ->
  Js.truthy (validateField validator (getDataFromForm form) fieldName) = true
  \/ Js.inherited fieldName = false ->
  newEntry (validateField validator (getDataFromForm form) fieldName)
    = Js.get (fieldErrorsOf w) fieldName ->
  FormContext.validateField validator fieldName w = w.
Proof.
  intros Hform Hside Hsame.
  destruct (validateField_outcome validator fieldName form w Hform)
    as [[_ Hw] | (Hk & _)]; [exact Hw|].
  now rewrite (entry_keeps_store _ _ _ Hside Hsame) in Hk.
Qed.

Lemma validateField_settles validator fieldName form w :
  w_formRef w = Some form ->
  w_formRef (FormContext.validateField validator fieldName w) = Some form
  /\ newEntry (validateField validator (getDataFromForm form) fieldName)
     = Js.get (fieldErrorsOf (FormContext.validateField validator fieldName w))
              fieldName.
Proof.
  intros Hform.
  destruct (validateField_outcome validator fieldName form w Hform)
    as [[Hk Hw] | (_ & _ & Hf & _ & Ho)].
  - rewrite Hw. split; [exact Hform | now apply keeps_store_entry].
  - split; [exact Hf|]. rewrite Ho.
    destruct (newEntry _); [now rewrite get_set_same | now rewrite get_remove_same].
Qed.

(** C6, amended.  Let the validator report for the field a non-empty
    error, or let the field name be none of the names an object inherits
    from [Object.prototype].  When the entry [validateField] gives the
    field (the non-empty error, or none when the error is absent or
    empty) is the entry the store already has, the call changes nothing:
    the reference of the Field Error Store and the count of notified
    updates are the same, and so is the rest of the state.  Hence a second
    call, the form being as it was, changes nothing either. *)
Theorem validateField_unchanged_is_silent
    (validator : Validator D) (fieldName : string) (form : FormElement) w :
  w_formRef w = Some form ->
  Js.truthy (validateField validator (getDataFromForm form) fieldName) = true
  \/ Js.inherited fieldName = false ->
  (newEntry (validateField validator (getDataFromForm form) fieldName)
     = Js.get (fieldErrorsOf w) fieldName ->
   FormContext.validateField validator fieldName w = w)
  /\ FormContext.validateField validator fieldName
       (FormContext.validateField validator fieldName w)
     = FormContext.validateField validator fieldName w.
Proof.
  intros Hform Hside. split.
  - now apply validateField_same.
  - destruct (validateField_settles validator fieldName form w Hform)
      as [Hform' Hentry].
    now apply (validateField_same validator fieldName form).
Qed.

End FieldCallbacks.

(** C6, as the specification states it, fails at two inputs.  After a
    submit the validator rejected with the empty message for [a], the
    store has the entry [""] for [a] and the validator reports [""] for
    [a], the identical string: [validateField] removes the entry all the
    same, because the empty string is no error to the code; the store is
    a new object and one update is notified.  And for the field name
    [toString] on the mounted fixture form, the validator reports no error
    and the store has no entry, both absent: since [toString] is [in]
    every object, each call replaces the store by a new object and
    notifies one update, the second call as the first. *)
Lemma validateField_same_outcome_notifies :
  let w := Fixture.submittedOnlyA in
  let w' := FormContext.validateField Fixture.emptyMessage "a" w in
  let v := Fixture.mounted Fixture.janeDoe in
  let v' := FormContext.validateField Fixture.nameValidator "toString" v in
  let v'' := FormContext.validateField Fixture.nameValidator "toString" v' in
  (w_formRef w = Some Fixture.onlyA
   /\ validateField Fixture.emptyMessage (getDataFromForm Fixture.onlyA) "a"
      = Some ""
   /\ Js.get (fieldErrorsOf w) "a" = Some ""
   /\ w_fieldErrors w' <> w_fieldErrors w
   /\ w_updates w' = S (w_updates w))
  /\ (w_formRef v = Some Fixture.janeDoe
      /\ validateField Fixture.nameValidator (getDataFromForm Fixture.janeDoe)
                       "toString" = None
      /\ Js.get (fieldErrorsOf v) "toString" = None
      /\ w_fieldErrors v' <> w_fieldErrors v
      /\ w_updates v' = S (w_updates v)
      /\ Js.get (fieldErrorsOf v') "toString" = None
      /\ w_fieldErrors v'' <> w_fieldErrors v'
      /\ w_updates v'' = S (w_updates v')).
Proof.
  vm_compute. repeat split; discriminate.
Qed.

(** C5 fails on the code.  On the mounted fixture form the store is the
    empty object at address 0 and ["firstName"] has no entry; after
    [clearError("firstName")] the store is another object, at address 1,
    with the same (empty) content, and one state update was notified. *)
Theorem clearError_without_entry_changes_reference :
  let w := Fixture.mounted Fixture.janeDoe in
  let w' := FormContext.clearError "firstName" w in
  Js.has (fieldErrorsOf w) "firstName" = false
  /\ w_fieldErrors w = 0 /\ w_fieldErrors w' = 1
  /\ fieldErrorsOf w' = fieldErrorsOf w
  /\ w_updates w' = S (w_updates w).
Proof. repeat split. Qed.

(** ** Completion of a submission *)

Lemma completions_falling_edges (state : Lifecycle) (renders : list bool) :
  completions state renders = falling_edges (is_submitting state) renders.
Proof.
  revert state. induction renders as [|isSubmitting rest IH]; intros state.
  - reflexivity.
  - cbn [completions falling_edges]. rewrite IH.
    destruct state, isSubmitting; reflexivity.
Qed.

Lemma completions_while_submitting (n : nat) (rest : list bool) :
  completions Submitting (repeat true n ++ rest) = completions Submitting rest.
Proof. induction n as [|n IH]; [reflexivity | exact IH]. Qed.

Section Completion.
Context {D : Type}.
Variable props : FormProps D.
Implicit Types w : World D.

Lemma resets_app (a b : list (Call D)) : resets (a ++ b) = resets a + resets b.
Proof.
  induction a as [|c a IH]; [reflexivity|].
  destruct c; simpl; now rewrite IH.
Qed.

Lemma calls_setFieldErrors updater w :
  w_calls (setFieldErrors updater w) = w_calls w
  /\ w_formRef (setFieldErrors updater w) = w_formRef w
  /\ w_lifecycle (setFieldErrors updater w) = w_lifecycle w.
Proof. unfold setFieldErrors. now destruct (updater _ _). Qed.

Lemma calls_useFieldErrors_effect fieldErrorsFromBackend w :
  w_calls (useFieldErrors_effect fieldErrorsFromBackend w) = w_calls w
  /\ w_formRef (useFieldErrors_effect fieldErrorsFromBackend w) = w_formRef w
  /\ w_lifecycle (useFieldErrors_effect fieldErrorsFromBackend w) = w_lifecycle w.
Proof.
  unfold useFieldErrors_effect. destruct (same_backendDep _ _); [auto|].
  destruct fieldErrorsFromBackend; [|auto].
  exact (calls_setFieldErrors _ (with_backendDep _ w)).
Qed.

Lemma resets_Form_onReset event w :
  resets (w_calls (snd (Form_onReset props event w))) = resets (w_calls w)
  /\ w_lifecycle (snd (Form_onReset props event w)) = w_lifecycle w.
Proof.
  unfold Form_onReset. destruct (onReset props) as [handler|].
  - destruct (defaultPrevented (if handler event then _ else _)); simpl;
      rewrite resets_app; simpl; auto.
  - destruct (defaultPrevented event); simpl; auto.
Qed.

Lemma render_advances_watcher form w :
  w_lifecycle (ValidatedForm props form w)
  = fst (useSubmitComplete (w_lifecycle w) (isSubmittingOf props w))
  /\ resets (w_calls (ValidatedForm props form w))
     = resets (w_calls w)
       + (if snd (useSubmitComplete (w_lifecycle w) (isSubmittingOf props w))
             && resetAfterSubmit props
             && match backendErrorOf props w with
                | Some _ => false
                | None => true
                end
          then 1 else 0).
Proof.
  unfold ValidatedForm.
  set (fe := backendErrorOf props w ≫= ad_fieldErrors).
  set (w1 := with_formRef (Some form) (with_memo _ w)).
  destruct (calls_useFieldErrors_effect fe w1) as (Hc & Hr & Hl).
  replace (w_lifecycle (useFieldErrors_effect fe w1)) with (w_lifecycle w)
    by (now rewrite Hl).
  destruct (useSubmitComplete (w_lifecycle w) (isSubmittingOf props w))
    as [lifecycle completed].
  cbn [fst snd]. destruct completed; cbn [andb].
  - unfold onSubmitComplete.
    destruct (backendErrorOf props w) as [ad|].
    + rewrite andb_false_r. simpl. rewrite Hc. split; [reflexivity | simpl; lia].
    + destruct (resetAfterSubmit props).
      * cbn [w_formRef with_lifecycle with_hooks]. rewrite Hr.
        cbn [w_formRef w1 with_formRef with_hooks].
        destruct (resets_Form_onReset
                    {| currentTarget := form; defaultPrevented := false |}
                    (call [CallFormReset]
                       (with_lifecycle lifecycle (useFieldErrors_effect fe w1))))
          as [-> ->].
        simpl. rewrite resets_app, Hc. simpl. split; [reflexivity | lia].
      * simpl. rewrite Hc. split; [reflexivity | simpl; lia].
  - simpl. rewrite Hc. split; [reflexivity | simpl; lia].
Qed.

Lemma resets_focusLoop handlers (inputs : list Element) :
  resets (focusLoop (D := D) handlers inputs) = 0.
Proof.
  induction inputs as [|input rest IH]; simpl; [reflexivity|].
  destruct (MultiValueMap.has handlers (el_name input)).
  - induction (MultiValueMap.getAll handlers (el_name input)); simpl; auto.
  - destruct (el_type input =? "hidden"); [exact IH | reflexivity].
Qed.

Lemma resets_Form_onSubmit event w :
  resets (w_calls (snd (Form_onSubmit props event w))) = resets (w_calls w)
  /\ w_lifecycle (snd (Form_onSubmit props event w)) = w_lifecycle w.
Proof.
  unfold Form_onSubmit.
  destruct (validate _ _) as [data | fieldErrors submitted].
  - destruct (onSubmit props); simpl; [rewrite resets_app; simpl|]; auto.
  - destruct (negb (disableFocusOnError props)); [|simpl; auto].
    unfold focusFirstInvalidInput.
    destruct (w_formRef _) as [form|]; [|simpl; rewrite resets_app; simpl; auto].
    destruct (querySelectorAll _ _); simpl; rewrite resets_app; simpl;
      [rewrite resets_focusLoop|]; auto.
Qed.

Lemma watcher_setFieldErrors updater w :
  resets (w_calls (setFieldErrors updater w)) = resets (w_calls w)
  /\ w_lifecycle (setFieldErrors updater w) = w_lifecycle w.
Proof. destruct (calls_setFieldErrors updater w) as (-> & _ & ->). auto. Qed.

Lemma other_events_keep_watcher e w :
  (forall form, e <> Rendered form) ->
  resets (w_calls (step props e w)) = resets (w_calls w)
  /\ w_lifecycle (step props e w) = w_lifecycle w.
Proof.
  intros Hnot. destruct e; cbn [step].
  - unfold routed. now destruct (route _ _ _).
  - now destruct (Hnot form).
  - now destruct (w_formRef w).
  - destruct (w_formRef w); [apply resets_Form_onSubmit | auto].
  - destruct (w_formRef w); [apply resets_Form_onReset | auto].
  - unfold FormContext.setFieldTouched, setTouchedFields. simpl. auto.
  - apply watcher_setFieldErrors.
  - unfold FormContext.validateField.
    destruct (w_formRef w); [|simpl; rewrite resets_app; simpl; auto].
    destruct (Js.truthy _); apply watcher_setFieldErrors.
  - auto.
  - auto.
Qed.

Lemma resets_bounded_by_completions es w :
  resets (w_calls (run props es w))
  <= resets (w_calls w) + completions (w_lifecycle w) (signal props es w)
  /\ (resetAfterSubmit props = false ->
      resets (w_calls (run props es w)) = resets (w_calls w)).
Proof.
  unfold run. revert w. induction es as [|e es IH]; intros w.
  - simpl. split; [lia | reflexivity].
  - cbn [fold_left]. destruct (IH (step props e w)) as [IHle IHeq].
    assert (Hrender : forall form, e = Rendered form ->
              resets (w_calls (fold_left (fun w e => step props e w) es (step props e w)))
              <= resets (w_calls w) + completions (w_lifecycle w) (signal props (e :: es) w)
              /\ (resetAfterSubmit props = false ->
                  resets (w_calls (fold_left (fun w e => step props e w) es
                                             (step props e w)))
                  = resets (w_calls w))).
    { intros form ->. cbn [signal completions].
      change (step props (Rendered form) w) with (ValidatedForm props form w) in *.
      destruct (render_advances_watcher form w) as [Hl Hc].
      rewrite Hl, Hc in IHle. split.
      - destruct (snd (useSubmitComplete (w_lifecycle w) (isSubmittingOf props w)));
          cbn [andb] in IHle; [|lia].
        destruct (resetAfterSubmit props && _); lia.
      - intros Hoff. rewrite (IHeq Hoff), Hc, Hoff, andb_false_r. simpl. lia. }
    assert (Hother : (forall form, e <> Rendered form) ->
              resets (w_calls (fold_left (fun w e => step props e w) es (step props e w)))
              <= resets (w_calls w) + completions (w_lifecycle w) (signal props es (step props e w))
              /\ (resetAfterSubmit props = false ->
                  resets (w_calls (fold_left (fun w e => step props e w) es
                                             (step props e w)))
                  = resets (w_calls w))).
    { intros Hnot. destruct (other_events_keep_watcher e w Hnot) as [Hc Hl].
      rewrite Hc, Hl in IHle. split; [exact IHle|].
      intros Hoff. now rewrite (IHeq Hoff). }
    destruct e; try (apply Hother; discriminate).
    now apply (Hrender form).
Qed.

(** C7.  Over any sequence of renders the completion callback is invoked
    as many times as [isSubmitting] goes from true to false, once for each
    such transition; renders made while still submitting invoke nothing.
    In a render, the state of the watcher advances with [isSubmitting],
    and [form.reset()] is called exactly when the callback is invoked,
    [resetAfterSubmit] is set and there is no error response for this
    form.  Over a whole run the form is therefore reset at most once for
    each transition, and never when [resetAfterSubmit] is off. *)
Theorem completion_fires_on_falling_edge
    (renders : list bool) (n : nat) (form : FormElement) (es : list Event) w :
  completions Idle renders = falling_edges false renders
  /\ completions Idle (repeat true (S n) ++ [false]) = 1
  /\ w_lifecycle (ValidatedForm props form w)
     = fst (useSubmitComplete (w_lifecycle w) (isSubmittingOf props w))
  /\ resets (w_calls (ValidatedForm props form w))
     = resets (w_calls w)
       + (if snd (useSubmitComplete (w_lifecycle w) (isSubmittingOf props w))
             && resetAfterSubmit props
             && match backendErrorOf props w with
                | Some _ => false
                | None => true
                end
          then 1 else 0)
  /\ resets (w_calls (run props es w))
     <= resets (w_calls w)
        + (if resetAfterSubmit props
           then falling_edges (is_submitting (w_lifecycle w)) (signal props es w)
           else 0).
Proof.
  split; [apply (completions_falling_edges Idle) | split].
  { cbn [repeat app completions useSubmitComplete fst snd].
    now rewrite completions_while_submitting. }
  destruct (render_advances_watcher form w) as [Hl Hc].
  split; [exact Hl | split; [exact Hc|]].
  destruct (resets_bounded_by_completions es w) as [Hle Hoff].
  destruct (resetAfterSubmit props).
  - now rewrite <- completions_falling_edges.
  - rewrite (Hoff eq_refl). lia.
Qed.

End Completion.

(** ** The theorems at the fixture *)

Module Witness.

Lemma submit_failure :
  validate (validator Fixture.props)
           (getDataFromForm (currentTarget (Fixture.submitOf Fixture.doeOnly)))
    = Invalid Fixture.firstNameRequired (form_entries Fixture.doeOnly)
  /\ defaultPrevented
       (fst (Form_onSubmit Fixture.props (Fixture.submitOf Fixture.doeOnly)
                           (Fixture.mounted Fixture.doeOnly))) = true
  /\ fieldErrorsOf
       (snd (Form_onSubmit Fixture.props (Fixture.submitOf Fixture.doeOnly)
                           (Fixture.mounted Fixture.doeOnly)))
     = Fixture.firstNameRequired.
Proof.
  split; [reflexivity|].
  destruct (submit_failure_replaces_errors Fixture.props
              (Fixture.submitOf Fixture.doeOnly) (Fixture.mounted Fixture.doeOnly)
              Fixture.firstNameRequired (form_entries Fixture.doeOnly) eq_refl)
    as (Hp & _ & He & _).
  exact (conj Hp He).
Defined.

Lemma submit_success :
  validate (validator Fixture.props)
           (getDataFromForm (currentTarget (Fixture.submitOf Fixture.janeDoe)))
    = Valid ("Jane", "Doe")
  /\ w_calls (snd (Form_onSubmit Fixture.props (Fixture.submitOf Fixture.janeDoe)
                                 (Fixture.mounted Fixture.janeDoe)))
     = [CallOnSubmit ("Jane", "Doe")]
  /\ fst (Form_onSubmit Fixture.props (Fixture.submitOf Fixture.janeDoe)
                        (Fixture.mounted Fixture.janeDoe))
     = Fixture.submitOf Fixture.janeDoe.
Proof.
  split; [reflexivity|].
  destruct (submit_success_hands_data_over Fixture.props
              (Fixture.submitOf Fixture.janeDoe) (Fixture.mounted Fixture.janeDoe)
              ("Jane", "Doe") eq_refl)
    as (Hc & He & _).
  exact (conj Hc He).
Defined.

Lemma response_matched :
  r_fetcher (w_router (Fixture.mounted Fixture.janeDoe)) = None
  /\ pl_fieldErrors Fixture.dontSayThat = Some [("testinput", "Don't say that")]
  /\ fieldErrorsOf (respond_and_render Fixture.props Fixture.dontSayThat Fixture.janeDoe
                                       (Fixture.mounted Fixture.janeDoe))
     = [("testinput", "Don't say that")].
Proof.
  split; [reflexivity | split; [reflexivity|]].
  destruct (response_matched_by_subaction Fixture.props "/validation" []
              [Rendered Fixture.janeDoe] Fixture.dontSayThat
              [("testinput", "Don't say that")] Fixture.janeDoe
              eq_refl eq_refl)
    as (_ & Hseed & _).
  exact (proj2 Hseed).
Defined.

Lemma focus_on_visible :
  selects_invalid_inputs Fixture.hiddenThenVisible
    [("a", "A is required"); ("b", "B is required")]
  /\ exists e, In e (form_elements Fixture.hiddenThenVisible) /\ el_name e = "b"
               /\ focusFirstInvalidInput (D := unit)
                    [("a", "A is required"); ("b", "B is required")]
                    MultiValueMap.empty (Some Fixture.hiddenThenVisible)
                  = Returns [CallFocus (el_id e)].
Proof.
  assert (Hdom : selects_invalid_inputs Fixture.hiddenThenVisible
                   [("a", "A is required"); ("b", "B is required")])
    by (vm_compute; reflexivity).
  split; [exact Hdom|].
  destruct (focus_follows_document_order (D := unit)
              [("a", "A is required"); ("b", "B is required")]
              MultiValueMap.empty Fixture.hiddenThenVisible Hdom)
    as (_ & _ & Hb).
  apply Hb; [reflexivity | reflexivity | reflexivity | |].
  - intros e [<- | [<- | []]]; [reflexivity | discriminate].
  - exists (Fixture.input 1 "b" "text").
    repeat split; [right; left; reflexivity | discriminate].
Defined.

Lemma validateField_silent :
  w_formRef (Fixture.mounted Fixture.janeDoe) = Some Fixture.janeDoe
  /\ Js.inherited "firstName" = false
  /\ newEntry (validateField Fixture.nameValidator
                 (getDataFromForm Fixture.janeDoe) "firstName")
     = Js.get (fieldErrorsOf (Fixture.mounted Fixture.janeDoe)) "firstName"
  /\ FormContext.validateField Fixture.nameValidator "firstName"
       (Fixture.mounted Fixture.janeDoe)
     = Fixture.mounted Fixture.janeDoe.
Proof.
  split; [reflexivity | split; [reflexivity | split; [reflexivity|]]].
  exact (proj1 (validateField_unchanged_is_silent Fixture.nameValidator
                  "firstName" Fixture.janeDoe (Fixture.mounted Fixture.janeDoe)
                  eq_refl (or_intror eq_refl)) eq_refl).
Defined.

Lemma reset_clears :
  reset_cancelled Fixture.props (Fixture.submitOf Fixture.doeOnly) = false
  /\ fieldErrorsOf
       (snd (Form_onReset Fixture.props (Fixture.submitOf Fixture.doeOnly)
               (run Fixture.props [SubmitFired] (Fixture.mounted Fixture.doeOnly))))
     = [].
Proof.
  split; [reflexivity|].
  exact (proj1 (proj1 (reset_clears_unless_cancelled Fixture.props
                         (Fixture.submitOf Fixture.doeOnly)
                         (run Fixture.props [SubmitFired]
                              (Fixture.mounted Fixture.doeOnly)))
                      eq_refl)).
Defined.

Lemma isValid_after_failed_submit :
  exposed (run Fixture.props Fixture.failedSubmit (boot Fixture.props "/validation" []))
    = Some Fixture.invalidContext
  /\ (cv_isValid Fixture.invalidContext = true
      <-> deref (w_errors (run Fixture.props Fixture.failedSubmit
                               (boot Fixture.props "/validation" [])))
                (cv_fieldErrors Fixture.invalidContext) = []).
Proof.
  assert (He : exposed (run Fixture.props Fixture.failedSubmit
                            (boot Fixture.props "/validation" []))
               = Some Fixture.invalidContext) by (vm_compute; reflexivity).
  split; [exact He|].
  exact (proj1 (isValid_iff_no_errors Fixture.props "/validation" []
                  Fixture.failedSubmit Fixture.doeOnly)
               Fixture.invalidContext He).
Defined.

Lemma fetcher_bypass :
  r_fetcher (w_router (run Fixture.props Fixture.withFetcher
                           (boot Fixture.props "/validation" [])))
    = Some {| fetcher_state := FetcherIdle; fetcher_data := None |}
  /\ pl_fieldErrors Fixture.taggedElsewhere = Some [("testinput", "Don't say that")]
  /\ fieldErrorsOf
       (fetch_and_render Fixture.props Fixture.taggedElsewhere Fixture.janeDoe
          (run Fixture.props Fixture.withFetcher (boot Fixture.props "/validation" [])))
     = [("testinput", "Don't say that")].
Proof.
  assert (Hf : r_fetcher (w_router (run Fixture.props Fixture.withFetcher
                                        (boot Fixture.props "/validation" [])))
               = Some {| fetcher_state := FetcherIdle; fetcher_data := None |})
    by (vm_compute; reflexivity).
  split; [exact Hf | split; [reflexivity|]].
  destruct (fetcher_bypasses_matching Fixture.props "/validation" []
              Fixture.withFetcher _ Fixture.taggedElsewhere
              [("testinput", "Don't say that")] Fixture.janeDoe Hf eq_refl)
    as (_ & _ & Hseed & _).
  exact (proj2 Hseed).
Defined.

End Witness.

(** * Further properties *)

(** ** Two forms on one page *)

Lemma meant_for_exclusive (s1 s2 tag : option string) :
  Js.truthy s1 = true -> s1 <> s2 ->
  meant_for s1 tag && meant_for s2 tag = false.
Proof.
  intros Ht Hne. unfold meant_for. rewrite Ht.
  destruct (Js.strict_eq tag s1) eqn:E1; [|reflexivity].
  apply strict_eq_true in E1. subst tag. simpl.
  destruct (Js.truthy s2) eqn:E2.
  - destruct (Js.strict_eq s1 s2) eqn:E; [|reflexivity].
    apply strict_eq_true in E. contradiction.
  - now rewrite Ht.
Qed.

Lemma strict_eq_sym (a b : option string) : Js.strict_eq a b = Js.strict_eq b a.
Proof. destruct a, b; simpl; auto using String.eqb_sym. Qed.

Lemma useIsSubmitting_rule (location : string) (pending : Submission)
    (action subaction : option string) :
  useIsSubmitting location (Some pending) action subaction None
  = (default location action =? sub_action pending)
    && meant_for subaction (FormData_get (sub_formData pending) "subaction").
Proof.
  unfold useIsSubmitting, meant_for.
  destruct (Js.truthy subaction); [|reflexivity].
  now rewrite strict_eq_sym.
Qed.

(** X1.  Of two forms whose subactions differ, the first declaring one, at
    most one is submitting for a given pending submission, whatever their
    actions, and at most one takes a given action response as its error
    response. *)
Theorem distinct_subactions_never_share
    (location : string) (pending : option Submission)
    (actionData : option ActionData)
    (action1 action2 subaction1 subaction2 : option string) :
  Js.truthy subaction1 = true ->
  subaction1 <> subaction2 ->
  useIsSubmitting location pending action1 subaction1 None
  && useIsSubmitting location pending action2 subaction2 None = false
  /\ (useErrorResponseForThisForm actionData None subaction1 = None
      \/ useErrorResponseForThisForm actionData None subaction2 = None).
Proof.
  intros Ht Hne. split.
  - destruct pending as [p|]; [|reflexivity].
    rewrite !useIsSubmitting_rule.
    pose proof (meant_for_exclusive subaction1 subaction2
                  (FormData_get (sub_formData p) "subaction") Ht Hne) as Hx.
    destruct (meant_for subaction1 _); [|now rewrite andb_false_r].
    simpl in Hx. rewrite Hx. now rewrite !andb_false_r.
  - destruct actionData as [ad|]; [|now left].
    destruct (ad_fieldErrors ad) as [r|] eqn:Er.
    + rewrite !(matching_rule ad _ r Er).
      pose proof (meant_for_exclusive subaction1 subaction2 (ad_subaction ad)
                    Ht Hne) as Hx.
      destruct (meant_for subaction1 _); [|now left].
      simpl in Hx. rewrite Hx. now right.
    + left. unfold useErrorResponseForThisForm. now rewrite Er.
Qed.

(** ** The hidden subaction field *)

Lemma get_subactionEntries (subaction : option string) (children : FormData) :
  FormData_get (subactionEntries subaction ++ children) "subaction"
  = if Js.truthy subaction then subaction
    else FormData_get children "subaction".
Proof.
  unfold subactionEntries, FormData_get.
  destruct subaction as [s|]; simpl; [|reflexivity].
  destruct (Js.truthy_string s); reflexivity.
Qed.

(** X2.  The hidden field the form renders marks its own submissions: a
    pending submission made of the entries of the rendered form and sent
    to the action the form expects makes this form submitting, provided
    the form declares a subaction or its children contribute no truthy
    field named [subaction]; and the subaction read back from the entries
    is the declared one, even when a child also contributes a field of
    that name. *)
Theorem own_submission_is_submitting {D : Type}
    (props : FormProps D) (location : string) (children : FormData)
    (pending : Submission) :
  sub_formData pending = renderedEntries props children ->
  sub_action pending = default location (action props) ->
  (Js.truthy (subaction props) = true ->
   FormData_get (sub_formData pending) "subaction" = subaction props)
  /\ (Js.truthy (subaction props) = true
      \/ Js.truthy (FormData_get children "subaction") = false ->
      useIsSubmitting location (Some pending) (action props) (subaction props)
                      None = true).
Proof.
  intros Hdata Haction.
  assert (Hget : FormData_get (sub_formData pending) "subaction"
                 = if Js.truthy (subaction props) then subaction props
                   else FormData_get children "subaction").
  { rewrite Hdata. apply get_subactionEntries. }
  split.
  - intros Ht. now rewrite Hget, Ht.
  - intros Hor. rewrite useIsSubmitting_rule, Haction, String.eqb_refl, Hget.
    unfold meant_for. simpl.
    destruct (Js.truthy (subaction props)) eqn:Et.
    + apply strict_eq_refl.
    + destruct Hor as [Hf | Hc]; [discriminate | now rewrite Hc].
Qed.

(** ** The context value of a render *)

Lemma same_opaque_true (a b : option Opaque) : same_opaque a b = true -> a = b.
Proof.
  destruct a, b; simpl; try discriminate; [|reflexivity].
  intros H. apply Nat.eqb_eq in H. now subst.
Qed.

Lemma same_deps_true (a b : Deps) : same_deps a b = true -> a = b.
Proof.
  unfold same_deps. intros H.
  repeat (apply andb_prop in H as [H ?]).
  apply Nat.eqb_eq in H.
  repeat match goal with
         | H : Object_is _ _ = true |- _ => apply Nat.eqb_eq in H
         | H : Js.strict_eq _ _ = true |- _ => apply strict_eq_true in H
         | H : same_opaque _ _ = true |- _ => apply same_opaque_true in H
         | H : Bool.eqb _ _ = true |- _ => apply Bool.eqb_prop in H
         end.
  destruct a, b; simpl in *. congruence.
Qed.

Section ContextValue.
Context {D : Type}.
Variable props : FormProps D.
Implicit Types w : World D.

Lemma memo_render form w :
  w_memo (ValidatedForm props form w)
  = Some (useMemo (w_memo w)
            (fun _ => contextValue (w_errors w) (renderDeps props w))
            (renderDeps props w)).
Proof.
  unfold ValidatedForm, renderDeps.
  destruct (useSubmitComplete _ _) as [lifecycle completed].
  assert (Heff : forall fe w', w_memo (useFieldErrors_effect fe w') = w_memo w').
  { intros fe w'. unfold useFieldErrors_effect.
    destruct (same_backendDep _ _); [reflexivity|].
    destruct fe; [now rewrite memo_setFieldErrors | reflexivity]. }
  destruct completed; [|simpl; now rewrite Heff].
  unfold onSubmitComplete. destruct (backendErrorOf props w);
    [simpl; now rewrite Heff|].
  destruct (resetAfterSubmit props); [|simpl; now rewrite Heff].
  simpl. destruct (w_formRef _); [|simpl; now rewrite Heff].
  rewrite memo_Form_onReset. simpl. now rewrite Heff.
Qed.

Lemma memo_other_events e w :
  (forall form, e <> Rendered form) -> w_memo (step props e w) = w_memo w.
Proof.
  intros Hnot. destruct e; cbn [step].
  - unfold routed. now destruct (route _ _ _).
  - now destruct (Hnot form).
  - now destruct (w_formRef w).
  - destruct (w_formRef w); [|reflexivity]. unfold Form_onSubmit.
    destruct (validate _ _).
    + now destruct (onSubmit props).
    + destruct (negb _); [|reflexivity].
      now destruct (focusFirstInvalidInput _ _ _).
  - destruct (w_formRef w); [apply memo_Form_onReset | reflexivity].
  - apply memo_setTouchedFields.
  - apply memo_setFieldErrors.
  - unfold FormContext.validateField. destruct (w_formRef w); [|reflexivity].
    destruct (Js.truthy _); apply memo_setFieldErrors.
  - reflexivity.
  - reflexivity.
Qed.

Lemma memo_mirrors_step e w :
  memo_mirrors (w_memo w) -> memo_mirrors (w_memo (step props e w)).
Proof.
  intros Hm.
  assert (Hother : (forall form, e <> Rendered form) ->
                   memo_mirrors (w_memo (step props e w)))
    by (intros Hnot; now rewrite memo_other_events).
  destruct e; try (apply Hother; discriminate).
  cbn [step]. rewrite memo_render. unfold useMemo.
  assert (Hnew : memo_mirrors
                   (Some (renderDeps props w,
                          contextValue (w_errors w) (renderDeps props w))))
    by (intros deps cv [= <- <-]; simpl; auto).
  destruct (w_memo w) as [[old value]|] eqn:Em; [|exact Hnew].
  destruct (same_deps old (renderDeps props w)); [|exact Hnew].
  intros deps cv [= <- <-]. now apply Hm.
Qed.

Lemma memo_mirrors_run es w :
  memo_mirrors (w_memo w) -> memo_mirrors (w_memo (run props es w)).
Proof.
  unfold run. revert w. induction es as [|e es IH]; simpl; intros w Hm.
  - exact Hm.
  - now apply IH, memo_mirrors_step.
Qed.

(** X3.  The memoised context value is never stale: whatever happened
    since the form was mounted, the value a render exposes carries the
    action prop, the touched fields, [hasBeenSubmitted] and [isSubmitting]
    of that render, and as default values the [repopulateFields] of the
    error response of this form when there is one with that member, the
    [defaultValues] prop otherwise. *)
Theorem render_exposes_current_state
    (location : string) (pre : list RouterEvent) (es : list Event)
    (form : FormElement) :
  let w := run props es (boot props location pre) in
  exists cv,
    exposed (ValidatedForm props form w) = Some cv
    /\ cv_action cv = action props
    /\ cv_touchedFields cv = w_touchedFields w
    /\ cv_hasBeenSubmitted cv = w_hasBeenSubmitted w
    /\ cv_isSubmitting cv = isSubmittingOf props w
    /\ cv_defaultValues cv
       = match backendErrorOf props w ≫= ad_repopulateFields with
         | Some repopulateFields => Some repopulateFields
         | None => defaultValues props
         end.
Proof.
  intros w.
  assert (Hm : memo_mirrors (w_memo w)).
  { apply memo_mirrors_run. intros deps cv. unfold boot, mount.
    destruct (useFieldErrors_initial _ _). simpl. discriminate. }
  unfold exposed. rewrite memo_render. unfold useMemo.
  assert (Hd : dep_defaultsToUse (renderDeps props w)
               = match backendErrorOf props w ≫= ad_repopulateFields with
                 | Some repopulateFields => Some repopulateFields
                 | None => defaultValues props
                 end).
  { simpl. unfold useDefaultValues, Js.nullish.
    now destruct (backendErrorOf props w ≫= ad_repopulateFields). }
  assert (Hnew : exists cv,
             Some (contextValue (w_errors w) (renderDeps props w)) = Some cv
             /\ cv_action cv = action props
             /\ cv_touchedFields cv = w_touchedFields w
             /\ cv_hasBeenSubmitted cv = w_hasBeenSubmitted w
             /\ cv_isSubmitting cv = isSubmittingOf props w
             /\ cv_defaultValues cv
                = match backendErrorOf props w ≫= ad_repopulateFields with
                  | Some repopulateFields => Some repopulateFields
                  | None => defaultValues props
                  end).
  { eexists. split; [reflexivity|]. rewrite <- Hd. simpl. auto. }
  destruct (w_memo w) as [[old value]|] eqn:Em; [|exact Hnew].
  destruct (same_deps old (renderDeps props w)) eqn:Es; [|exact Hnew].
  apply same_deps_true in Es.
  destruct (Hm old value eq_refl) as (H1 & H2 & H3 & H4 & H5).
  exists value. simpl. rewrite <- Hd, H1, H2, H3, H4, H5, Es. simpl. auto 10.
Qed.

End ContextValue.

(** ** The shape of a render *)

Section Frames.
Context {D : Type}.
Variable props : FormProps D.
Implicit Types w : World D.

Lemma frame_setFieldErrors updater w :
  w_touched (setFieldErrors updater w) = w_touched w
  /\ w_touchedFields (setFieldErrors updater w) = w_touchedFields w
  /\ w_hasBeenSubmitted (setFieldErrors updater w) = w_hasBeenSubmitted w
  /\ w_router (setFieldErrors updater w) = w_router w
  /\ w_backendDep (setFieldErrors updater w) = w_backendDep w
  /\ w_lifecycle (setFieldErrors updater w) = w_lifecycle w
  /\ w_formRef (setFieldErrors updater w) = w_formRef w
  /\ w_calls (setFieldErrors updater w) = w_calls w
  /\ w_customFocusHandlers (setFieldErrors updater w) = w_customFocusHandlers w.
Proof. unfold setFieldErrors. destruct (updater _ _). simpl. auto 10. Qed.

Lemma frame_useFieldErrors_effect fe w :
  w_touched (useFieldErrors_effect fe w) = w_touched w
  /\ w_touchedFields (useFieldErrors_effect fe w) = w_touchedFields w
  /\ w_hasBeenSubmitted (useFieldErrors_effect fe w) = w_hasBeenSubmitted w
  /\ w_router (useFieldErrors_effect fe w) = w_router w
  /\ w_lifecycle (useFieldErrors_effect fe w) = w_lifecycle w
  /\ w_formRef (useFieldErrors_effect fe w) = w_formRef w
  /\ w_calls (useFieldErrors_effect fe w) = w_calls w
  /\ w_customFocusHandlers (useFieldErrors_effect fe w) = w_customFocusHandlers w.
Proof.
  unfold useFieldErrors_effect. destruct (same_backendDep _ _); [auto 10|].
  destruct fe as [r|]; [|simpl; auto 10].
  destruct (frame_setFieldErrors (fun h _ => (h, r)) (with_backendDep (Some (Some r)) w))
    as (-> & -> & -> & -> & _ & -> & -> & -> & ->).
  simpl. auto 10.
Qed.

Lemma render_shape form w :
  ValidatedForm props form w
  = if resets_now props w
    then snd (Form_onReset props
                {| currentTarget := form; defaultPrevented := false |}
                (call [CallFormReset] (committed props form w)))
    else committed props form w.
Proof.
  unfold ValidatedForm, resets_now, committed.
  fold (renderDeps props w).
  set (w1 := with_formRef _ _).
  destruct (frame_useFieldErrors_effect (backendErrorOf props w ≫= ad_fieldErrors) w1)
    as (_ & _ & _ & _ & Hl & Hr & _).
  replace (w_lifecycle (useFieldErrors_effect _ w1)) with (w_lifecycle w)
    by (now rewrite Hl).
  destruct (useSubmitComplete (w_lifecycle w) (isSubmittingOf props w))
    as [lifecycle completed].
  cbn [fst snd]. destruct completed; cbn [andb]; [|reflexivity].
  unfold onSubmitComplete. destruct (backendErrorOf props w);
    [now rewrite andb_false_r|].
  destruct (resetAfterSubmit props); cbn [andb]; [|reflexivity].
  cbn [w_formRef with_lifecycle with_hooks]. rewrite Hr. reflexivity.
Qed.

Lemma frame_committed form w :
  w_touched (committed props form w) = w_touched w
  /\ w_touchedFields (committed props form w) = w_touchedFields w
  /\ w_hasBeenSubmitted (committed props form w) = w_hasBeenSubmitted w
  /\ w_router (committed props form w) = w_router w
  /\ w_formRef (committed props form w) = Some form
  /\ w_calls (committed props form w) = w_calls w
  /\ w_customFocusHandlers (committed props form w) = w_customFocusHandlers w
  /\ w_lifecycle (committed props form w)
     = fst (useSubmitComplete (w_lifecycle w) (isSubmittingOf props w)).
Proof.
  unfold committed.
  set (w1 := with_formRef _ _).
  destruct (frame_useFieldErrors_effect (backendErrorOf props w ≫= ad_fieldErrors) w1)
    as (H1 & H2 & H3 & H4 & _ & H6 & H7 & H8).
  cbn [with_lifecycle with_hooks w_touched w_touchedFields w_hasBeenSubmitted
       w_router w_formRef w_calls w_customFocusHandlers w_lifecycle].
  rewrite H1, H2, H3, H4, H6, H7, H8. subst w1. simpl. auto 10.
Qed.

End Frames.

(** ** Touched fields and what only a reset forgets *)

Section MoreObjectFacts.
Context {V : Type}.
Implicit Types o : Js.Obj V.

Lemma get_set_other o key other v :
  other <> key -> Js.get (Js.set o key v) other = Js.get o other.
Proof.
  intros Hne. induction o as [|[k w] rest IH]; simpl.
  - destruct (String.eqb_spec key other); [congruence | reflexivity].
  - destruct (String.eqb_spec k key) as [->|Hk]; simpl.
    + destruct (String.eqb_spec key other); [congruence | reflexivity].
    + destruct (k =? other); [reflexivity | exact IH].
Qed.

Lemma get_remove_other o key other :
  other <> key -> Js.get (Js.remove o key) other = Js.get o other.
Proof.
  intros Hne. induction o as [|[k w] rest IH]; simpl; [reflexivity|].
  destruct (String.eqb_spec k key) as [->|Hk]; simpl.
  - destruct (String.eqb_spec key other); [congruence | exact IH].
  - destruct (k =? other); [reflexivity | exact IH].
Qed.

Lemma has_set_mono o key v k :
  Js.has o k = true -> Js.has (Js.set o key v) k = true.
Proof.
  unfold Js.has. destruct (String.eqb_spec k key) as [->|Hne].
  - now rewrite get_set_same.
  - now rewrite get_set_other.
Qed.

End MoreObjectFacts.

Section Touched.
Context {D : Type}.
Variable props : FormProps D.
Implicit Types w : World D.

Lemma frame_Form_onSubmit event w :
  w_touched (snd (Form_onSubmit props event w)) = w_touched w
  /\ w_touchedFields (snd (Form_onSubmit props event w)) = w_touchedFields w
  /\ w_hasBeenSubmitted (snd (Form_onSubmit props event w)) = true
  /\ w_router (snd (Form_onSubmit props event w)) = w_router w
  /\ w_backendDep (snd (Form_onSubmit props event w)) = w_backendDep w
  /\ w_lifecycle (snd (Form_onSubmit props event w)) = w_lifecycle w
  /\ w_formRef (snd (Form_onSubmit props event w)) = w_formRef w.
Proof.
  unfold Form_onSubmit. destruct (validate _ _).
  - destruct (onSubmit props); simpl; auto 10.
  - destruct (negb _); [|simpl; auto 10].
    destruct (focusFirstInvalidInput _ _ _); simpl; auto 10.
Qed.

Lemma frame_Form_onReset event w :
  w_router (snd (Form_onReset props event w)) = w_router w
  /\ w_backendDep (snd (Form_onReset props event w)) = w_backendDep w
  /\ w_lifecycle (snd (Form_onReset props event w)) = w_lifecycle w
  /\ w_formRef (snd (Form_onReset props event w)) = w_formRef w
  /\ (touched_ok w -> touched_ok (snd (Form_onReset props event w))).
Proof.
  unfold Form_onReset, touched_ok. destruct (onReset props) as [handler|].
  - destruct (defaultPrevented (if handler event then _ else _)); simpl;
      repeat split; auto; intros; rewrite length_app; simpl; lia.
  - destruct (defaultPrevented event); simpl;
      repeat split; auto; intros; rewrite length_app; simpl; lia.
Qed.

Lemma frame_validateField validator fieldName w :
  w_touched (FormContext.validateField validator fieldName w) = w_touched w
  /\ w_touchedFields (FormContext.validateField validator fieldName w)
     = w_touchedFields w
  /\ w_hasBeenSubmitted (FormContext.validateField validator fieldName w)
     = w_hasBeenSubmitted w
  /\ w_router (FormContext.validateField validator fieldName w) = w_router w
  /\ w_backendDep (FormContext.validateField validator fieldName w)
     = w_backendDep w
  /\ w_lifecycle (FormContext.validateField validator fieldName w)
     = w_lifecycle w
  /\ w_formRef (FormContext.validateField validator fieldName w) = w_formRef w.
Proof.
  unfold FormContext.validateField. destruct (w_formRef w) eqn:Ef.
  - destruct (Js.truthy _);
      match goal with
      | |- context [setFieldErrors ?u w] =>
          destruct (frame_setFieldErrors u w)
            as (-> & -> & -> & -> & -> & -> & -> & _)
      end; auto 10.
  - simpl. auto 10.
Qed.

Lemma touched_ok_step e w : touched_ok w -> touched_ok (step props e w).
Proof.
  intros Hok. destruct e; cbn [step].
  - unfold routed. now destruct (route _ _ _).
  - rewrite render_shape.
    assert (Hc : touched_ok (committed props form w)).
    { unfold touched_ok.
      destruct (frame_committed props form w) as (-> & -> & _). exact Hok. }
    destruct (resets_now props w); [|exact Hc].
    now apply frame_Form_onReset.
  - now destruct (w_formRef w).
  - destruct (w_formRef w); [|exact Hok]. unfold touched_ok.
    destruct (frame_Form_onSubmit
                {| currentTarget := f; defaultPrevented := false |} w)
      as (-> & -> & _). exact Hok.
  - destruct (w_formRef w); [now apply frame_Form_onReset | exact Hok].
  - unfold touched_ok, FormContext.setFieldTouched, setTouchedFields. simpl.
    rewrite length_app. simpl. lia.
  - unfold touched_ok, FormContext.clearError.
    destruct (frame_setFieldErrors (fun h prev => omit h prev [fieldName]) w)
      as (-> & -> & _). exact Hok.
  - unfold touched_ok.
    destruct (frame_validateField (validator props) fieldName w)
      as (-> & -> & _). exact Hok.
  - exact Hok.
  - exact Hok.
Qed.

Lemma touched_ok_reachable location pre es :
  touched_ok (run props es (boot props location pre)).
Proof.
  assert (H0 : touched_ok (boot props location pre)).
  { unfold touched_ok, boot, mount. destruct (useFieldErrors_initial _ _).
    simpl. lia. }
  unfold run. revert H0. generalize (boot props location pre).
  induction es as [|e es IH]; simpl; intros w Hw; [exact Hw|].
  now apply IH, touched_ok_step.
Qed.

(** X4.  [setFieldTouched] merges on write: afterwards the field has the
    flag given, every other field has the flag it had, and the Field Error
    Store is as it was.  It always builds a new object: on a mounted form
    every call notifies a state change, also when the flag is the one the
    field already had. *)
Theorem setFieldTouched_merges
    (location : string) (pre : list RouterEvent) (es : list Event)
    (fieldName : string) (touched : bool) :
  let w := run props es (boot props location pre) in
  let w' := FormContext.setFieldTouched fieldName touched w in
  Js.get (touchedFieldsOf w') fieldName = Some touched
  /\ (forall other, other <> fieldName ->
        Js.get (touchedFieldsOf w') other = Js.get (touchedFieldsOf w) other)
  /\ w_updates w' = S (w_updates w)
  /\ w_fieldErrors w' = w_fieldErrors w
  /\ w_errors w' = w_errors w.
Proof.
  intros w w'.
  assert (Hok : touched_ok w) by apply touched_ok_reachable.
  assert (Hnew : touchedFieldsOf w' = Js.set (touchedFieldsOf w) fieldName touched).
  { unfold touchedFieldsOf, w', FormContext.setFieldTouched, setTouchedFields.
    simpl. apply (deref_alloc (w_touched w)). }
  rewrite Hnew. split; [apply get_set_same | split].
  - intros other Hne. now apply get_set_other.
  - unfold w', FormContext.setFieldTouched, setTouchedFields, touched_ok in *.
    simpl. unfold Object_is.
    assert (Hne : length (w_touched w) <> w_touchedFields w) by lia.
    rewrite (proj2 (Nat.eqb_neq _ _) Hne). auto.
Qed.

(** X10.  Only a reset forgets: an event that is not a reset event and
    during which [form.reset()] is not called leaves [hasBeenSubmitted]
    true when it was true, and leaves touched every field that had an
    entry in the Touched Field Store. *)
Theorem only_reset_forgets (e : Event) w (fieldName : string) :
  e <> ResetFired ->
  resets (w_calls (step props e w)) = resets (w_calls w) ->
  (w_hasBeenSubmitted w = true -> w_hasBeenSubmitted (step props e w) = true)
  /\ (Js.has (touchedFieldsOf w) fieldName = true ->
      Js.has (touchedFieldsOf (step props e w)) fieldName = true).
Proof.
  intros Hnot Hresets. unfold touchedFieldsOf. destruct e; cbn [step] in *.
  - unfold routed. destruct (route _ _ _). simpl. auto.
  - destruct (render_advances_watcher props form w) as [_ Hc].
    rewrite Hc in Hresets. fold (resets_now props w) in Hresets.
    rewrite render_shape.
    destruct (resets_now props w); [lia|].
    destruct (frame_committed props form w) as (-> & -> & -> & _). auto.
  - destruct (w_formRef w); simpl; auto.
  - destruct (w_formRef w); [|auto].
    destruct (frame_Form_onSubmit
                {| currentTarget := f; defaultPrevented := false |} w)
      as (-> & -> & -> & _). auto.
  - now destruct Hnot.
  - split; [auto|]. intros Hhas.
    change (Js.has (touchedFieldsOf
                      (FormContext.setFieldTouched fieldName0 touched w))
                   fieldName = true).
    assert (Hnew : touchedFieldsOf (FormContext.setFieldTouched fieldName0 touched w)
                   = Js.set (touchedFieldsOf w) fieldName0 touched).
    { unfold touchedFieldsOf, FormContext.setFieldTouched, setTouchedFields.
      simpl. apply (deref_alloc (w_touched w)). }
    rewrite Hnew. now apply has_set_mono.
  - unfold FormContext.clearError.
    destruct (frame_setFieldErrors (fun h prev => omit h prev [fieldName0]) w)
      as (-> & -> & -> & _). auto.
  - destruct (frame_validateField (validator props) fieldName0 w)
      as (-> & -> & -> & _). auto.
  - auto.
  - auto.
Qed.

End Touched.

(** ** Validation of one field *)

Section OneField.
Context {D : Type}.
Variable props : FormProps D.
Implicit Types w : World D.

(** X5.  [validateField] updates the Field Error Store for exactly the
    field it is given: afterwards that field has the error the validator
    reports for it (no entry when it reports none) and every other field
    has the entry it had; the Touched Field Store and [hasBeenSubmitted]
    are not touched. *)
Theorem validateField_updates_one_field
    (validator : Validator D) (fieldName : string) (form : FormElement) w :
  w_formRef w = Some form ->
  let w' := FormContext.validateField validator fieldName w in
  Js.get (fieldErrorsOf w') fieldName
    = newEntry (validateField validator (getDataFromForm form) fieldName)
  /\ (forall other, other <> fieldName ->
        Js.get (fieldErrorsOf w') other = Js.get (fieldErrorsOf w) other)
  /\ w_touchedFields w' = w_touchedFields w
  /\ w_touched w' = w_touched w
  /\ w_hasBeenSubmitted w' = w_hasBeenSubmitted w.
Proof.
  intros Hform w'. subst w'.
  destruct (frame_validateField validator fieldName w) as (Ht & Htf & Hs & _).
  split; [|split; [|now rewrite Ht, Htf, Hs]].
  - symmetry. exact (proj2 (validateField_settles validator fieldName form w Hform)).
  - intros other Hne.
    destruct (validateField_outcome validator fieldName form w Hform)
      as [[_ Hsame] | (_ & _ & _ & _ & Hnew)].
    + now rewrite Hsame.
    + rewrite Hnew. destruct (newEntry _);
        [now apply get_set_other | now apply get_remove_other].
Qed.

(** X6.  On a mounted form [validateField] notifies no state change
    exactly when it hands the store back, that is when the non-empty error
    of the validator is the entry of the field, or when there is no error
    and the name is not [in] the store; otherwise the store is a new object
    and exactly one update is notified.  When the error is not empty or
    the name is none that objects inherit from [Object.prototype], this
    is to say that a change is notified exactly when the entry of the
    field changes.  The reference of the store changes exactly when an
    update is notified. *)
Theorem validateField_notifies_iff_changed
    (location : string) (pre : list RouterEvent) (es : list Event)
    (fieldName : string) (form : FormElement) :
  let w := run props es (boot props location pre) in
  let w' := FormContext.validateField (validator props) fieldName w in
  let error := validateField (validator props) (getDataFromForm form) fieldName in
  w_formRef w = Some form ->
  (w_updates w' = w_updates w
   <-> keeps_store error (fieldErrorsOf w) fieldName = true)
  /\ (Js.truthy error = true \/ Js.inherited fieldName = false ->
      (w_updates w' = w_updates w
       <-> newEntry error = Js.get (fieldErrorsOf w) fieldName))
  /\ (w_fieldErrors w' = w_fieldErrors w <-> w_updates w' = w_updates w)
  /\ (w_updates w' = w_updates w \/ w_updates w' = S (w_updates w)).
Proof.
  intros w w' error Hform.
  assert (Hw : w_fieldErrors w < length (w_errors w))
    by exact (proj1 (wf_run props es _ (wf_boot props location pre))).
  assert (Hne : Object_is (length (w_errors w)) (w_fieldErrors w) = false)
    by (apply Nat.eqb_neq; lia).
  destruct (validateField_outcome (validator props) fieldName form w Hform)
    as [[Hk Hsame] | (Hk & Hr & _ & Hu & _)]; subst w'; fold error in Hk.
  - rewrite Hsame. split; [tauto|]. split; [|split; [tauto | now left]].
    intros _. split; [|reflexivity]. intros _. now apply keeps_store_entry.
  - rewrite Hr, Hu, Hne. split; [|split; [|split; [|now right]]].
    + rewrite Hk. split; [lia | discriminate].
    + intros Hside. split; [lia|]. intros Hentry.
      now rewrite (entry_keeps_store _ _ _ Hside Hentry) in Hk.
    + split; lia.
Qed.

End OneField.

(** ** What a submit calls *)

Section SubmitCalls.
Context {D : Type}.
Variable props : FormProps D.
Implicit Types w : World D.

Lemma submitted_app (a b : list (Call D)) :
  submitted (a ++ b) = submitted a ++ submitted b.
Proof.
  induction a as [|c a IH]; [reflexivity|].
  destruct c; simpl; now rewrite IH.
Qed.

Lemma submitted_focusLoop handlers (inputs : list Element) :
  submitted (focusLoop (D := D) handlers inputs) = [].
Proof.
  induction inputs as [|input rest IH]; simpl; [reflexivity|].
  destruct (MultiValueMap.has handlers (el_name input)).
  - induction (MultiValueMap.getAll handlers (el_name input)); simpl; auto.
  - destruct (el_type input =? "hidden"); [exact IH | reflexivity].
Qed.

Lemma submitted_Form_onReset event w :
  submitted (w_calls (snd (Form_onReset props event w))) = submitted (w_calls w).
Proof.
  unfold Form_onReset. destruct (onReset props) as [handler|].
  - destruct (defaultPrevented (if handler event then _ else _)); simpl;
      rewrite submitted_app; simpl; apply app_nil_r.
  - destruct (defaultPrevented event); reflexivity.
Qed.

Lemma submitted_Form_onSubmit event w :
  submitted (w_calls (snd (Form_onSubmit props event w)))
  = submitted (w_calls w)
    ++ match onSubmit props,
             validate (validator props) (getDataFromForm (currentTarget event)) with
       | Some _, Valid data => [data]
       | _, _ => []
       end.
Proof.
  unfold Form_onSubmit.
  destruct (validate _ _) as [data | fieldErrors submittedData].
  - destruct (onSubmit props); simpl;
      [now rewrite submitted_app | now rewrite app_nil_r].
  - assert (Hnone : match onSubmit props with
                    | Some _ => @nil D
                    | None => []
                    end = []) by now destruct (onSubmit props).
    rewrite Hnone, app_nil_r.
    destruct (negb _); [|reflexivity].
    unfold focusFirstInvalidInput.
    destruct (w_formRef _) as [form|];
      [|simpl; rewrite submitted_app; simpl; apply app_nil_r].
    destruct (querySelectorAll _ _); simpl; rewrite submitted_app; simpl;
      [rewrite submitted_focusLoop|]; apply app_nil_r.
Qed.

(** X8.  The [onSubmit] callback is called by a submit event whose payload
    the validator accepts, once and with the data of the validator, and by
    nothing else: a render, a reset, a router change, a call of a context
    callback or a submit event whose payload is rejected never calls
    it. *)
Theorem onSubmit_called_only_with_valid_data (e : Event) w :
  submitted (w_calls (step props e w))
  = submitted (w_calls w) ++ handed_over props e w.
Proof.
  unfold handed_over. destruct e; cbn [step]; rewrite ?app_nil_r.
  - unfold routed. now destruct (route _ _ _).
  - rewrite render_shape.
    assert (Hc : w_calls (committed props form w) = w_calls w)
      by apply frame_committed.
    destruct (resets_now props w); [|now rewrite Hc].
    rewrite submitted_Form_onReset. unfold call. cbn [w_calls].
    rewrite submitted_app, Hc. simpl. apply app_nil_r.
  - now destruct (w_formRef w).
  - destruct (w_formRef w) as [form|]; [|now rewrite app_nil_r].
    rewrite submitted_Form_onSubmit. simpl.
    destruct (onSubmit props);
      [destruct (validate (validator props) _)|]; reflexivity.
  - destruct (w_formRef w); [apply submitted_Form_onReset | reflexivity].
  - reflexivity.
  - unfold FormContext.clearError.
    now destruct (frame_setFieldErrors (fun h prev => omit h prev [fieldName]) w)
      as (_ & _ & _ & _ & _ & _ & _ & -> & _).
  - unfold FormContext.validateField. destruct (w_formRef w).
    + destruct (Js.truthy _);
        match goal with
        | |- context [setFieldErrors ?u w] =>
            now destruct (frame_setFieldErrors u w)
              as (_ & _ & _ & _ & _ & _ & _ & -> & _)
        end.
    + simpl. rewrite submitted_app. simpl. apply app_nil_r.
  - reflexivity.
  - reflexivity.
Qed.

(** X7.  A failure that carries no field error still blocks the
    submission and empties the Field Error Store, but with the focus
    enabled the handler then throws: the selector built from the field
    names is empty and [querySelectorAll] rejects it, so nothing is
    focused and no handler is invoked. *)
Theorem failure_without_field_errors_throws
    (event : FormEvent) w (submittedData : FormData) (form : FormElement) :
  validate (validator props) (getDataFromForm (currentTarget event))
    = Invalid [] submittedData ->
  disableFocusOnError props = false ->
  w_formRef w = Some form ->
  defaultPrevented (fst (Form_onSubmit props event w)) = true
  /\ fieldErrorsOf (snd (Form_onSubmit props event w)) = []
  /\ w_hasBeenSubmitted (snd (Form_onSubmit props event w)) = true
  /\ w_calls (snd (Form_onSubmit props event w))
     = w_calls w ++ [Uncaught "SyntaxError"].
Proof.
  intros Hfail Hfocus Hform. unfold Form_onSubmit.
  rewrite Hfail, Hfocus. simpl. rewrite Hform. simpl.
  unfold fieldErrorsOf. simpl.
  repeat split. apply (deref_alloc (w_errors w) []).
Qed.

End SubmitCalls.

(** ** What the focus step may do *)

(** X9.  Let the selector built from the names of the errors select, in
    the form, the inputs bearing one of these names (it does when no name
    holds a double quote, a backslash or a line break).  When
    [focusFirstInvalidInput] returns it has done one of three things:
    nothing; focused one input of the form, which has an error, is not
    hidden and has no handler registered under its name; or invoked the
    handlers registered under the name of one input of the form that has
    an error, all of them and in order, without focusing anything.  It
    then never focuses a hidden input or one without an error. *)
Theorem focus_step_is_safe {D : Type}
    (fieldErrors : FieldErrors) (handlers : MultiValueMap.t)
    (form : FormElement) (calls : list (Call D)) :
  selects_invalid_inputs form fieldErrors ->
  focusFirstInvalidInput fieldErrors handlers (Some form) = Returns calls ->
  calls = []
  \/ (exists e, In e (form_elements form)
                /\ el_tag e = "input"
                /\ Js.has fieldErrors (el_name e) = true
                /\ MultiValueMap.has handlers (el_name e) = false
                /\ el_type e <> "hidden"
                /\ calls = [CallFocus (el_id e)])
  \/ (exists e, In e (form_elements form)
                /\ el_tag e = "input"
                /\ Js.has fieldErrors (el_name e) = true
                /\ MultiValueMap.has handlers (el_name e) = true
                /\ calls = map CallHandler
                             (MultiValueMap.getAll handlers (el_name e))).
Proof.
  intros Hdom Hret.
  rewrite (focusFirstInvalidInput_first fieldErrors handlers form Hdom) in Hret.
  destruct (Js.keys fieldErrors); [discriminate|].
  injection Hret as <-.
  destruct (find _ _) as [e|] eqn:Efind; [|now left].
  apply find_some in Efind as [Hin He].
  unfold takes_focus, invalid_input in He.
  apply andb_prop in He as [Hinv Hvis]. apply andb_prop in Hinv as [Htag Hhas].
  apply String.eqb_eq in Htag. unfold dispatch.
  destruct (MultiValueMap.has handlers (el_name e)) eqn:Eh.
  - right; right. exists e. auto 10.
  - right; left. exists e. simpl in Hvis.
    repeat split; auto. intros Hh. rewrite Hh in Hvis. discriminate.
Qed.

(** ** Renders that have nothing to do *)

Section Settled.
Context {D : Type}.
Variable props : FormProps D.
Implicit Types w : World D.

Lemma same_backendDep_true last fe :
  same_backendDep last fe = true -> last = Some fe.
Proof.
  destruct last as [[old|]|], fe as [r|]; simpl; try discriminate; auto.
  intros H. apply Nat.eqb_eq in H. now subst.
Qed.

Lemma same_backendDep_refl fe : same_backendDep (Some fe) fe = true.
Proof. destruct fe; simpl; [apply Nat.eqb_refl | reflexivity]. Qed.

Lemma backendDep_useFieldErrors_effect fe w :
  w_backendDep (useFieldErrors_effect fe w) = Some fe.
Proof.
  unfold useFieldErrors_effect.
  destruct (same_backendDep (w_backendDep w) fe) eqn:E.
  - now apply same_backendDep_true.
  - destruct fe as [r|]; [|reflexivity].
    now destruct (frame_setFieldErrors (fun h _ => (h, r))
                    (with_backendDep (Some (Some r)) w))
      as (_ & _ & _ & _ & -> & _).
Qed.

Lemma watcher_level (state : Lifecycle) (isSubmitting : bool) :
  snd (useSubmitComplete (fst (useSubmitComplete state isSubmitting))
                         isSubmitting) = false.
Proof. destruct state, isSubmitting; reflexivity. Qed.

Lemma settled_render form w : settled props (ValidatedForm props form w).
Proof.
  assert (Hc : w_router (committed props form w) = w_router w
               /\ w_backendDep (committed props form w)
                  = Some (backendErrorOf props w ≫= ad_fieldErrors)
               /\ w_lifecycle (committed props form w)
                  = fst (useSubmitComplete (w_lifecycle w) (isSubmittingOf props w))).
  { destruct (frame_committed props form w) as (_ & _ & _ & Hr & _ & _ & _ & Hl).
    split; [exact Hr | split; [|exact Hl]].
    unfold committed. cbn [with_lifecycle with_hooks w_backendDep].
    apply backendDep_useFieldErrors_effect. }
  assert (Hall : w_router (ValidatedForm props form w) = w_router w
                 /\ w_backendDep (ValidatedForm props form w)
                    = Some (backendErrorOf props w ≫= ad_fieldErrors)
                 /\ w_lifecycle (ValidatedForm props form w)
                    = fst (useSubmitComplete (w_lifecycle w)
                                             (isSubmittingOf props w))).
  { rewrite render_shape. destruct (resets_now props w); [|exact Hc].
    destruct (frame_Form_onReset props
                {| currentTarget := form; defaultPrevented := false |}
                (call [CallFormReset] (committed props form w)))
      as (-> & -> & -> & _).
    exact Hc. }
  destruct Hall as (Hr & Hb & Hl).
  unfold settled, backendErrorOf, isSubmittingOf. rewrite Hr, Hb, Hl.
  split; [reflexivity | apply watcher_level].
Qed.

Lemma settled_local e w :
  local_event e = true -> settled props w -> settled props (step props e w).
Proof.
  intros Hlocal [Hb Hl].
  assert (Hframe : w_router (step props e w) = w_router w
                   /\ w_backendDep (step props e w) = w_backendDep w
                   /\ w_lifecycle (step props e w) = w_lifecycle w).
  { destruct e; try discriminate; cbn [step].
    - destruct (w_formRef w); simpl; auto.
    - destruct (w_formRef w); [|auto].
      destruct (frame_Form_onSubmit props
                  {| currentTarget := f; defaultPrevented := false |} w)
        as (_ & _ & _ & -> & -> & -> & _). auto.
    - destruct (w_formRef w); [|auto].
      destruct (frame_Form_onReset props
                  {| currentTarget := f; defaultPrevented := false |} w)
        as (-> & -> & -> & _). auto.
    - unfold FormContext.setFieldTouched, setTouchedFields. simpl. auto.
    - unfold FormContext.clearError.
      destruct (frame_setFieldErrors (fun h prev => omit h prev [fieldName]) w)
        as (_ & _ & _ & -> & -> & -> & _). auto.
    - destruct (frame_validateField (validator props) fieldName w)
        as (_ & _ & _ & -> & -> & -> & _). auto.
    - auto.
    - auto. }
  destruct Hframe as (Hr & Hd & Hc).
  unfold settled, backendErrorOf, isSubmittingOf in *. now rewrite Hr, Hd, Hc.
Qed.

Lemma settled_run es w :
  forallb local_event es = true -> settled props w ->
  settled props (run props es w).
Proof.
  unfold run. revert w. induction es as [|e es IH]; simpl; intros w Hall Hs.
  - exact Hs.
  - apply andb_prop in Hall as [He Hes]. now apply IH, settled_local.
Qed.

Lemma render_settled form w :
  settled props w ->
  observable (ValidatedForm props form w) = observable w.
Proof.
  intros [Hb Hl]. rewrite render_shape.
  unfold resets_now. rewrite Hl. cbn [andb].
  unfold committed, useFieldErrors_effect.
  cbn [with_formRef with_memo with_hooks w_backendDep].
  rewrite Hb, same_backendDep_refl. reflexivity.
Qed.

(** X11.  Once the form has rendered, a later render finds nothing to do
    as long as the router state has not changed: whatever the user and the
    field components did in between (edits, submits, resets, calls of the
    context callbacks), the render leaves both stores, [hasBeenSubmitted],
    the count of notified updates and the calls as they are.  In
    particular the errors of a server response are not applied a second
    time over local changes, and the completion callback does not run
    again. *)
Theorem render_after_local_events_is_idle
    (form1 form2 : FormElement) (es : list Event) w :
  forallb local_event es = true ->
  observable (ValidatedForm props form2
                (run props es (ValidatedForm props form1 w)))
  = observable (run props es (ValidatedForm props form1 w)).
Proof.
  intros Hlocal. apply render_settled, settled_run; [exact Hlocal|].
  apply settled_render.
Qed.

(** X12.  The first render of a mounted form notifies no state change and
    calls nothing.  The Field Error Store it leaves is the one the form
    was created with: the [fieldErrors] object of the error response of
    this form when the page has one, the empty object otherwise. *)
Theorem first_render_is_quiet
    (location : string) (pre : list RouterEvent) (form : FormElement) :
  let w0 := boot props location pre in
  let w1 := ValidatedForm props form w0 in
  w_updates w1 = 0
  /\ w_calls w1 = []
  /\ w_fieldErrors w1 = w_fieldErrors w0
  /\ w_errors w1 = w_errors w0
  /\ match backendErrorOf props w0 ≫= ad_fieldErrors with
     | Some r => w_fieldErrors w1 = r
     | None => fieldErrorsOf w1 = []
     end.
Proof.
  intros w0 w1. subst w1. rewrite render_shape.
  assert (Hnow : resets_now props w0 = false).
  { unfold resets_now, w0, boot, mount. destruct (useFieldErrors_initial _ _).
    simpl. now destruct (isSubmittingOf _ _). }
  rewrite Hnow.
  assert (Hinit : w_backendDep w0 = None /\ w_updates w0 = 0 /\ w_calls w0 = []
                  /\ match backendErrorOf props w0 ≫= ad_fieldErrors with
                     | Some r => w_fieldErrors w0 = r
                     | None => fieldErrorsOf w0 = []
                     end).
  { unfold w0, boot, mount, backendErrorOf, fieldErrorsOf.
    destruct (useErrorResponseForThisForm _ _ _ ≫= ad_fieldErrors) as [r|] eqn:E;
      unfold useFieldErrors_initial; simpl; rewrite E; repeat split.
    apply (deref_alloc (page location pre).1 []). }
  destruct Hinit as (Hd & Hu & Hc & Hfe).
  unfold committed, useFieldErrors_effect.
  cbn [with_formRef with_memo with_hooks w_backendDep]. rewrite Hd.
  cbn [same_backendDep].
  destruct (backendErrorOf props w0 ≫= ad_fieldErrors) as [r|] eqn:E.
  - unfold setFieldErrors, fieldErrorsOf. simpl. rewrite Hfe, Object_is_refl.
    auto.
  - unfold fieldErrorsOf in *. simpl. auto.
Qed.

(** X13.  When a submission of a form with [resetAfterSubmit] completes
    and there is no error response for the form, the render that observes
    the completion resets the form: unless the caller's reset handler
    cancels the reset event, both stores are empty and [hasBeenSubmitted]
    is false afterwards, while the watcher is back to idle. *)
Theorem completed_submission_resets (form : FormElement) w :
  w_lifecycle w = Submitting ->
  isSubmittingOf props w = false ->
  backendErrorOf props w = None ->
  resetAfterSubmit props = true ->
  reset_cancelled props {| currentTarget := form; defaultPrevented := false |}
    = false ->
  fieldErrorsOf (ValidatedForm props form w) = []
  /\ touchedFieldsOf (ValidatedForm props form w) = []
  /\ w_hasBeenSubmitted (ValidatedForm props form w) = false
  /\ w_lifecycle (ValidatedForm props form w) = Idle
  /\ resets (w_calls (ValidatedForm props form w)) = S (resets (w_calls w)).
Proof.
  intros Hl Hs Hb Hr Hcancel. rewrite render_shape.
  unfold resets_now. rewrite Hl, Hs, Hb, Hr. cbn [useSubmitComplete snd andb].
  set (w3 := call [CallFormReset] (committed props form w)).
  assert (H3 : w_lifecycle w3 = Idle /\ resets (w_calls w3) = S (resets (w_calls w))).
  { unfold w3, call. cbn [w_lifecycle w_calls].
    destruct (frame_committed props form w) as (_ & _ & _ & _ & _ & -> & _ & ->).
    rewrite Hl, Hs, resets_app. simpl. split; [reflexivity | lia]. }
  destruct H3 as [H3l H3c]. clearbody w3.
  assert (He : deref (w_errors w3 ++ [[]]) (length (w_errors w3)) = [])
    by apply (deref_alloc (w_errors w3) []).
  assert (Ht : deref (w_touched w3 ++ [[]]) (length (w_touched w3)) = [])
    by apply (deref_alloc (w_touched w3) []).
  unfold reset_cancelled in Hcancel. simpl in Hcancel.
  unfold Form_onReset, fieldErrorsOf, touchedFieldsOf.
  destruct (onReset props) as [handler|].
  - rewrite Hcancel. simpl.
    split; [exact He | split; [exact Ht | split; [reflexivity|]]].
    split; [exact H3l|]. rewrite resets_app, H3c. simpl. lia.
  - simpl. auto.
Qed.

End Settled.

(** ** What the fields see after a submit or a reset *)

Section Seen.
Context {D : Type}.
Variable props : FormProps D.
Implicit Types w : World D.

Lemma render_exposes form w :
  wf w -> memo_mirrors (w_memo w) ->
  exists cv,
    exposed (ValidatedForm props form w) = Some cv
    /\ cv_fieldErrors cv = w_fieldErrors w
    /\ cv_isValid cv = Nat.eqb (length (Js.keys (fieldErrorsOf w))) 0
    /\ cv_touchedFields cv = w_touchedFields w
    /\ cv_hasBeenSubmitted cv = w_hasBeenSubmitted w.
Proof.
  intros (_ & _ & _ & Hok) Hm. unfold exposed. rewrite memo_render.
  unfold useMemo.
  assert (Hnew : exists cv,
             Some (contextValue (w_errors w) (renderDeps props w)) = Some cv
             /\ cv_fieldErrors cv = w_fieldErrors w
             /\ cv_isValid cv = Nat.eqb (length (Js.keys (fieldErrorsOf w))) 0
             /\ cv_touchedFields cv = w_touchedFields w
             /\ cv_hasBeenSubmitted cv = w_hasBeenSubmitted w)
    by (eexists; split; [reflexivity | simpl; auto]).
  destruct (w_memo w) as [[old value]|] eqn:Em; [|exact Hnew].
  destruct (same_deps old (renderDeps props w)) eqn:Es; [|exact Hnew].
  apply same_deps_true in Es.
  destruct (Hm old value eq_refl) as (_ & _ & _ & H4 & H5).
  destruct (Hok old value eq_refl) as (H1 & _ & H3).
  assert (Hfe : cv_fieldErrors value = w_fieldErrors w)
    by (rewrite <- H1, Es; reflexivity).
  exists value. simpl. unfold fieldErrorsOf.
  rewrite H3, H4, H5, Hfe, Es. auto.
Qed.

Lemma memo_mirrors_reachable location pre es :
  memo_mirrors (w_memo (run props es (boot props location pre))).
Proof.
  apply memo_mirrors_run. intros deps cv. unfold boot, mount.
  destruct (useFieldErrors_initial _ _). simpl. discriminate.
Qed.

Lemma Form_onSubmit_rejected event w (E : FieldErrors) (submittedData : FormData) :
  validate (validator props) (getDataFromForm (currentTarget event))
    = Invalid E submittedData ->
  fieldErrorsOf (snd (Form_onSubmit props event w)) = E.
Proof.
  intros Hfail. unfold Form_onSubmit. rewrite Hfail.
  assert (Hback : deref (w_errors w ++ [E]) (length (w_errors w)) = E)
    by apply (deref_alloc (w_errors w) E).
  destruct (negb _); [|exact Hback].
  destruct (focusFirstInvalidInput _ _ _); exact Hback.
Qed.

Lemma Form_onReset_clears event w :
  reset_cancelled props event = false ->
  fieldErrorsOf (snd (Form_onReset props event w)) = []
  /\ touchedFieldsOf (snd (Form_onReset props event w)) = []
  /\ w_hasBeenSubmitted (snd (Form_onReset props event w)) = false.
Proof.
  assert (He : deref (w_errors w ++ [[]]) (length (w_errors w)) = [])
    by apply (deref_alloc (w_errors w) []).
  assert (Ht : deref (w_touched w ++ [[]]) (length (w_touched w)) = [])
    by apply (deref_alloc (w_touched w) []).
  unfold reset_cancelled, Form_onReset, fieldErrorsOf, touchedFieldsOf.
  destruct (onReset props) as [handler|].
  - destruct (handler event); [now rewrite orb_true_r|].
    rewrite orb_false_r. intros ->. simpl. auto.
  - rewrite orb_false_r. intros ->. simpl. auto.
Qed.

(** X14.  After a submit the validator rejects with field errors [E], the
    next render shows the failure to the fields: the context value it
    exposes has [hasBeenSubmitted] true, a [fieldErrors] whose content is
    [E], and [isValid] true only if [E] is empty. *)
Theorem rejected_submit_is_shown
    (location : string) (pre : list RouterEvent) (es : list Event)
    (form form' : FormElement) (E : FieldErrors) (submittedData : FormData) :
  let w := run props es (boot props location pre) in
  let w1 := step props SubmitFired w in
  w_formRef w = Some form ->
  validate (validator props) (getDataFromForm form) = Invalid E submittedData ->
  exists cv,
    exposed (ValidatedForm props form' w1) = Some cv
    /\ cv_hasBeenSubmitted cv = true
    /\ deref (w_errors w1) (cv_fieldErrors cv) = E
    /\ (cv_isValid cv = true <-> E = []).
Proof.
  intros w w1 Hform Hfail.
  assert (Hw1 : wf w1) by apply wf_step, wf_run, wf_boot.
  assert (Hm1 : memo_mirrors (w_memo w1))
    by apply memo_mirrors_step, memo_mirrors_reachable.
  destruct (render_exposes form' w1 Hw1 Hm1) as (cv & Hcv & Hfe & Hv & _ & Hs).
  assert (Hw1eq : w1 = snd (Form_onSubmit props
                              {| currentTarget := form; defaultPrevented := false |} w))
    by (unfold w1; cbn [step]; now rewrite Hform).
  assert (HE : fieldErrorsOf w1 = E)
    by (rewrite Hw1eq; now apply (Form_onSubmit_rejected _ w E submittedData)).
  exists cv. split; [exact Hcv | split; [|split]].
  - rewrite Hs, Hw1eq. apply frame_Form_onSubmit.
  - rewrite Hfe. exact HE.
  - rewrite Hv, HE. apply no_keys_iff_empty.
Qed.

(** X15.  After a reset event that is not cancelled, the next render shows
    a pristine form to the fields: the context value it exposes has
    [isValid] true, [hasBeenSubmitted] false and no touched field. *)
Theorem reset_is_shown
    (location : string) (pre : list RouterEvent) (es : list Event)
    (form form' : FormElement) :
  let w := run props es (boot props location pre) in
  let w1 := step props ResetFired w in
  w_formRef w = Some form ->
  reset_cancelled props {| currentTarget := form; defaultPrevented := false |}
    = false ->
  exists cv,
    exposed (ValidatedForm props form' w1) = Some cv
    /\ cv_isValid cv = true
    /\ cv_hasBeenSubmitted cv = false
    /\ deref (w_errors w1) (cv_fieldErrors cv) = []
    /\ deref (w_touched w1) (cv_touchedFields cv) = [].
Proof.
  intros w w1 Hform Hcancel.
  assert (Hw1 : wf w1) by apply wf_step, wf_run, wf_boot.
  assert (Hm1 : memo_mirrors (w_memo w1))
    by apply memo_mirrors_step, memo_mirrors_reachable.
  destruct (render_exposes form' w1 Hw1 Hm1) as (cv & Hcv & Hfe & Hv & Ht & Hs).
  assert (Hw1eq : w1 = snd (Form_onReset props
                              {| currentTarget := form; defaultPrevented := false |} w))
    by (unfold w1; cbn [step]; now rewrite Hform).
  destruct (Form_onReset_clears _ w Hcancel) as (He & Htd & Hsub).
  rewrite <- Hw1eq in He, Htd, Hsub.
  exists cv. rewrite Hv, Hs, Hfe, Ht, He. auto.
Qed.

End Seen.

(** ** The further properties at the fixtures *)

Module AtFixture.

Lemma distinct_subactions :
  Js.truthy (Some "another-action") = true
  /\ Some "another-action" <> (None : option string)
  /\ useIsSubmitting "/validation" (Some Scenario.otherSubmission)
       None (Some "another-action") None
     && useIsSubmitting "/validation" (Some Scenario.otherSubmission)
          None None None = false.
Proof.
  assert (Hne : Some "another-action" <> (None : option string)) by discriminate.
  split; [reflexivity | split; [exact Hne|]].
  exact (proj1 (distinct_subactions_never_share "/validation"
                  (Some Scenario.otherSubmission) None None None
                  (Some "another-action") None eq_refl Hne)).
Defined.

Lemma own_submission :
  sub_formData Scenario.otherSubmission
    = renderedEntries Scenario.otherProps [("anotherinput", "x")]
  /\ sub_action Scenario.otherSubmission
     = default "/validation" (action Scenario.otherProps)
  /\ useIsSubmitting "/validation" (Some Scenario.otherSubmission)
       (action Scenario.otherProps) (subaction Scenario.otherProps) None = true.
Proof.
  split; [reflexivity | split; [reflexivity|]].
  exact (proj2 (own_submission_is_submitting Scenario.otherProps "/validation"
                  [("anotherinput", "x")] Scenario.otherSubmission
                  eq_refl eq_refl)
               (or_introl eq_refl)).
Defined.

Lemma touched_merge :
  "lastName" <> "firstName"
  /\ Js.get (touchedFieldsOf
               (FormContext.setFieldTouched "firstName" true
                  (run Fixture.props [Rendered Fixture.janeDoe]
                       (boot Fixture.props "/validation" []))))
            "lastName"
     = Js.get (touchedFieldsOf
                 (run Fixture.props [Rendered Fixture.janeDoe]
                      (boot Fixture.props "/validation" [])))
              "lastName".
Proof.
  assert (Hne : "lastName" <> "firstName") by discriminate.
  split; [exact Hne|].
  exact (proj1 (proj2 (setFieldTouched_merges Fixture.props "/validation" []
                         [Rendered Fixture.janeDoe] "firstName" true))
               "lastName" Hne).
Defined.

Lemma one_field :
  w_formRef (Fixture.mounted Fixture.doeOnly) = Some Fixture.doeOnly
  /\ Js.get (fieldErrorsOf
               (FormContext.validateField Fixture.nameValidator "firstName"
                  (Fixture.mounted Fixture.doeOnly)))
            "firstName"
     = newEntry (validateField Fixture.nameValidator
                   (getDataFromForm Fixture.doeOnly) "firstName").
Proof.
  split; [reflexivity|].
  exact (proj1 (validateField_updates_one_field Fixture.nameValidator
                  "firstName" Fixture.doeOnly (Fixture.mounted Fixture.doeOnly)
                  eq_refl)).
Defined.

Lemma notifies_when_changed :
  w_formRef (run Fixture.props [Rendered Fixture.doeOnly]
                 (boot Fixture.props "/validation" []))
    = Some Fixture.doeOnly
  /\ Js.inherited "firstName" = false
  /\ (w_updates (FormContext.validateField (validator Fixture.props) "firstName"
                   (run Fixture.props [Rendered Fixture.doeOnly]
                        (boot Fixture.props "/validation" [])))
      = w_updates (run Fixture.props [Rendered Fixture.doeOnly]
                       (boot Fixture.props "/validation" []))
      <-> newEntry (validateField (validator Fixture.props)
                      (getDataFromForm Fixture.doeOnly) "firstName")
          = Js.get (fieldErrorsOf (run Fixture.props [Rendered Fixture.doeOnly]
                                       (boot Fixture.props "/validation" [])))
                   "firstName").
Proof.
  assert (Hf : w_formRef (run Fixture.props [Rendered Fixture.doeOnly]
                              (boot Fixture.props "/validation" []))
               = Some Fixture.doeOnly) by (vm_compute; reflexivity).
  split; [exact Hf | split; [reflexivity|]].
  exact (proj1 (proj2 (validateField_notifies_iff_changed Fixture.props
                         "/validation" [] [Rendered Fixture.doeOnly]
                         "firstName" Fixture.doeOnly Hf))
               (or_intror eq_refl)).
Defined.

Lemma empty_failure :
  validate (validator Scenario.rejectingProps)
           (getDataFromForm (currentTarget (Fixture.submitOf Fixture.janeDoe)))
    = Invalid [] (form_entries Fixture.janeDoe)
  /\ disableFocusOnError Scenario.rejectingProps = false
  /\ w_formRef (run Scenario.rejectingProps [Rendered Fixture.janeDoe]
                    (boot Scenario.rejectingProps "/validation" []))
     = Some Fixture.janeDoe
  /\ w_calls (snd (Form_onSubmit Scenario.rejectingProps
                     (Fixture.submitOf Fixture.janeDoe)
                     (run Scenario.rejectingProps [Rendered Fixture.janeDoe]
                          (boot Scenario.rejectingProps "/validation" []))))
     = w_calls (run Scenario.rejectingProps [Rendered Fixture.janeDoe]
                    (boot Scenario.rejectingProps "/validation" []))
       ++ [Uncaught "SyntaxError"].
Proof.
  assert (Hf : w_formRef (run Scenario.rejectingProps [Rendered Fixture.janeDoe]
                              (boot Scenario.rejectingProps "/validation" []))
               = Some Fixture.janeDoe) by (vm_compute; reflexivity).
  split; [reflexivity | split; [reflexivity | split; [exact Hf|]]].
  exact (proj2 (proj2 (proj2
           (failure_without_field_errors_throws Scenario.rejectingProps
              (Fixture.submitOf Fixture.janeDoe) _ (form_entries Fixture.janeDoe)
              Fixture.janeDoe eq_refl eq_refl Hf)))).
Defined.

Lemma safe_focus :
  selects_invalid_inputs Fixture.hiddenThenVisible
    [("a", "A is required"); ("b", "B is required")]
  /\ focusFirstInvalidInput (D := unit)
    [("a", "A is required"); ("b", "B is required")]
    MultiValueMap.empty (Some Fixture.hiddenThenVisible)
    = Returns [CallFocus 1]
  /\ ([CallFocus 1] = @nil (Call unit)
      \/ (exists e, In e (form_elements Fixture.hiddenThenVisible)
                    /\ el_tag e = "input"
                    /\ Js.has [("a", "A is required"); ("b", "B is required")]
                              (el_name e) = true
                    /\ MultiValueMap.has MultiValueMap.empty (el_name e) = false
                    /\ el_type e <> "hidden"
                    /\ [CallFocus 1] = [@CallFocus unit (el_id e)])
      \/ (exists e, In e (form_elements Fixture.hiddenThenVisible)
                    /\ el_tag e = "input"
                    /\ Js.has [("a", "A is required"); ("b", "B is required")]
                              (el_name e) = true
                    /\ MultiValueMap.has MultiValueMap.empty (el_name e) = true
                    /\ [CallFocus 1]
                       = map (@CallHandler unit)
                             (MultiValueMap.getAll MultiValueMap.empty (el_name e)))).
Proof.
  assert (Hdom : selects_invalid_inputs Fixture.hiddenThenVisible
                   [("a", "A is required"); ("b", "B is required")])
    by (vm_compute; reflexivity).
  assert (Hret : focusFirstInvalidInput (D := unit)
                   [("a", "A is required"); ("b", "B is required")]
                   MultiValueMap.empty (Some Fixture.hiddenThenVisible)
                 = Returns [CallFocus 1]) by (vm_compute; reflexivity).
  split; [exact Hdom | split; [exact Hret|]].
  exact (focus_step_is_safe (D := unit)
           [("a", "A is required"); ("b", "B is required")]
           MultiValueMap.empty Fixture.hiddenThenVisible [CallFocus 1] Hdom Hret).
Defined.

Lemma touching_forgets_nothing :
  FieldTouched "lastName" true <> ResetFired
  /\ resets (w_calls (step Fixture.props (FieldTouched "lastName" true)
                           (run Fixture.props [FieldTouched "firstName" true]
                                (Fixture.mounted Fixture.janeDoe))))
     = resets (w_calls (run Fixture.props [FieldTouched "firstName" true]
                            (Fixture.mounted Fixture.janeDoe)))
  /\ Js.has (touchedFieldsOf
               (run Fixture.props [FieldTouched "firstName" true]
                    (Fixture.mounted Fixture.janeDoe)))
            "firstName" = true
  /\ Js.has (touchedFieldsOf
               (step Fixture.props (FieldTouched "lastName" true)
                     (run Fixture.props [FieldTouched "firstName" true]
                          (Fixture.mounted Fixture.janeDoe))))
            "firstName" = true.
Proof.
  assert (Hne : FieldTouched "lastName" true <> ResetFired) by discriminate.
  assert (Hr : resets (w_calls (step Fixture.props (FieldTouched "lastName" true)
                                     (run Fixture.props [FieldTouched "firstName" true]
                                          (Fixture.mounted Fixture.janeDoe))))
               = resets (w_calls (run Fixture.props [FieldTouched "firstName" true]
                                      (Fixture.mounted Fixture.janeDoe))))
    by (vm_compute; reflexivity).
  assert (Hh : Js.has (touchedFieldsOf
                         (run Fixture.props [FieldTouched "firstName" true]
                              (Fixture.mounted Fixture.janeDoe)))
                      "firstName" = true) by (vm_compute; reflexivity).
  split; [exact Hne | split; [exact Hr | split; [exact Hh|]]].
  exact (proj2 (only_reset_forgets Fixture.props (FieldTouched "lastName" true)
                  _ "firstName" Hne Hr) Hh).
Defined.

Lemma idle_render :
  forallb local_event Scenario.userActions = true
  /\ observable (ValidatedForm Fixture.props Fixture.doeOnly
                   (run Fixture.props Scenario.userActions
                        (ValidatedForm Fixture.props Fixture.doeOnly
                           (boot Fixture.props "/validation" []))))
     = observable (run Fixture.props Scenario.userActions
                       (ValidatedForm Fixture.props Fixture.doeOnly
                          (boot Fixture.props "/validation" []))).
Proof.
  split; [reflexivity|].
  exact (render_after_local_events_is_idle Fixture.props Fixture.doeOnly
           Fixture.doeOnly Scenario.userActions _ eq_refl).
Defined.

Lemma completed_reset :
  w_lifecycle Scenario.completing = Submitting
  /\ isSubmittingOf Fixture.props Scenario.completing = false
  /\ backendErrorOf Fixture.props Scenario.completing = None
  /\ resetAfterSubmit Fixture.props = true
  /\ reset_cancelled Fixture.props (Fixture.submitOf Fixture.janeDoe) = false
  /\ w_hasBeenSubmitted
       (ValidatedForm Fixture.props Fixture.janeDoe Scenario.completing) = false.
Proof.
  assert (Hl : w_lifecycle Scenario.completing = Submitting)
    by (vm_compute; reflexivity).
  assert (Hs : isSubmittingOf Fixture.props Scenario.completing = false)
    by (vm_compute; reflexivity).
  assert (Hb : backendErrorOf Fixture.props Scenario.completing = None)
    by (vm_compute; reflexivity).
  split; [exact Hl | split; [exact Hs | split; [exact Hb|]]].
  split; [reflexivity | split; [reflexivity|]].
  exact (proj1 (proj2 (proj2
           (completed_submission_resets Fixture.props Fixture.janeDoe
              Scenario.completing Hl Hs Hb eq_refl eq_refl)))).
Defined.

Lemma rejected_shown :
  w_formRef (run Fixture.props [Rendered Fixture.doeOnly]
                 (boot Fixture.props "/validation" []))
    = Some Fixture.doeOnly
  /\ validate (validator Fixture.props) (getDataFromForm Fixture.doeOnly)
     = Invalid Fixture.firstNameRequired (form_entries Fixture.doeOnly)
  /\ exists cv,
       exposed (ValidatedForm Fixture.props Fixture.doeOnly
                  (step Fixture.props SubmitFired
                     (run Fixture.props [Rendered Fixture.doeOnly]
                          (boot Fixture.props "/validation" []))))
         = Some cv
       /\ cv_hasBeenSubmitted cv = true.
Proof.
  assert (Hf : w_formRef (run Fixture.props [Rendered Fixture.doeOnly]
                              (boot Fixture.props "/validation" []))
               = Some Fixture.doeOnly) by (vm_compute; reflexivity).
  split; [exact Hf | split; [reflexivity|]].
  destruct (rejected_submit_is_shown Fixture.props "/validation" []
              [Rendered Fixture.doeOnly] Fixture.doeOnly Fixture.doeOnly
              Fixture.firstNameRequired (form_entries Fixture.doeOnly)
              Hf eq_refl)
    as (cv & Hcv & Hs & _).
  exists cv. exact (conj Hcv Hs).
Defined.

Lemma reset_shown :
  w_formRef (run Fixture.props [Rendered Fixture.doeOnly; SubmitFired]
                 (boot Fixture.props "/validation" []))
    = Some Fixture.doeOnly
  /\ reset_cancelled Fixture.props (Fixture.submitOf Fixture.doeOnly) = false
  /\ exists cv,
       exposed (ValidatedForm Fixture.props Fixture.doeOnly
                  (step Fixture.props ResetFired
                     (run Fixture.props [Rendered Fixture.doeOnly; SubmitFired]
                          (boot Fixture.props "/validation" []))))
         = Some cv
       /\ cv_isValid cv = true.
Proof.
  assert (Hf : w_formRef (run Fixture.props [Rendered Fixture.doeOnly; SubmitFired]
                              (boot Fixture.props "/validation" []))
               = Some Fixture.doeOnly) by (vm_compute; reflexivity).
  split; [exact Hf | split; [reflexivity|]].
  destruct (reset_is_shown Fixture.props "/validation" []
              [Rendered Fixture.doeOnly; SubmitFired] Fixture.doeOnly
              Fixture.doeOnly Hf eq_refl)
    as (cv & Hcv & Hv & _).
  exists cv. exact (conj Hcv Hv).
Defined.

End AtFixture.
